(** * third-law-ui: relay endpoints, upload widget, findings summary and
      document tables, embedded from the TypeScript sources

    The handlers of [src/app/api/proxy/route.ts] and
    [src/app/api/documents/route.ts] (and the page components stored with
    them) are written here as functions over explicit state.  Network calls
    are recorded in an effect trace, exceptions are values of [Exn], and
    React state is a record that a handler maps to its successor. *)

From Stdlib Require Import ZArith List String Ascii Bool Lia Permutation DecimalString Sorted.
From Stdlib Require QArith_base.
Import ListNotations.
Open Scope string_scope.
Open Scope Z_scope.
Set Warnings "-register-all".

(* ===================================================================== *)
(** ** Shared data: JSON, exceptions, files and form data *)
(* ===================================================================== *)

(** Parsed JSON, the value of [await response.json()].  Numbers are kept
    as integers: every number the handlers inspect is a count. *)
Inductive Json : Type :=
| JNull
| JBool (b : bool)
| JNum (n : Z)
| JStr (s : string)
| JArr (items : list Json)
| JObj (fields : list (string * Json)).

(** A computation that either throws (a rejected promise, a [throw]) with
    the error's detail, or returns. *)
Inductive Exn (A : Type) : Type :=
| Throw (detail : string)
| Ret (a : A).
Arguments Throw {A} detail.
Arguments Ret {A} a.

(** A browser [File]: only the attributes the code reads. *)
Record File : Type := mkFile {
  file_name : string;
  file_type : string;
  file_bytes : string
}.

Inductive FormDataEntry : Type :=
| EntryFile (f : File)
| EntryString (s : string).

Definition FormData : Type := list (string * FormDataEntry).

(** [formData.get(name)]: the first entry of that name, or [null]. *)
Fixpoint FormData_get (name : string) (fd : FormData) : option FormDataEntry :=
  match fd with
  | [] => None
  | (k, v) :: rest => if String.eqb k name then Some v else FormData_get name rest
  end.

(** One outgoing [fetch(url, init)]. *)
Record FetchCall : Type := mkFetchCall {
  fc_url : string;
  fc_method : string;
  fc_headers : list (string * string);
  fc_body : option FormData
}.

(** What a handler does to the outside world, in order. *)
Inductive Effect : Type :=
| Fetched (call : FetchCall)
| Logged (label detail : string).

Fixpoint fetches (t : list Effect) : list FetchCall :=
  match t with
  | [] => []
  | Fetched c :: rest => c :: fetches rest
  | Logged _ _ :: rest => fetches rest
  end.

(** Computations that may throw and that record their effects. *)
Definition Eff (A : Type) : Type := (Exn A * list Effect)%type.

Definition eret {A} (a : A) : Eff A := (Ret a, []).

Definition ebind {A B} (m : Eff A) (k : A -> Eff B) : Eff B :=
  match m with
  | (Throw d, t) => (Throw d, t)
  | (Ret a, t) => let (r, t') := k a in (r, (t ++ t')%list)
  end.

Definition lift {A} (e : Exn A) : Eff A := (e, []).

(** [try { m } catch (error) { h error }] where the handler cannot throw. *)
Definition try_catch {A} (m : Eff A) (h : string -> A * list Effect) : A * list Effect :=
  match m with
  | (Ret a, t) => (a, t)
  | (Throw d, t) => let (r, t') := h d in (r, (t ++ t')%list)
  end.

Notation "x <- m ;; k" := (ebind m (fun x => k))
  (at level 61, m at next level, right associativity).

(** [j.key]: the own field of a JSON object, [None] where JavaScript gives
    [undefined]. *)
Fixpoint fields_get (key : string) (fields : list (string * Json)) : option Json :=
  match fields with
  | [] => None
  | (k, v) :: rest => if String.eqb k key then Some v else fields_get key rest
  end.

Definition has_field (key : string) (j : Json) : bool :=
  match j with
  | JObj fields => match fields_get key fields with Some _ => true | None => false end
  | _ => false
  end.

(* ===================================================================== *)
(** ** Route handlers (server side) *)
(* ===================================================================== *)

Module Server.

(** [NextResponse.json(body, { status })]. *)
Record NextResponse : Type := mkNextResponse {
  body : Json;
  status : Z
}.

Definition NextResponse_json (data : Json) (init_status : option Z) : NextResponse :=
  {| body := data;
     status := match init_status with Some s => s | None => 200 end |}.

(** The backend's answer to a [fetch]: its status line and the outcome of
    [response.json()]. *)
Record BackendResponse : Type := mkBackendResponse {
  resp_status : Z;
  resp_json : Exn Json
}.

(** The incoming request: its query string and the outcome of
    [request.formData()], which rejects when the body is not form data. *)
Record NextRequest : Type := mkNextRequest {
  req_searchParams : list (string * string);
  req_formData : Exn FormData
}.

(** The process environment and the platform the handlers run on.
    [URL_new path base] is [new URL(path, base).toString()], which throws
    on an invalid base. *)
Record Env : Type := mkEnv {
  BACKEND_URL : option string;
  URL_new : string -> string -> Exn string;
  fetch : FetchCall -> Exn BackendResponse
}.

Definition do_fetch (env : Env) (call : FetchCall) : Eff BackendResponse :=
  (fetch env call, [Fetched call]).

(** The forwarded request fails with [detail]: the fetch rejects, or the
    body of the answer is not JSON. *)
Definition forward_fails (env : Env) (call : FetchCall) (detail : string) : Prop :=
  fetch env call = Throw detail \/
  exists response, fetch env call = Ret response /\ resp_json response = Throw detail.

(** [!backendUrl]: undefined or the empty string. *)
Definition not_configured (backendUrl : option string) : bool :=
  match backendUrl with
  | None => true
  | Some u => String.eqb u ""
  end.

Definition env_string (backendUrl : option string) : string :=
  match backendUrl with Some u => u | None => "" end.

Definition error_object (msg : string) : Json := JObj [("error", JStr msg)].

(** The fixed answer when no backend address is configured. *)
Definition configuration_error : NextResponse :=
  NextResponse_json (error_object "Backend URL is not configured") (Some 500).

(** [searchParams.get(name)]. *)
Fixpoint searchParams_get (name : string) (ps : list (string * string)) : option string :=
  match ps with
  | [] => None
  | (k, v) :: rest => if String.eqb k name then Some v else searchParams_get name rest
  end.

(** [value || fallback] on a nullable string. *)
Definition or_default (v : option string) (fallback : string) : string :=
  match v with
  | None => fallback
  | Some s => if String.eqb s "" then fallback else s
  end.

End Server.

(** *** POST /api/proxy  (proxy/route.ts, first handler) *)
Module Proxy.
Import Server.

(** [fetch(uploadUrl, { method: 'POST', body: formData })]. *)
Definition upload_call (uploadUrl : string) (formData : FormData) : FetchCall :=
  {| fc_url := uploadUrl; fc_method := "POST"; fc_headers := [];
     fc_body := Some formData |}.

(** The answer of the [catch] block. *)
Definition proxy_failure : NextResponse :=
  NextResponse_json (error_object "Error processing request") (Some 500).

Definition POST (env : Env) (request : NextRequest) : NextResponse * list Effect :=
  try_catch
    (formData <- lift (req_formData request) ;;
     let backendUrl := BACKEND_URL env in
     if not_configured backendUrl then
       eret configuration_error
     else
       uploadUrl <- lift (URL_new env "/api/v1/upload" (env_string backendUrl)) ;;
       response <- do_fetch env (upload_call uploadUrl formData) ;;
       data <- lift (resp_json response) ;;
       eret (NextResponse_json data None))
    (fun error => (proxy_failure, [Logged "Proxy error:" error])).

End Proxy.

(** *** GET /api/documents  (documents/route.ts, first handler) *)
Module DocumentsRoute.
Import Server.

(** [fetch(urlWithParams, { method: 'GET', headers: {...} })]. *)
Definition listing_call (documentsUrl offset limit : string) : FetchCall :=
  {| fc_url := documentsUrl ++ "?offset=" ++ offset ++ "&limit=" ++ limit;
     fc_method := "GET";
     fc_headers := [("Content-Type", "application/json")];
     fc_body := None |}.

(** The answer of the [catch] block. *)
Definition documents_failure : NextResponse :=
  NextResponse_json (error_object "Error fetching documents") (Some 500).

Definition GET (env : Env) (request : NextRequest) : NextResponse * list Effect :=
  try_catch
    (let offset := or_default (searchParams_get "offset" (req_searchParams request)) "0" in
     let limit := or_default (searchParams_get "limit" (req_searchParams request)) "100" in
     let backendUrl := BACKEND_URL env in
     if not_configured backendUrl then
       eret configuration_error
     else
       documentsUrl <- lift (URL_new env "/api/v1/documents" (env_string backendUrl)) ;;
       response <- do_fetch env (listing_call documentsUrl offset limit) ;;
       data <- lift (resp_json response) ;;
       eret (NextResponse_json data None))
    (fun error => (documents_failure, [Logged "Documents proxy error:" error])).

End DocumentsRoute.

(** *** POST /api/pdf  (proxy/route.ts, second handler) *)
Module Pdf.
Import Server.

Section WithGenerator.
(** The uuid library: a generator state and [uuidv4()], which draws an
    identifier and advances the state. *)
Variable G : Type.
Variable uuidv4 : G -> string * G.

(** [formData.get('file') as File]: the cast does not check anything, so
    a text field named [file] reaches the checks too.  [!file] is true
    for [null] and for the empty string; [file.type] of a string is
    [undefined]. *)
Definition entry_missing (file : option FormDataEntry) : bool :=
  match file with
  | None => true
  | Some (EntryString s) => String.eqb s ""
  | Some (EntryFile _) => false
  end.

Definition entry_type (file : option FormDataEntry) : option string :=
  match file with
  | Some (EntryFile f) => Some (file_type f)
  | _ => None
  end.

(** [!file.type || file.type !== 'application/pdf']. *)
Definition not_pdf (file : option FormDataEntry) : bool :=
  match entry_type file with
  | None => true
  | Some t => String.eqb t "" || negb (String.eqb t "application/pdf")
  end.

(** The [try] body can only throw at [request.formData()]; the [catch]
    block is the first branch. *)
Definition POST (g : G) (request : NextRequest) : NextResponse * list Effect * G :=
  match req_formData request with
  | Throw error =>
      (NextResponse_json (error_object "Error processing file") (Some 500),
       [Logged "Error processing PDF:" error], g)
  | Ret formData =>
      let file := FormData_get "file" formData in
      if entry_missing file then
        (NextResponse_json (error_object "No file uploaded") (Some 400), [], g)
      else if not_pdf file then
        (NextResponse_json (error_object "Only PDF files are allowed") (Some 400), [], g)
      else
        let (documentId, g') := uuidv4 g in
        (NextResponse_json (JObj [("document_id", JStr documentId);
                                  ("status", JStr "success")]) None,
         [], g')
  end.

End WithGenerator.

End Pdf.

(* ===================================================================== *)
(** ** Findings summary (documents/route.ts, [FindingsList]) *)
(* ===================================================================== *)

Module Findings.

Inductive Severity : Type := LOW | MEDIUM | HIGH | CRITICAL.

Record Finding : Type := mkFinding {
  type : string;
  value : option string;
  location : option Z;
  confidence : option QArith_base.Q;
  context : option string;
  matched_text : option string;
  category : option string;
  severity : option Severity
}.

(** *** The accumulator object of [findings.reduce(..., {})]

    The accumulator is a plain object literal, so it is modelled with what a
    plain object does: its own properties in insertion order, reads that
    fall through to [Object.prototype], and the [__proto__] setter.  The
    values stored are numbers, or strings once [+] has concatenated. *)
Inductive JsVal : Type :=
| VNum (n : Z)
| VStr (s : string).

Definition Obj : Type := list (string * JsVal).

(** The property names every plain object inherits from
    [Object.prototype]. *)
Definition Object_prototype_names : list string :=
  [ "constructor"; "__defineGetter__"; "__defineSetter__"; "hasOwnProperty";
    "__lookupGetter__"; "__lookupSetter__"; "isPrototypeOf";
    "propertyIsEnumerable"; "toString"; "valueOf"; "__proto__";
    "toLocaleString" ].

Definition inherited (k : string) : bool :=
  existsb (String.eqb k) Object_prototype_names.

(** [String(Object.prototype[k])]: the prototype object itself for
    [__proto__], the function [Object] for [constructor], and a native
    function of the same name for the others. *)
Definition inherited_to_string (k : string) : string :=
  if String.eqb k "__proto__" then "[object Object]"
  else if String.eqb k "constructor" then "function Object() { [native code] }"
  else "function " ++ k ++ "() { [native code] }".

Fixpoint own_get (k : string) (o : Obj) : option JsVal :=
  match o with
  | [] => None
  | (k', v) :: rest => if String.eqb k' k then Some v else own_get k rest
  end.

(** The result of reading [acc[k]]. *)
Inductive Read : Type :=
| Undefined
| Own (v : JsVal)
| Inherited (k : string).

Definition get (o : Obj) (k : string) : Read :=
  match own_get k o with
  | Some v => Own v
  | None => if inherited k then Inherited k else Undefined
  end.

(** [(x || 0) + 1]: a falsy [x] counts as 0; a number is incremented; any
    other truthy value is converted to a string and ["1"] is appended. *)
Definition or_zero_plus_one (x : Read) : JsVal :=
  match x with
  | Undefined => VNum (0 + 1)
  | Own (VNum n) => VNum (n + 1)
  | Own (VStr s) => if String.eqb s "" then VNum (0 + 1) else VStr (s ++ "1")
  | Inherited k => VStr (inherited_to_string k ++ "1")
  end.

(** Writing an own property keeps its position, or appends a new one. *)
Fixpoint own_set (k : string) (v : JsVal) (o : Obj) : Obj :=
  match o with
  | [] => [(k, v)]
  | (k', v') :: rest =>
      if String.eqb k' k then (k, v) :: rest else (k', v') :: own_set k v rest
  end.

(** [acc[k] = v] for a primitive [v]: the inherited [__proto__] setter
    ignores it, every other name becomes (or stays) an own property. *)
Definition set (o : Obj) (k : string) (v : JsVal) : Obj :=
  match own_get k o with
  | Some _ => own_set k v o
  | None => if String.eqb k "__proto__" then o else own_set k v o
  end.

(** *** [Object.entries]: array-index keys first, in ascending order, then
    the other keys in insertion order *)
Definition digit_of (c : ascii) : option N :=
  let n := N_of_ascii c in
  if ((48 <=? n) && (n <=? 57))%N then Some (n - 48)%N else None.

Fixpoint parse_digits (s : string) (acc : N) : option N :=
  match s with
  | EmptyString => Some acc
  | String c rest =>
      match digit_of c with
      | Some d => parse_digits rest (10 * acc + d)%N
      | None => None
      end
  end.

(** A canonical numeric string below 2^32 - 1. *)
Definition array_index (k : string) : option N :=
  match k with
  | EmptyString => None
  | String c rest =>
      if Ascii.eqb c "0" then
        match rest with EmptyString => Some 0%N | _ => None end
      else
        match parse_digits k 0%N with
        | Some n => if (n <=? 4294967294)%N then Some n else None
        | None => None
        end
  end.

Fixpoint insert_indexed (e : N * (string * JsVal)) (l : list (N * (string * JsVal)))
  : list (N * (string * JsVal)) :=
  match l with
  | [] => [e]
  | x :: rest => if (fst e <=? fst x)%N then e :: l else x :: insert_indexed e rest
  end.

Definition sort_indexed (l : list (N * (string * JsVal))) : list (N * (string * JsVal)) :=
  fold_right insert_indexed [] l.

Fixpoint indexed_entries (o : Obj) : list (N * (string * JsVal)) :=
  match o with
  | [] => []
  | (k, v) :: rest =>
      match array_index k with
      | Some i => (i, (k, v)) :: indexed_entries rest
      | None => indexed_entries rest
      end
  end.

Fixpoint named_entries (o : Obj) : Obj :=
  match o with
  | [] => []
  | (k, v) :: rest =>
      match array_index k with
      | Some _ => named_entries rest
      | None => (k, v) :: named_entries rest
      end
  end.

Definition Object_entries (o : Obj) : list (string * JsVal) :=
  (map snd (sort_indexed (indexed_entries o)) ++ named_entries o)%list.

(** *** Strings *)

(** [toLowerCase] on the ASCII letters; other bytes are left as they are.
    This is [String.prototype.toLowerCase] on strings of ASCII characters;
    on other strings the JavaScript function is Unicode-aware and is not
    modelled. *)
Definition lower_ascii (c : ascii) : ascii :=
  let n := N_of_ascii c in
  if ((65 <=? n) && (n <=? 90))%N then ascii_of_N (n + 32) else c.

Fixpoint toLowerCase (s : string) : string :=
  match s with
  | EmptyString => EmptyString
  | String c rest => String (lower_ascii c) (toLowerCase rest)
  end.

(** [`${count}`]. *)
Definition to_display (v : JsVal) : string :=
  match v with
  | VNum n => DecimalString.NilZero.string_of_int (Z.to_int n)
  | VStr s => s
  end.

(** *** The summary line *)

(** [findings.reduce((acc, finding) => { acc[finding.type] =
    (acc[finding.type] || 0) + 1; return acc; }, {})]. *)
Definition count_step (acc : Obj) (finding : Finding) : Obj :=
  set acc (type finding) (or_zero_plus_one (get acc (type finding))).

Definition count_by_type (findings : list Finding) : Obj :=
  fold_left count_step findings [].

(** The groups the summary lists: [Object.entries] of the count map. *)
Definition summary_groups (findings : list Finding) : list (string * JsVal) :=
  Object_entries (count_by_type findings).

(** [.map(([type, count]) => `${type.toLowerCase()} (${count})`).join(', ')]. *)
Definition summary_item (entry : string * JsVal) : string :=
  toLowerCase (fst entry) ++ " (" ++ to_display (snd entry) ++ ")".

Definition summary_line (findings : list Finding) : string :=
  String.concat ", " (map summary_item (summary_groups findings)).

(** What the component shows: the affirmative line for an empty list, else
    the total and the summary of types. *)
Inductive View : Type :=
| NoSensitiveInformation
| Summary (total : nat) (types_found : string).

Definition FindingsList (findings : list Finding) : View :=
  match findings with
  | [] => NoSensitiveInformation
  | _ => Summary (List.length findings) (summary_line findings)
  end.

(** The counts shown, added up; [None] when a displayed count is not a
    number. *)
Fixpoint sum_counts (entries : list (string * JsVal)) : option Z :=
  match entries with
  | [] => Some 0
  | (_, VNum n) :: rest =>
      match sum_counts rest with Some m => Some (n + m) | None => None end
  | (_, VStr _) :: rest => None
  end.

(** Number of findings whose type is exactly [t]. *)
Definition count_type (t : string) (findings : list Finding) : Z :=
  Z.of_nat (List.length (filter (fun f => String.eqb (type f) t) findings)).


(** Every finding type is an ordinary key, not a name a plain object
    inherits. *)
Definition ordinary_types (findings : list Finding) : Prop :=
  Forall (fun f => inherited (type f) = false) findings.

(** The count map agrees with the findings seen so far: one key per type
    seen, holding the number of findings of exactly that type, and the
    counts add up to the number of findings. *)
Definition counts_agree (acc : Obj) (seen : list Finding) : Prop :=
  NoDup (map fst acc) /\
  sum_counts acc = Some (Z.of_nat (List.length seen)) /\
  forall t, own_get t acc =
            if count_type t seen =? 0 then None else Some (VNum (count_type t seen)).

End Findings.

(* ===================================================================== *)
(** ** Browser side: what the page components share *)
(* ===================================================================== *)

Module Client.

(** [`${n}`] for an integer. *)
Definition Number_toString (n : Z) : string :=
  DecimalString.NilZero.string_of_int (Z.to_int n).

(** A record of the listing, and the envelope the listing relay returns.
    The backend contract is taken as typed by the source; a missing or null
    [documents] field is [None]. *)
Record Document : Type := mkDocument {
  document_id : string;
  filename : string;
  upload_timestamp : string;
  content_length : Z;
  sensitive_info_count : Z;
  email_count : Z;
  ssn_count : Z
}.

Record DocumentsResponse : Type := mkDocumentsResponse {
  total : Z;
  offset : Z;
  limit : Z;
  documents : option (list Document);
  api_version : string
}.

(** [data.documents || []]. *)
Definition documents_or_empty (data : DocumentsResponse) : list Document :=
  match documents data with Some l => l | None => [] end.

(** The browser's [Response]: [ok], [status] and the outcome of [json()]. *)
Record Response (Body : Type) : Type := mkResponse {
  ok : bool;
  status : Z;
  json : Exn Body
}.
Arguments mkResponse {Body} ok status json.
Arguments ok {Body} r.
Arguments status {Body} r.
Arguments json {Body} r.

(** The answers the network gives to the successive [fetch] calls of one
    handler run, in order; [Throw] is a rejected fetch.  When the list is
    used up the next [await] never resumes. *)
Definition Script (Body : Type) : Type := list (Exn (Response Body)).

(** The requests the components issue. *)
Inductive Call : Type :=
| GetDocuments (offset limit : Z)
| PostForm (url : string) (formData : FormData).

Definition call_url (c : Call) : string :=
  match c with
  | GetDocuments offset limit =>
      "/api/documents?offset=" ++ Number_toString offset
        ++ "&limit=" ++ Number_toString limit
  | PostForm url _ => url
  end.

(** The [limit] a listing request carries. *)
Definition call_limit (c : Call) : option Z :=
  match c with
  | GetDocuments _ limit => Some limit
  | PostForm _ _ => None
  end.

(** The result of running an async handler against a script: the state it
    leaves, the requests it issued, and whether it ran to its end
    ([settled]) or is still waiting for an answer. *)
Record Run (State : Type) : Type := mkRun {
  final : State;
  calls : list Call;
  settled : bool
}.
Arguments mkRun {State} final calls settled.
Arguments final {State} r.
Arguments calls {State} r.
Arguments settled {State} r.

(** [if (!response.ok) throw new Error(...); data = await response.json()]
    applied to the outcome of a fetch. *)
Definition checked_json {Body} (r : Exn (Response Body)) : Exn Body :=
  match r with
  | Throw d => Throw d
  | Ret response =>
      if negb (ok response) then
        Throw ("HTTP error! status: " ++ Number_toString (status response))
      else json response
  end.

(** [array.slice(start, end)] with integer arguments. *)
Definition slice {A} (l : list A) (start finish : Z) : list A :=
  let len := Z.of_nat (List.length l) in
  let k := if start <? 0 then Z.max (len + start) 0 else Z.min start len in
  let e := if finish <? 0 then Z.max (len + finish) 0 else Z.min finish len in
  firstn (Z.to_nat (Z.max (e - k) 0)) (skipn (Z.to_nat k) l).

End Client.

(* ===================================================================== *)
(** ** Upload widget (documents/route.ts, [UploadSection]) *)
(* ===================================================================== *)

Module Upload.
Import Client.

Record State : Type := mkState {
  file : option File;
  uploading : bool;
  response : option Json
}.

Definition initial : State := {| file := None; uploading := false; response := None |}.

(** [{ status: 'error', error: msg }]. *)
Definition error_response (msg : string) : Json :=
  JObj [("status", JStr "error"); ("error", JStr msg)].

(** [selectedFile] is [e.target.files?.[0]], absent when the picker was
    dismissed. *)
Definition handleFileChange (selectedFile : option File) (s : State) : State :=
  match selectedFile with
  | Some f =>
      if String.eqb (file_type f) "application/pdf" then
        {| file := Some f; uploading := uploading s; response := None |}
      else
        {| file := None; uploading := uploading s;
           response := Some (error_response "Please select a valid PDF file") |}
  | None =>
      {| file := None; uploading := uploading s;
         response := Some (error_response "Please select a valid PDF file") |}
  end.

(** The entry handed to [onFileProcessed]; [None] stands for [undefined]. *)
Record ProcessedFile : Type := mkProcessedFile {
  pf_id : string;
  pf_name : string;
  pf_timestamp : string;
  pf_status : option Json;
  pf_findings : Json;
  pf_documentId : option Json
}.

(** [j.key] on a non-null JSON value. *)
Definition prop (j : Json) (key : string) : option Json :=
  match j with
  | JObj fields => fields_get key fields
  | _ => None
  end.

(** [j?.key]. *)
Definition opt_prop (j : option Json) (key : string) : option Json :=
  match j with
  | None | Some JNull => None
  | Some v => prop v key
  end.

(** [x || 0]. *)
Definition or_zero (x : option Json) : Json :=
  match x with
  | None | Some JNull | Some (JBool false) | Some (JNum 0) => JNum 0
  | Some (JStr s) => if String.eqb s "" then JNum 0 else JStr s
  | Some v => v
  end.

(** Building [fileInfo] from the relay's answer; reading [data.status]
    throws when the answer is [null]. *)
Definition make_fileInfo (uuid now : string) (f : File) (data : Json) : Exn ProcessedFile :=
  match data with
  | JNull => Throw "Cannot read properties of null (reading 'status')"
  | _ =>
      Ret {| pf_id := uuid;
             pf_name := file_name f;
             pf_timestamp := now;
             pf_status := prop data "status";
             pf_findings :=
               or_zero (opt_prop (opt_prop (prop data "analysis") "statistics")
                                 "total_findings");
             pf_documentId := prop data "document_id" |}
  end.

(** [handleUpload]: [uuid] and [now] are what [crypto.randomUUID()] and
    [new Date().toISOString()] return; the last component is the argument
    of [onFileProcessed], when it is called. *)
Definition handleUpload (uuid now : string) (s : State) (script : Script Json)
  : Run State * option ProcessedFile :=
  match file s with
  | None => (mkRun s [] true, None)
  | Some f =>
      let call := PostForm "/api/proxy" [("file", EntryFile f)] in
      match script with
      | [] =>
          (mkRun {| file := file s; uploading := true; response := None |} [call] false,
           None)
      | answer :: _ =>
          match answer with
          | Throw message =>
              (mkRun {| file := file s; uploading := false;
                        response := Some (error_response message) |} [call] true,
               None)
          | Ret r =>
              match json r with
              | Throw message =>
                  (mkRun {| file := file s; uploading := false;
                            response := Some (error_response message) |} [call] true,
                   None)
              | Ret data =>
                  match make_fileInfo uuid now f data with
                  | Throw message =>
                      (mkRun {| file := file s; uploading := false;
                                response := Some (error_response message) |} [call] true,
                       None)
                  | Ret fileInfo =>
                      (mkRun {| file := file s; uploading := false;
                                response := Some data |} [call] true,
                       Some fileInfo)
                  end
              end
          end
      end
  end.

(** What the user can do to the widget. *)
Inductive Event : Type :=
| FileChange (selectedFile : option File)
| UploadClick (uuid now : string) (script : Script Json).

Definition step (s : State) (e : Event) : State :=
  match e with
  | FileChange selectedFile => handleFileChange selectedFile s
  | UploadClick uuid now script => final (fst (handleUpload uuid now s script))
  end.

(** The states the widget can be in: those reached from [initial]. *)
Inductive reachable : State -> Prop :=
| reach_initial : reachable initial
| reach_step s e : reachable s -> reachable (step s e).

End Upload.

(* ===================================================================== *)
(** ** Document table, server-paginated variant
       (documents/route.ts, first [ProcessedFilesTable]) *)
(* ===================================================================== *)

Module PagedTable.
Import Client.

Record State : Type := mkState {
  documents : option DocumentsResponse;
  loading : bool;
  error : option string;
  currentPage : Z;
  pageSize : Z
}.

Definition initial : State :=
  {| documents := None; loading := true; error := None;
     currentPage := 1; pageSize := 10 |}.

Definition fetchDocuments (s : State) (script : Script DocumentsResponse) : Run State :=
  let offset := (currentPage s - 1) * pageSize s in
  let call := GetDocuments offset (pageSize s) in
  match script with
  | [] =>
      mkRun {| documents := documents s; loading := true; error := None;
               currentPage := currentPage s; pageSize := pageSize s |} [call] false
  | answer :: _ =>
      match checked_json answer with
      | Ret data =>
          mkRun {| documents := Some data; loading := false; error := None;
                   currentPage := currentPage s; pageSize := pageSize s |} [call] true
      | Throw _ =>
          mkRun {| documents := documents s; loading := false;
                   error := Some "Failed to fetch documents. Please try again.";
                   currentPage := currentPage s; pageSize := pageSize s |} [call] true
      end
  end.

Definition handlePageChange (page : Z) (s : State) : State :=
  {| documents := documents s; loading := loading s; error := error s;
     currentPage := page; pageSize := pageSize s |}.

Definition handlePageSizeChange (newPageSize : Z) (s : State) : State :=
  {| documents := documents s; loading := loading s; error := error s;
     currentPage := 1; pageSize := newPageSize |}.

(** [useEffect(() => { fetchDocuments(); }, [currentPage, pageSize])]: after
    a render the effect runs again when one of its dependencies changed. *)
Definition effect_due (before after : State) : bool :=
  negb ((currentPage before =? currentPage after) && (pageSize before =? pageSize after)).

Definition after_render (before after : State) (script : Script DocumentsResponse)
  : Run State :=
  if effect_due before after then fetchDocuments after script
  else mkRun after [] true.

(** The page-size [<select>]: [onChange] calls [handlePageSizeChange], then
    React renders and runs the effects that are due. *)
Definition select_page_size (newPageSize : Z) (s : State)
    (script : Script DocumentsResponse) : Run State :=
  after_render s (handlePageSizeChange newPageSize s) script.

End PagedTable.

(* ===================================================================== *)
(** ** Document table, windowing variant
       (documents/route.ts, second [ProcessedFilesTable]) *)
(* ===================================================================== *)

Module WindowTable.
Import Client.

Record State : Type := mkState {
  documents : option DocumentsResponse;
  loading : bool;
  error : option string;
  currentPage : Z;
  pageSize : Z;
  localDocuments : list Document;
  currentChunk : Z;
  hasMoreDocuments : bool;
  loadingMore : bool
}.

Definition initial : State :=
  {| documents := None; loading := true; error := None;
     currentPage := 1; pageSize := 5;
     localDocuments := []; currentChunk := 0;
     hasMoreDocuments := true; loadingMore := false |}.

(** The values the [<select>] offers. *)
Definition page_size_options : list Z := [5; 10; 25; 50].

(** [fetchDocuments(chunkOffset = 0)].  Every caller passes a multiple of
    100, for which [chunkOffset / 100] is the integer quotient. *)
Definition fetchDocuments (chunkOffset : Z) (s : State)
    (script : Script DocumentsResponse) : Run State :=
  let call := GetDocuments chunkOffset 100 in
  match script with
  | [] =>
      mkRun {| documents := documents s; loading := true; error := None;
               currentPage := currentPage s; pageSize := pageSize s;
               localDocuments := localDocuments s; currentChunk := currentChunk s;
               hasMoreDocuments := hasMoreDocuments s; loadingMore := loadingMore s |}
            [call] false
  | answer :: _ =>
      match checked_json answer with
      | Ret data =>
          mkRun {| documents := Some data; loading := false; error := None;
                   currentPage := currentPage s; pageSize := pageSize s;
                   localDocuments := documents_or_empty data;
                   currentChunk := chunkOffset / 100;
                   hasMoreDocuments :=
                     (Z.of_nat (List.length (documents_or_empty data)) =? 100);
                   loadingMore := false |}
                [call] true
      | Throw _ =>
          mkRun {| documents := documents s; loading := false;
                   error := Some "Failed to fetch documents. Please try again.";
                   currentPage := currentPage s; pageSize := pageSize s;
                   localDocuments := localDocuments s; currentChunk := currentChunk s;
                   hasMoreDocuments := hasMoreDocuments s; loadingMore := false |}
                [call] true
      end
  end.

(** [Math.ceil(a / b)] for a page size [b] other than 0. *)
Definition ceil_div (a b : Z) : Z := - ((- a) / b).

Definition totalDocuments (s : State) : Z := Z.of_nat (List.length (localDocuments s)).
Definition totalPages (s : State) : Z := ceil_div (totalDocuments s) (pageSize s).

(** The rows on display. *)
Definition currentPageDocuments (s : State) : list Document :=
  slice (localDocuments s) ((currentPage s - 1) * pageSize s) (currentPage s * pageSize s).

Definition with_page (page : Z) (more : bool) (s : State) : State :=
  {| documents := documents s; loading := loading s; error := error s;
     currentPage := page; pageSize := pageSize s;
     localDocuments := localDocuments s; currentChunk := currentChunk s;
     hasMoreDocuments := hasMoreDocuments s; loadingMore := more |}.

(** [handlePageChange]: [fetchDocuments] is started, not awaited, and the
    page is reset to 1 before its answer arrives; it never writes the page
    itself. *)
Definition handlePageChange (page : Z) (s : State) (script : Script DocumentsResponse)
  : Run State :=
  if (1 <=? page) && (page <=? totalPages s) then
    if (page =? totalPages s) && hasMoreDocuments s && negb (loadingMore s) then
      let nextChunkOffset := (currentChunk s + 1) * 100 in
      fetchDocuments nextChunkOffset (with_page 1 true s) script
    else mkRun (with_page page (loadingMore s) s) [] true
  else mkRun s [] true.

(** How the probe loop of [handleLastPage] ends. *)
Inductive Probe : Type :=
| Waiting
| Failed (detail : string)
| Stopped (offset : Z) (lastPageDocuments : list Document).

(** [while (offset >= 0) { ... }]: one answer of the script per iteration.
    Returns how the loop ended, the requests it issued and the answers it
    left unread. *)
Fixpoint probe (pageSize offset : Z) (script : Script DocumentsResponse)
  : Probe * list Call * Script DocumentsResponse :=
  if offset >=? 0 then
    let call := GetDocuments offset pageSize in
    match script with
    | [] => (Waiting, [call], [])
    | answer :: rest =>
        match checked_json answer with
        | Throw detail => (Failed detail, [call], rest)
        | Ret data =>
            let documents := documents_or_empty data in
            if Z.of_nat (List.length documents) =? 0 then
              (Stopped offset [], [call], rest)
            else if Z.of_nat (List.length documents) <? pageSize then
              (Stopped offset documents, [call], rest)
            else
              let '(p, more, unread) := probe pageSize (offset + 100) rest in
              (p, call :: more, unread)
        end
    end
  else (Stopped offset [], [], script).

Definition with_loadingMore (more : bool) (s : State) : State :=
  with_page (currentPage s) more s.

(** The [catch] and [finally] blocks of [handleLastPage]. *)
Definition last_page_failed (s : State) : State :=
  {| documents := documents s; loading := loading s;
     error := Some "Failed to fetch last page. Please try again.";
     currentPage := currentPage s; pageSize := pageSize s;
     localDocuments := localDocuments s; currentChunk := currentChunk s;
     hasMoreDocuments := hasMoreDocuments s; loadingMore := false |}.

(** The three state updates at the end of the [try] block, and [finally]. *)
Definition last_page_found (offset : Z) (lastPageDocuments : list Document) (s : State)
  : State :=
  {| documents := documents s; loading := loading s; error := error s;
     currentPage := 1; pageSize := pageSize s;
     localDocuments := lastPageDocuments; currentChunk := offset / 100;
     hasMoreDocuments := hasMoreDocuments s; loadingMore := false |}.

(** The offset of the fallback request. *)
Definition lastPageOffset (s : State) : Z :=
  Z.max 0 ((currentChunk s + 1) * 100 - pageSize s).

Definition handleLastPage (s : State) (script : Script DocumentsResponse) : Run State :=
  if loadingMore s then mkRun s [] true
  else
    let '(p, probes, unread) := probe (pageSize s) 1000 script in
    match p with
    | Waiting => mkRun (with_loadingMore true s) probes false
    | Failed _ => mkRun (last_page_failed s) probes true
    | Stopped offset lastPageDocuments =>
        if Z.of_nat (List.length lastPageDocuments) =? 0 then
          let call := GetDocuments (lastPageOffset s) (pageSize s) in
          match unread with
          | [] => mkRun (with_loadingMore true s) (probes ++ [call]) false
          | answer :: _ =>
              match checked_json answer with
              | Throw _ => mkRun (last_page_failed s) (probes ++ [call]) true
              | Ret data =>
                  mkRun (last_page_found (lastPageOffset s) (documents_or_empty data) s)
                        (probes ++ [call]) true
              end
          end
        else mkRun (last_page_found offset lastPageDocuments s) probes true
    end.

Definition handlePageSizeChange (newPageSize : Z) (s : State) : State :=
  {| documents := documents s; loading := loading s; error := error s;
     currentPage := 1; pageSize := newPageSize;
     localDocuments := localDocuments s; currentChunk := currentChunk s;
     hasMoreDocuments := hasMoreDocuments s; loadingMore := loadingMore s |}.

(** [useEffect(() => { fetchDocuments(); }, [currentChunk])]. *)
Definition effect_due (before after : State) : bool :=
  negb (currentChunk before =? currentChunk after).

Definition after_render (before after : State) (script : Script DocumentsResponse)
  : Run State :=
  if effect_due before after then fetchDocuments 0 after script
  else mkRun after [] true.

(** The page-size [<select>]: [onChange] calls [handlePageSizeChange], then
    React renders and runs the effects that are due. *)
Definition select_page_size (newPageSize : Z) (s : State)
    (script : Script DocumentsResponse) : Run State :=
  after_render s (handlePageSizeChange newPageSize s) script.

(** The states the table can be in: those reached from [initial] by its
    handlers, run against any answers; the page size only changes through
    the [<select>], to one of its options. *)
Inductive reachable : State -> Prop :=
| reach_initial : reachable initial
| reach_fetch s chunkOffset script :
    reachable s -> reachable (final (fetchDocuments chunkOffset s script))
| reach_page s page script :
    reachable s -> reachable (final (handlePageChange page s script))
| reach_last s script :
    reachable s -> reachable (final (handleLastPage s script))
| reach_size s newPageSize :
    reachable s -> In newPageSize page_size_options ->
    reachable (handlePageSizeChange newPageSize s).

(** The offsets of [n] successive probes starting at [offset]. *)
Fixpoint offsets_from (offset : Z) (n : nat) : list Z :=
  match n with
  | O => []
  | S k => offset :: offsets_from (offset + 100) k
  end.

(** The documents an answer delivers to the handler, when it delivers. *)
Definition delivered (answer : Exn (Response DocumentsResponse)) : Exn (list Document) :=
  match checked_json answer with
  | Throw d => Throw d
  | Ret data => Ret (documents_or_empty data)
  end.

(** An answer that delivers exactly [pageSize] records. *)
Definition full_page (pageSize : Z) (answer : Exn (Response DocumentsResponse)) : Prop :=
  exists docs, delivered answer = Ret docs /\ Z.of_nat (List.length docs) = pageSize.

End WindowTable.

(* ===================================================================== *)
(** ** Browser and server put together *)
(* ===================================================================== *)

Module Wire.

(** How a route handler sees a request the browser sent: the query string
    of a listing URL arrives as search parameters, a posted form arrives as
    the request's form data. *)
Definition request_of_call (c : Client.Call) : Server.NextRequest :=
  match c with
  | Client.GetDocuments offset limit =>
      {| Server.req_searchParams :=
           [("offset", Client.Number_toString offset);
            ("limit", Client.Number_toString limit)];
         Server.req_formData := Throw "Request has no form body" |}
  | Client.PostForm _ formData =>
      {| Server.req_searchParams := []; Server.req_formData := Ret formData |}
  end.

(** How the browser sees the answer of a route handler: [ok] for a status
    from 200 to 299, and the JSON body that [NextResponse.json] wrote. *)
Definition response_of (r : Server.NextResponse) : Client.Response Json :=
  Client.mkResponse ((200 <=? Server.status r) && (Server.status r <=? 299))
                    (Server.status r) (Ret (Server.body r)).

End Wire.

(* ===================================================================== *)
(** ** Response panel and finding cards
       (documents/route.ts, [ResponseDisplay] and [FindingsList]) *)
(* ===================================================================== *)

Module Display.

(** JavaScript truthiness of a value read from JSON; [None] is
    [undefined]. *)
Definition truthy (x : option Json) : bool :=
  match x with
  | None | Some JNull | Some (JBool false) | Some (JNum 0) => false
  | Some (JStr s) => negb (String.eqb s "")
  | Some _ => true
  end.

(** [a || b]. *)
Definition or_else (a b : option Json) : option Json :=
  if truthy a then a else b.

(** The panel [ResponseDisplay] returns: the error panel with its text, or
    the success panel with the three fields it prints and whether the
    analysis block is rendered below them. *)
Inductive Panel : Type :=
| ErrorPanel (text : option Json)
| SuccessPanel (document_id api_version message : option Json) (analysis_shown : bool).

Definition is_error_status (x : option Json) : bool :=
  match x with
  | Some (JStr s) => String.eqb s "error"
  | _ => false
  end.

(** [ResponseDisplay({ response })] for the non-null [response] the widget
    passes. *)
Definition ResponseDisplay (response : Json) : Panel :=
  if is_error_status (Upload.prop response "status") then
    ErrorPanel (or_else (Upload.prop response "error") (Upload.prop response "message"))
  else
    SuccessPanel (Upload.prop response "document_id")
                 (Upload.prop response "api_version")
                 (Upload.prop response "message")
                 (truthy (Upload.prop response "analysis")).

(** A string of ASCII characters only.  On these, one character is one
    UTF-16 unit and [Findings.toLowerCase] is what
    [String.prototype.toLowerCase] computes. *)
Fixpoint is_ascii (s : string) : bool :=
  match s with
  | EmptyString => true
  | String c rest => (N_of_ascii c <? 128)%N && is_ascii rest
  end.

(** [String.prototype.replace(/_/g, ' ')]. *)
Fixpoint replace_underscores (s : string) : string :=
  match s with
  | EmptyString => EmptyString
  | String c rest =>
      String (if Ascii.eqb c "_" then " "%char else c) (replace_underscores rest)
  end.

(** The heading of a finding card:
    [finding.type.toLowerCase().replace(/_/g, ' ')]. *)
Definition card_label (finding : Findings.Finding) : string :=
  replace_underscores (Findings.toLowerCase (Findings.type finding)).

End Display.

(* ===================================================================== *)
(** ** Other upload pages
       (documents/route.ts: the single-page [Home] that posts to /api/pdf,
       the [UploadSection] that calls the backend directly, and the [Home]
       that keeps the session history) *)
(* ===================================================================== *)

Module SimpleUpload.
Import Client.

Record State : Type := mkState {
  file : option File;
  uploading : bool;
  response : option Json
}.

Definition initial : State := {| file := None; uploading := false; response := None |}.

(** [{ error: msg }]. *)
Definition error_only (msg : string) : Json := JObj [("error", JStr msg)].

Definition handleFileChange (selectedFile : option File) (s : State) : State :=
  match selectedFile with
  | Some f =>
      if String.eqb (file_type f) "application/pdf" then
        {| file := Some f; uploading := uploading s; response := None |}
      else
        {| file := None; uploading := uploading s;
           response := Some (error_only "Please select a valid PDF file") |}
  | None =>
      {| file := None; uploading := uploading s;
         response := Some (error_only "Please select a valid PDF file") |}
  end.

Definition handleUpload (s : State) (script : Script Json) : Run State :=
  match file s with
  | None => mkRun s [] true
  | Some f =>
      let call := PostForm "/api/pdf" [("file", EntryFile f)] in
      match script with
      | [] => mkRun {| file := file s; uploading := true; response := None |} [call] false
      | Ret r :: _ =>
          match json r with
          | Ret data =>
              mkRun {| file := file s; uploading := false;
                       response := match data with JNull => None | _ => Some data end |}
                    [call] true
          | Throw _ =>
              mkRun {| file := file s; uploading := false;
                       response := Some (error_only "Error uploading file") |} [call] true
          end
      | Throw _ :: _ =>
          mkRun {| file := file s; uploading := false;
                   response := Some (error_only "Error uploading file") |} [call] true
      end
  end.

(** The two status lines under the picker: [response?.error &&] and
    [response?.document_id &&]. *)
Definition shows_error (s : State) : bool :=
  match response s with
  | Some (JObj fields) => Display.truthy (fields_get "error" fields)
  | _ => false
  end.

Definition shows_document_id (s : State) : option Json :=
  match response s with
  | Some (JObj fields) =>
      if Display.truthy (fields_get "document_id" fields)
      then fields_get "document_id" fields else None
  | _ => None
  end.

Inductive Event : Type :=
| FileChange (selectedFile : option File)
| UploadClick (script : Script Json).

Definition step (s : State) (e : Event) : State :=
  match e with
  | FileChange selectedFile => handleFileChange selectedFile s
  | UploadClick script => final (handleUpload s script)
  end.

Inductive reachable : State -> Prop :=
| reach_initial : reachable initial
| reach_step s e : reachable s -> reachable (step s e).

End SimpleUpload.

Module DirectUpload.
Import Client.

(** [handleUpload] of the variant that reads [NEXT_PUBLIC_API_URL]; state,
    file check and [fileInfo] are those of [Upload]. *)
Definition handleUpload (NEXT_PUBLIC_API_URL : option string) (uuid now : string)
    (s : Upload.State) (script : Script Json) : Run Upload.State * option Upload.ProcessedFile :=
  match Upload.file s with
  | None => (mkRun s [] true, None)
  | Some f =>
      if Server.not_configured NEXT_PUBLIC_API_URL then
        (mkRun {| Upload.file := Upload.file s; Upload.uploading := false;
                  Upload.response := Some (Upload.error_response "API URL is not configured") |}
               [] true,
         None)
      else
        let call := PostForm (Server.env_string NEXT_PUBLIC_API_URL ++ "/upload")
                             [("file", EntryFile f)] in
        match script with
        | [] =>
            (mkRun {| Upload.file := Upload.file s; Upload.uploading := true;
                      Upload.response := None |} [call] false,
             None)
        | answer :: _ =>
            match answer with
            | Throw message =>
                (mkRun {| Upload.file := Upload.file s; Upload.uploading := false;
                          Upload.response := Some (Upload.error_response message) |}
                       [call] true,
                 None)
            | Ret r =>
                match json r with
                | Throw message =>
                    (mkRun {| Upload.file := Upload.file s; Upload.uploading := false;
                              Upload.response := Some (Upload.error_response message) |}
                           [call] true,
                     None)
                | Ret data =>
                    match Upload.make_fileInfo uuid now f data with
                    | Throw message =>
                        (mkRun {| Upload.file := Upload.file s; Upload.uploading := false;
                                  Upload.response := Some (Upload.error_response message) |}
                               [call] true,
                         None)
                    | Ret fileInfo =>
                        (mkRun {| Upload.file := Upload.file s; Upload.uploading := false;
                                  Upload.response := Some data |} [call] true,
                         Some fileInfo)
                    end
                end
            end
        end
  end.

End DirectUpload.

Module Home.

Record State : Type := mkState {
  processedFiles : list Upload.ProcessedFile;
  selectedFile : option Upload.ProcessedFile
}.

Definition initial : State := {| processedFiles := []; selectedFile := None |}.

(** [setProcessedFiles(prev => [fileInfo, ...prev]); setSelectedFile(fileInfo)]. *)
Definition handleFileProcessed (fileInfo : Upload.ProcessedFile) (s : State) : State :=
  {| processedFiles := fileInfo :: processedFiles s; selectedFile := Some fileInfo |}.

(** [onSelectFile={setSelectedFile}]: a click on a row of the table. *)
Definition setSelectedFile (fileInfo : Upload.ProcessedFile) (s : State) : State :=
  {| processedFiles := processedFiles s; selectedFile := Some fileInfo |}.

(** One upload click of the page: the widget runs [handleUpload], and the
    entry it hands to [onFileProcessed], if any, reaches the history. *)
Definition upload_click (uuid now : string) (widget : Upload.State) (page : State)
    (script : Client.Script Json) : Upload.State * State :=
  match Upload.handleUpload uuid now widget script with
  | (run, Some fileInfo) => (Client.final run, handleFileProcessed fileInfo page)
  | (run, None) => (Client.final run, page)
  end.

End Home.

(* ===================================================================== *)
(** ** Pager controls of the two tables *)
(* ===================================================================== *)

Module Pager.
Import Client.

(** [for (let i = first; i <= last; i++) pages.push(i)]. *)
Definition range_incl (first last : Z) : list Z :=
  map (fun k => first + Z.of_nat k) (seq 0 (Z.to_nat (last - first + 1))).

(** An entry of the page-number row: a page, or the ['...'] placeholder. *)
Inductive PageItem : Type :=
| PageNum (n : Z)
| Ellipsis.

(** [getPageNumbers] of the windowing table, as a function of the two
    values it reads. *)
Definition getPageNumbers (currentPage totalPages : Z) : list PageItem :=
  let maxVisiblePages := 5 in
  if totalPages <=? maxVisiblePages then
    map PageNum (range_incl 1 totalPages)
  else if currentPage <=? 3 then
    (map PageNum (range_incl 1 4) ++ [Ellipsis] ++ [PageNum totalPages])%list
  else if currentPage >=? totalPages - 2 then
    ([PageNum 1] ++ [Ellipsis] ++ map PageNum (range_incl (totalPages - 3) totalPages))%list
  else
    ([PageNum 1] ++ [Ellipsis]
       ++ map PageNum (range_incl (currentPage - 1) (currentPage + 1))
       ++ [Ellipsis] ++ [PageNum totalPages])%list.

Definition window_page_numbers (s : WindowTable.State) : list PageItem :=
  getPageNumbers (WindowTable.currentPage s) (WindowTable.totalPages s).

(** The numbers among the entries. *)
Fixpoint page_numbers (items : list PageItem) : list Z :=
  match items with
  | [] => []
  | PageNum n :: rest => n :: page_numbers rest
  | Ellipsis :: rest => page_numbers rest
  end.

(** The windowing table's counters and the condition under which it renders
    the pager. *)
Definition startItem (s : WindowTable.State) : Z :=
  if WindowTable.totalDocuments s >? 0
  then (WindowTable.currentPage s - 1) * WindowTable.pageSize s + 1 else 0.

Definition endItem (s : WindowTable.State) : Z :=
  Z.min (WindowTable.currentPage s * WindowTable.pageSize s) (WindowTable.totalDocuments s).

Definition pagination_shown (s : WindowTable.State) : bool :=
  (WindowTable.totalDocuments s >? 0) && (WindowTable.totalPages s >? 1).

(** The rows of page [page] of the cached chunk. *)
Definition page_rows (s : WindowTable.State) (page : Z) : list Document :=
  slice (WindowTable.localDocuments s)
        ((page - 1) * WindowTable.pageSize s) (page * WindowTable.pageSize s).

(** The server-paginated table: its page count, counters and the row of at
    most five page buttons,
    [Array.from({ length: Math.min(5, totalPages) }, (_, i) => pageNum)]. *)
Definition paged_totalPages (p : PagedTable.State) : Z :=
  match PagedTable.documents p with
  | Some d => WindowTable.ceil_div (total d) (PagedTable.pageSize p)
  | None => 0
  end.

Definition paged_startItem (p : PagedTable.State) : Z :=
  match PagedTable.documents p with
  | Some _ => (PagedTable.currentPage p - 1) * PagedTable.pageSize p + 1
  | None => 0
  end.

Definition paged_endItem (p : PagedTable.State) : Z :=
  match PagedTable.documents p with
  | Some d => Z.min (PagedTable.currentPage p * PagedTable.pageSize p) (total d)
  | None => 0
  end.

Definition page_button (currentPage totalPages i : Z) : Z :=
  if totalPages <=? 5 then i + 1
  else if currentPage <=? 3 then i + 1
  else if currentPage >=? totalPages - 2 then totalPages - 4 + i
  else currentPage - 2 + i.

Definition page_buttons (currentPage totalPages : Z) : list Z :=
  map (fun i => page_button currentPage totalPages (Z.of_nat i))
      (seq 0 (Z.to_nat (Z.min 5 totalPages))).

(** Whether the server-paginated table renders its pager, and with it the
    page-size [<select>]: not while loading or showing an error, not
    without documents, and only under [totalPages > 1 &&]. *)
Definition paged_pager_rendered (p : PagedTable.State) : bool :=
  let error_shown :=
    match PagedTable.error p with
    | Some e => negb (String.eqb e "")
    | None => false
    end in
  if PagedTable.loading p then false
  else if error_shown then false
  else match PagedTable.documents p with
       | Some d =>
           negb (Z.of_nat (List.length (documents_or_empty d)) =? 0)
           && (paged_totalPages p >? 1)
       | None => false
       end.

(** A click on a page button of the server-paginated table:
    [handlePageChange], then the render and the effects that are due. *)
Definition go_to_page (page : Z) (p : PagedTable.State)
    (script : Script DocumentsResponse) : Run PagedTable.State :=
  PagedTable.after_render p (PagedTable.handlePageChange page p) script.

(** [handleKeyDown]: Enter and the space bar run the action. *)
Definition handleKeyDown (key : string) : bool :=
  String.eqb key "Enter" || String.eqb key " ".

End Pager.

(* ===================================================================== *)
(** ** The windowing table as the user drives it *)
(* ===================================================================== *)

Module WindowUI.
Import Client.

(** What the controls of the windowing table call. *)
Inductive Action : Type :=
| Refresh
| GoToPage (page : Z)
| GoToLastPage
| SelectPageSize (newPageSize : Z).

Definition run_action (a : Action) (s : WindowTable.State)
    (script : Script DocumentsResponse) : Run WindowTable.State :=
  match a with
  | Refresh => WindowTable.fetchDocuments 0 s script
  | GoToPage page => WindowTable.handlePageChange page s script
  | GoToLastPage => WindowTable.handleLastPage s script
  | SelectPageSize newPageSize =>
      mkRun (WindowTable.handlePageSizeChange newPageSize s) [] true
  end.

(** The [<select>] only offers its four options. *)
Definition offered (a : Action) : Prop :=
  match a with
  | SelectPageSize newPageSize => In newPageSize WindowTable.page_size_options
  | _ => True
  end.

(** States reached from the initial one by the controls; the effect's
    reload is [fetchDocuments()], the same call as [Refresh]. *)
Inductive reachable : WindowTable.State -> Prop :=
| reach_initial : reachable WindowTable.initial
| reach_action s a script :
    reachable s -> offered a -> reachable (final (run_action a s script)).

(** A listing request with an offset that is not negative and a limit
    above 0. *)
Definition well_formed (c : Call) : Prop :=
  match c with
  | GetDocuments offset limit => 0 <= offset /\ 0 < limit
  | PostForm _ _ => False
  end.

End WindowUI.

(* ===================================================================== *)
(** ** Examples used to exercise the handlers *)
(* ===================================================================== *)

Module Examples.
Import Server.

(** A resolver for absolute-path references against an [https://host]
  origin, enough for the scenario of the specification. *)
Definition resolve_on_origin (path base : string) : Exn string :=
if String.prefix "https://" base then Ret (base ++ path)
else Throw "Invalid URL".

Definition backend_json : Json :=
JObj [("status", JStr "error"); ("message", JStr "unsupported document")].

(** A backend that answers every request with status 422 and a JSON body. *)
Definition env_422 : Env :=
{| BACKEND_URL := Some "https://api.example.com";
   URL_new := resolve_on_origin;
   fetch := fun _ => Ret {| resp_status := 422; resp_json := Ret backend_json |} |}.

(** The same platform without [BACKEND_URL]. *)
Definition env_unconfigured : Env :=
{| BACKEND_URL := None;
   URL_new := resolve_on_origin;
   fetch := fun _ => Ret {| resp_status := 200; resp_json := Ret backend_json |} |}.

(** A backend that cannot be reached. *)
Definition env_down : Env :=
{| BACKEND_URL := Some "https://api.example.com";
   URL_new := resolve_on_origin;
   fetch := fun _ => Throw "connect ECONNREFUSED 10.0.0.7:8000" |}.

Definition report_pdf : File :=
{| file_name := "report.pdf"; file_type := "application/pdf"; file_bytes := "%PDF-1.7" |}.

Definition notes_txt : File :=
{| file_name := "notes.txt"; file_type := "text/plain"; file_bytes := "hello" |}.

Definition upload_request : NextRequest :=
{| req_searchParams := [];
   req_formData := Ret [("file", EntryFile report_pdf)] |}.

Definition text_upload_request : NextRequest :=
{| req_searchParams := [];
   req_formData := Ret [("file", EntryFile notes_txt)] |}.

Definition empty_form_request : NextRequest :=
{| req_searchParams := [];
   req_formData := Ret [("comment", EntryString "no attachment")] |}.

(** A POST whose body is not form data: [request.formData()] rejects. *)
Definition json_body_request : NextRequest :=
{| req_searchParams := [];
   req_formData := Throw "Content-Type was not one of multipart/form-data" |}.

Definition listing_request : NextRequest :=
{| req_searchParams := [("offset", "0"); ("limit", "5")];
   req_formData := Throw "Content-Type was not one of multipart/form-data" |}.

(** A counter standing for the uuid generator. *)
Definition counter_uuid (n : nat) : string * nat :=
(String.concat "" ["doc-"; String (ascii_of_nat (48 + n mod 10)) ""], S n).

(** A finding of which only the type is known. *)
Definition finding_of_type (t : string) : Findings.Finding :=
  Findings.mkFinding t None None None None None None None.

Definition doc (n : Z) : Client.Document :=
  Client.mkDocument ("doc-" ++ Client.Number_toString n) "scan.pdf"
    "2024-05-01T10:00:00Z" 2048 n 0 0.

(** An answer carrying the given documents with status 200. *)
Definition answer_with (docs : list Client.Document)
  : Exn (Client.Response Client.DocumentsResponse) :=
  Ret (Client.mkResponse true 200
         (Ret (Client.mkDocumentsResponse (Z.of_nat (List.length docs)) 0 0 (Some docs) "v1"))).

Definition five_docs : list Client.Document := [doc 1; doc 2; doc 3; doc 4; doc 5].

(** The server-paginated table after its first load. *)
Definition paged_loaded : PagedTable.State :=
  Client.final (PagedTable.fetchDocuments PagedTable.initial [answer_with five_docs]).

(** The windowing table after its first chunk. *)
Definition window_loaded : WindowTable.State :=
  Client.final (WindowTable.fetchDocuments 0 WindowTable.initial
                  [answer_with (five_docs ++ five_docs)]).

End Examples.

Module MoreExamples.
Import Server.

(** A listing request without query parameters. *)
Definition bare_listing_request : NextRequest :=
  {| req_searchParams := [];
     req_formData := Throw "Request has no form body" |}.

(** The upload widget after a PDF was picked. *)
Definition widget_with_pdf : Upload.State :=
  Upload.handleFileChange (Some Examples.report_pdf) Upload.initial.

(** The single-page form after a PDF was picked. *)
Definition simple_with_pdf : SimpleUpload.State :=
  SimpleUpload.handleFileChange (Some Examples.report_pdf) SimpleUpload.initial.

Definition hundred_docs : list Client.Document :=
  map (fun k => Examples.doc (Z.of_nat k)) (seq 1 100).

(** The windowing table after a full first chunk: 100 documents, 20 pages
    of 5. *)
Definition window_full_chunk : WindowTable.State :=
  Client.final (WindowTable.fetchDocuments 0 WindowTable.initial
                  [Examples.answer_with hundred_docs]).

(** An answer with status 500 whose body is valid JSON. *)
Definition answer_500 : Exn (Client.Response Client.DocumentsResponse) :=
  Ret (Client.mkResponse false 500
         (Ret (Client.mkDocumentsResponse 0 0 0 None "v1"))).

(** A form whose [file] field is an empty text value. *)
Definition empty_file_field_request : NextRequest :=
  {| req_searchParams := [];
     req_formData := Ret [("file", EntryString "")] |}.

(** A listing answer for a collection of 30 documents, first page of 10. *)
Definition ten_docs : list Client.Document :=
  map (fun k => Examples.doc (Z.of_nat k)) (seq 1 10).

Definition first_page_of_thirty : Exn (Client.Response Client.DocumentsResponse) :=
  Ret (Client.mkResponse true 200
         (Ret (Client.mkDocumentsResponse 30 0 10 (Some ten_docs) "v1"))).

(** The server-paginated table after that first load: three pages, so the
    pager and its page-size select are rendered. *)
Definition paged_three_pages : PagedTable.State :=
  Client.final (PagedTable.fetchDocuments PagedTable.initial [first_page_of_thirty]).

End MoreExamples.

(* ===================================================================== *)
(** ** Properties of the route handlers *)
(* ===================================================================== *)

Section RelayProperties.
Import Server.

(** C4, as stated, fails: with [BACKEND_URL] configured, a POST whose body
    cannot be read as form data is answered from the [catch] block and no
    request reaches the backend. *)
Lemma proxy_unreadable_body_sends_nothing :
  not_configured (BACKEND_URL Examples.env_422) = false /\
  fetches (snd (Proxy.POST Examples.env_422 Examples.json_body_request)) = [] /\
  fst (Proxy.POST Examples.env_422 Examples.json_body_request) = Proxy.proxy_failure.
Proof. repeat split; reflexivity. Qed.

(** C4 (amended): with [BACKEND_URL] configured, when the form data can be
    read and the address resolves, the relay issues exactly one request, the
    POST of that form data to [new URL('/api/v1/upload', BACKEND_URL)], and
    answers with the backend's parsed JSON and status 200 whatever status
    the backend sent; otherwise it issues no request and answers with the
    generic 500 envelope. *)
Theorem proxy_post_relays_once (env : Env) (request : NextRequest) :
  not_configured (BACKEND_URL env) = false ->
  match req_formData request,
        URL_new env "/api/v1/upload" (env_string (BACKEND_URL env)) with
  | Ret formData, Ret uploadUrl =>
      fetches (snd (Proxy.POST env request)) = [Proxy.upload_call uploadUrl formData] /\
      forall response data,
        fetch env (Proxy.upload_call uploadUrl formData) = Ret response ->
        resp_json response = Ret data ->
        fst (Proxy.POST env request) = {| body := data; status := 200 |}
  | _, _ =>
      fetches (snd (Proxy.POST env request)) = [] /\
      fst (Proxy.POST env request) = Proxy.proxy_failure
  end.
Proof.
  intros Hcfg. unfold Proxy.POST.
  destruct (req_formData request) as [d | formData]; cbn.
  - split; reflexivity.
  - rewrite Hcfg.
    destruct (URL_new env "/api/v1/upload" (env_string (BACKEND_URL env)))
      as [d | uploadUrl]; cbn.
    + split; reflexivity.
    + split.
      * destruct (fetch env (Proxy.upload_call uploadUrl formData)) as [d | response]; cbn;
          [reflexivity |].
        destruct (resp_json response); reflexivity.
      * intros response data Hf Hj. rewrite Hf; cbn. rewrite Hj; reflexivity.
Qed.

Lemma proxy_post_relays_once_witness :
  fetches (snd (Proxy.POST Examples.env_422 Examples.upload_request))
    = [Proxy.upload_call "https://api.example.com/api/v1/upload"
         [("file", EntryFile Examples.report_pdf)]] /\
  fst (Proxy.POST Examples.env_422 Examples.upload_request)
    = {| body := Examples.backend_json; status := 200 |}.
Proof.
  split.
  - exact (proj1 (proxy_post_relays_once Examples.env_422 Examples.upload_request eq_refl)).
  - exact (proj2 (proxy_post_relays_once Examples.env_422 Examples.upload_request eq_refl)
             _ _ eq_refl eq_refl).
Defined.

(** C5, as stated, fails: without [BACKEND_URL], a POST to /api/proxy whose
    body cannot be read is answered with the generic envelope of the [catch]
    block, not with the configuration error, because the form data is read
    before the address is checked. *)
Lemma proxy_unconfigured_unreadable_body :
  not_configured (BACKEND_URL Examples.env_unconfigured) = true /\
  fst (Proxy.POST Examples.env_unconfigured Examples.json_body_request)
    = Proxy.proxy_failure /\
  fst (Proxy.POST Examples.env_unconfigured Examples.json_body_request)
    <> configuration_error.
Proof. repeat split; try reflexivity. discriminate. Qed.

(** C5 (amended): without [BACKEND_URL], GET /api/documents always, and
    POST /api/proxy whenever its form data can be read, answer with the
    configuration error and status 500, and neither endpoint contacts a
    backend (a POST whose form data cannot be read gets the generic 500
    envelope instead).  When the forwarded request or the parsing of its
    answer fails, each relay answers with its own fixed envelope and status
    500; the failure detail goes to the log only. *)
Theorem relay_error_answers (env : Env) (request : NextRequest) :
  (not_configured (BACKEND_URL env) = true ->
     DocumentsRoute.GET env request = (configuration_error, []) /\
     fetches (snd (Proxy.POST env request)) = [] /\
     status (fst (Proxy.POST env request)) = 500 /\
     (forall formData, req_formData request = Ret formData ->
        Proxy.POST env request = (configuration_error, [])) /\
     (forall detail, req_formData request = Throw detail ->
        Proxy.POST env request = (Proxy.proxy_failure, [Logged "Proxy error:" detail]))) /\
  (forall formData uploadUrl detail,
     not_configured (BACKEND_URL env) = false ->
     req_formData request = Ret formData ->
     URL_new env "/api/v1/upload" (env_string (BACKEND_URL env)) = Ret uploadUrl ->
     forward_fails env (Proxy.upload_call uploadUrl formData) detail ->
     Proxy.POST env request
       = (Proxy.proxy_failure,
          [Fetched (Proxy.upload_call uploadUrl formData); Logged "Proxy error:" detail])) /\
  (forall documentsUrl detail,
     not_configured (BACKEND_URL env) = false ->
     URL_new env "/api/v1/documents" (env_string (BACKEND_URL env)) = Ret documentsUrl ->
     let call :=
       DocumentsRoute.listing_call documentsUrl
         (or_default (searchParams_get "offset" (req_searchParams request)) "0")
         (or_default (searchParams_get "limit" (req_searchParams request)) "100") in
     forward_fails env call detail ->
     DocumentsRoute.GET env request
       = (DocumentsRoute.documents_failure,
          [Fetched call; Logged "Documents proxy error:" detail])).
Proof.
  split; [| split].
  - intros Hcfg. unfold DocumentsRoute.GET, Proxy.POST. cbn. rewrite Hcfg.
    split; [reflexivity |].
    destruct (req_formData request) as [d | formData]; cbn; rewrite ?Hcfg; cbn.
    + split; [reflexivity | split; [reflexivity | split]].
      * intros formData H. discriminate H.
      * intros detail H. injection H as <-. reflexivity.
    + split; [reflexivity | split; [reflexivity | split]].
      * intros formData0 H. reflexivity.
      * intros detail H. discriminate H.
  - intros formData uploadUrl detail Hcfg Hfd Hurl Hfail.
    unfold Proxy.POST. rewrite Hfd; cbn. rewrite Hcfg, Hurl; cbn.
    destruct Hfail as [Hf | [response [Hf Hj]]]; rewrite Hf; cbn.
    + reflexivity.
    + rewrite Hj; reflexivity.
  - intros documentsUrl detail Hcfg Hurl call Hfail.
    unfold DocumentsRoute.GET. cbn. rewrite Hcfg, Hurl; cbn. fold call.
    destruct Hfail as [Hf | [response [Hf Hj]]]; rewrite Hf; cbn.
    + reflexivity.
    + rewrite Hj; reflexivity.
Qed.

Lemma relay_error_answers_witness :
  DocumentsRoute.GET Examples.env_unconfigured Examples.listing_request
    = (configuration_error, []) /\
  Proxy.POST Examples.env_unconfigured Examples.upload_request
    = (configuration_error, []) /\
  fst (Proxy.POST Examples.env_down Examples.upload_request) = Proxy.proxy_failure /\
  fst (DocumentsRoute.GET Examples.env_down Examples.listing_request)
    = DocumentsRoute.documents_failure.
Proof.
  pose proof (relay_error_answers Examples.env_unconfigured Examples.listing_request) as [Hget _].
  pose proof (relay_error_answers Examples.env_unconfigured Examples.upload_request) as [Hpost _].
  pose proof (relay_error_answers Examples.env_down Examples.upload_request) as [_ [Hp _]].
  pose proof (relay_error_answers Examples.env_down Examples.listing_request) as [_ [_ Hg]].
  split; [exact (proj1 (Hget eq_refl)) |].
  split; [exact (proj1 (proj2 (proj2 (proj2 (Hpost eq_refl)))) _ eq_refl) |].
  split.
  - rewrite (Hp _ _ _ eq_refl eq_refl eq_refl (or_introl eq_refl)). reflexivity.
  - rewrite (Hg _ _ eq_refl eq_refl (or_introl eq_refl)). reflexivity.
Defined.

(** C10, as stated, fails: a form whose [file] field is an empty text value
    has a [file] entry without a type, yet it is answered "No file
    uploaded", not "Only PDF files are allowed": the first check, [!file],
    is also true of the empty string. *)
Lemma pdf_empty_text_field_is_no_file :
  FormData_get "file" [("file", EntryString "")] = Some (EntryString "") /\
  Pdf.entry_type (Some (EntryString "")) = None /\
  Pdf.POST nat Examples.counter_uuid 7%nat MoreExamples.empty_file_field_request
    = ({| body := JObj [("error", JStr "No file uploaded")]; status := 400 |}, [], 7%nat) /\
  body (fst (fst (Pdf.POST nat Examples.counter_uuid 7%nat
                    MoreExamples.empty_file_field_request)))
    <> JObj [("error", JStr "Only PDF files are allowed")].
Proof. repeat split; try reflexivity. discriminate. Qed.

(** C10 (amended): for a POST to /api/pdf whose form data can be read, the
    answer is 400 [{error: "No file uploaded"}] when there is no [file]
    field or the field is an empty text value; 400 [{error: "Only PDF files
    are allowed"}] when the entry is a file whose type is not
    application/pdf (the empty type included) or a non-empty text value,
    which has no type; and only for a PDF-typed file it is
    [{document_id, status: "success"}] with status 200 and the identifier
    drawn from the generator during this request.  No error branch draws an
    identifier or carries a [document_id]. *)
Theorem pdf_post_validates (G : Type) (uuidv4 : G -> string * G) (g : G)
    (request : NextRequest) :
  (forall formData,
     req_formData request = Ret formData ->
     FormData_get "file" formData = None \/
     FormData_get "file" formData = Some (EntryString "") ->
     Pdf.POST G uuidv4 g request
       = ({| body := JObj [("error", JStr "No file uploaded")]; status := 400 |}, [], g)) /\
  (forall formData,
     req_formData request = Ret formData ->
     (exists f, FormData_get "file" formData = Some (EntryFile f) /\
                file_type f <> "application/pdf") \/
     (exists s, FormData_get "file" formData = Some (EntryString s) /\ s <> "") ->
     Pdf.POST G uuidv4 g request
       = ({| body := JObj [("error", JStr "Only PDF files are allowed")]; status := 400 |},
          [], g)) /\
  (forall formData f,
     req_formData request = Ret formData ->
     FormData_get "file" formData = Some (EntryFile f) ->
     file_type f = "application/pdf" ->
     Pdf.POST G uuidv4 g request
       = ({| body := JObj [("document_id", JStr (fst (uuidv4 g)));
                           ("status", JStr "success")];
             status := 200 |}, [], snd (uuidv4 g))) /\
  (has_field "document_id" (body (fst (fst (Pdf.POST G uuidv4 g request)))) = true ->
     exists formData f,
       req_formData request = Ret formData /\
       FormData_get "file" formData = Some (EntryFile f) /\
       file_type f = "application/pdf") /\
  (status (fst (fst (Pdf.POST G uuidv4 g request))) <> 200 ->
     snd (Pdf.POST G uuidv4 g request) = g /\
     has_field "document_id" (body (fst (fst (Pdf.POST G uuidv4 g request)))) = false).
Proof.
  unfold Pdf.POST.
  split; [| split; [| split; [| split]]].
  - intros formData Hfd [Hget | Hget]; rewrite Hfd, Hget; reflexivity.
  - intros formData Hfd [[f [Hget Hty]] | [s [Hget Hs]]]; rewrite Hfd, Hget.
    + cbn [Pdf.entry_missing]. unfold Pdf.not_pdf. cbn [Pdf.entry_type].
      destruct (String.eqb_spec (file_type f) "application/pdf") as [E | E];
        [contradiction |].
      rewrite orb_true_r. reflexivity.
    + cbn [Pdf.entry_missing]. apply String.eqb_neq in Hs. rewrite Hs. reflexivity.
  - intros formData f Hfd Hget Hty. rewrite Hfd, Hget. cbn.
    unfold Pdf.not_pdf. cbn. rewrite Hty. cbn.
    destruct (uuidv4 g) as [documentId g']. reflexivity.
  - destruct (req_formData request) as [d | formData]; [cbn; discriminate |].
    destruct (Pdf.entry_missing (FormData_get "file" formData)) eqn:Hmiss;
      [cbn; discriminate |].
    destruct (Pdf.not_pdf (FormData_get "file" formData)) eqn:Hnp;
      [cbn; discriminate |].
    intros _. exists formData.
    destruct (FormData_get "file" formData) as [[f | s] |]; try discriminate Hnp.
    exists f. repeat split.
    unfold Pdf.not_pdf in Hnp. cbn in Hnp.
    apply orb_false_iff in Hnp. destruct Hnp as [_ Hnp].
    apply negb_false_iff in Hnp. apply String.eqb_eq. exact Hnp.
  - destruct (req_formData request) as [d | formData]; [cbn; intros _; split; reflexivity |].
    destruct (Pdf.entry_missing (FormData_get "file" formData));
      [cbn; intros _; split; reflexivity |].
    destruct (Pdf.not_pdf (FormData_get "file" formData));
      [cbn; intros _; split; reflexivity |].
    destruct (uuidv4 g) as [documentId g']. cbn. intros H. exfalso. apply H. reflexivity.
Qed.

Lemma pdf_post_validates_witness :
  Pdf.POST nat Examples.counter_uuid 7%nat Examples.empty_form_request
    = ({| body := JObj [("error", JStr "No file uploaded")]; status := 400 |}, [], 7%nat) /\
  Pdf.POST nat Examples.counter_uuid 7%nat Examples.text_upload_request
    = ({| body := JObj [("error", JStr "Only PDF files are allowed")]; status := 400 |},
       [], 7%nat) /\
  Pdf.POST nat Examples.counter_uuid 7%nat Examples.upload_request
    = ({| body := JObj [("document_id", JStr "doc-7"); ("status", JStr "success")];
          status := 200 |}, [], 8%nat).
Proof.
  split; [| split].
  - exact (proj1 (pdf_post_validates nat Examples.counter_uuid 7%nat
                    Examples.empty_form_request) _ eq_refl (or_introl eq_refl)).
  - refine (proj1 (proj2 (pdf_post_validates nat Examples.counter_uuid 7%nat
                            Examples.text_upload_request)) _ eq_refl
              (or_introl (ex_intro _ Examples.notes_txt (conj eq_refl _)))).
    discriminate.
  - exact (proj1 (proj2 (proj2 (pdf_post_validates nat Examples.counter_uuid 7%nat
                                  Examples.upload_request))) _ _ eq_refl eq_refl eq_refl).
Defined.

End RelayProperties.
(* ===================================================================== *)
(** ** Properties of the findings summary *)
(* ===================================================================== *)

Section FindingsProperties.
Import Findings.

(** Reading back what [own_set] wrote. *)
Lemma own_get_own_set_same (k : string) (v : JsVal) (o : Obj) :
  own_get k (own_set k v o) = Some v.
Proof.
  induction o as [| [k' v'] rest IH]; cbn.
  - rewrite String.eqb_refl. reflexivity.
  - destruct (String.eqb k' k) eqn:E; cbn.
    + rewrite String.eqb_refl. reflexivity.
    + rewrite E. exact IH.
Qed.

Lemma own_get_own_set_other (k k0 : string) (v : JsVal) (o : Obj) :
  k <> k0 -> own_get k0 (own_set k v o) = own_get k0 o.
Proof.
  intros Hne. induction o as [| [k' v'] rest IH]; cbn.
  - destruct (String.eqb_spec k k0); [contradiction | reflexivity].
  - destruct (String.eqb_spec k' k) as [-> | Hk]; cbn.
    + destruct (String.eqb_spec k k0); [contradiction | reflexivity].
    + destruct (String.eqb k' k0); [reflexivity | exact IH].
Qed.

Lemma own_get_none_not_key (k : string) (o : Obj) :
  own_get k o = None -> ~ In k (map fst o).
Proof.
  induction o as [| [k' v'] rest IH]; cbn; intros H.
  - intros [].
  - destruct (String.eqb_spec k' k) as [-> | Hk]; [discriminate |].
    intros [E | Hin]; [contradiction | exact (IH H Hin)].
Qed.

Lemma own_get_some_key (k : string) (v : JsVal) (o : Obj) :
  own_get k o = Some v -> In (k, v) o.
Proof.
  induction o as [| [k' v'] rest IH]; cbn; intros H.
  - discriminate.
  - destruct (String.eqb_spec k' k) as [-> | Hk].
    + injection H as ->. left; reflexivity.
    + right. exact (IH H).
Qed.

(** Overwriting an existing key leaves the key list as it is. *)
Lemma keys_own_set_present (k : string) (v v0 : JsVal) (o : Obj) :
  own_get k o = Some v0 -> map fst (own_set k v o) = map fst o.
Proof.
  induction o as [| [k' v'] rest IH]; cbn; intros H.
  - discriminate.
  - destruct (String.eqb_spec k' k) as [-> | Hk]; cbn.
    + reflexivity.
    + f_equal. exact (IH H).
Qed.

(** Writing a new key appends it. *)
Lemma own_set_absent (k : string) (v : JsVal) (o : Obj) :
  own_get k o = None -> own_set k v o = (o ++ [(k, v)])%list.
Proof.
  induction o as [| [k' v'] rest IH]; cbn; intros H.
  - reflexivity.
  - destruct (String.eqb k' k); [discriminate |].
    f_equal. exact (IH H).
Qed.

(** The displayed total grows by one when a numeric count is incremented. *)
Lemma sum_counts_increment (k : string) (n s : Z) (o : Obj) :
  own_get k o = Some (VNum n) -> sum_counts o = Some s ->
  sum_counts (own_set k (VNum (n + 1)) o) = Some (s + 1).
Proof.
  revert s. induction o as [| [k' v'] rest IH]; cbn; intros s Hget Hsum.
  - discriminate.
  - destruct (String.eqb_spec k' k) as [-> | Hk]; cbn.
    + injection Hget as ->.
      destruct (sum_counts rest) as [m |]; [| discriminate].
      injection Hsum as <-. f_equal. lia.
    + destruct v' as [n' | s']; [| discriminate].
      destruct (sum_counts rest) as [m |] eqn:Em; [| discriminate].
      rewrite (IH m Hget eq_refl). injection Hsum as <-. f_equal. lia.
Qed.

Lemma sum_counts_app (o1 o2 : Obj) (s1 s2 : Z) :
  sum_counts o1 = Some s1 -> sum_counts o2 = Some s2 ->
  sum_counts (o1 ++ o2) = Some (s1 + s2).
Proof.
  revert s1. induction o1 as [| [k v] rest IH]; cbn; intros s1 H1 H2.
  - injection H1 as <-. exact H2.
  - destruct v as [n | s]; [| discriminate].
    destruct (sum_counts rest) as [m |] eqn:Em; [| discriminate].
    rewrite (IH m eq_refl H2). injection H1 as <-. f_equal. lia.
Qed.

(** The displayed total does not depend on the order of the groups. *)
Lemma sum_counts_permutation (o1 o2 : Obj) :
  Permutation o1 o2 -> sum_counts o1 = sum_counts o2.
Proof.
  induction 1 as [| [k v] l l' _ IH | [k1 v1] [k2 v2] l | l l' l'' _ IH1 _ IH2]; cbn.
  - reflexivity.
  - rewrite IH. reflexivity.
  - destruct v1, v2; try reflexivity.
    + destruct (sum_counts l); [f_equal; lia | reflexivity].
  - congruence.
Qed.

Lemma insert_indexed_permutation (e : N * (string * JsVal)) (l : list (N * (string * JsVal))) :
  Permutation (insert_indexed e l) (e :: l).
Proof.
  induction l as [| x rest IH]; cbn.
  - apply Permutation_refl.
  - destruct (fst e <=? fst x)%N.
    + apply Permutation_refl.
    + eapply perm_trans; [apply perm_skip; exact IH | apply perm_swap].
Qed.

Lemma sort_indexed_permutation (l : list (N * (string * JsVal))) :
  Permutation (sort_indexed l) l.
Proof.
  induction l as [| x rest IH]; cbn.
  - apply perm_nil.
  - eapply perm_trans; [apply insert_indexed_permutation | apply perm_skip; exact IH].
Qed.

Lemma split_entries_permutation (o : Obj) :
  Permutation (map snd (indexed_entries o) ++ named_entries o) o.
Proof.
  induction o as [| [k v] rest IH]; cbn.
  - apply perm_nil.
  - destruct (array_index k); cbn.
    + apply perm_skip. exact IH.
    + eapply perm_trans; [apply Permutation_sym, Permutation_middle |].
      apply perm_skip. exact IH.
Qed.

(** [Object.entries] lists exactly the own properties, reordered. *)
Lemma Object_entries_permutation (o : Obj) : Permutation (Object_entries o) o.
Proof.
  unfold Object_entries.
  eapply perm_trans; [| apply split_entries_permutation].
  apply Permutation_app_tail. apply Permutation_map. apply sort_indexed_permutation.
Qed.

(** Keys of a duplicate-free property list determine their values. *)
Lemma NoDup_map_fst_unique (o : Obj) (k : string) (v1 v2 : JsVal) :
  NoDup (map fst o) -> In (k, v1) o -> In (k, v2) o -> v1 = v2.
Proof.
  induction o as [| [k' v'] rest IH]; cbn; intros Hnd H1 H2.
  - destruct H1.
  - inversion Hnd as [| ? ? Hnotin Hrest]; subst.
    destruct H1 as [E1 | H1], H2 as [E2 | H2].
    + congruence.
    + injection E1 as -> ->. exfalso. apply Hnotin. apply (in_map fst) in H2. exact H2.
    + injection E2 as -> ->. exfalso. apply Hnotin. apply (in_map fst) in H1. exact H1.
    + exact (IH Hrest H1 H2).
Qed.

Lemma count_type_snoc (t : string) (seen : list Finding) (f : Finding) :
  count_type t (seen ++ [f]) =
  count_type t seen + (if String.eqb (type f) t then 1 else 0).
Proof.
  unfold count_type. rewrite filter_app, length_app. cbn.
  destruct (String.eqb (type f) t); cbn; lia.
Qed.

Lemma count_type_nonneg (t : string) (seen : list Finding) : 0 <= count_type t seen.
Proof. unfold count_type. lia. Qed.

Lemma ordinary_not_proto (k : string) :
  inherited k = false -> String.eqb k "__proto__" = false.
Proof.
  unfold inherited. cbn. intros H.
  repeat (apply orb_false_iff in H; destruct H as [? H]).
  repeat match goal with
         | E : _ = false |- _ => apply orb_false_iff in E; destruct E
         end.
  assumption.
Qed.

(** One step of the reduction keeps the count map in agreement, as long as
    the finding's type is an ordinary key. *)
Lemma count_step_agrees (acc : Obj) (seen : list Finding) (f : Finding) :
  inherited (type f) = false ->
  counts_agree acc seen -> counts_agree (count_step acc f) (seen ++ [f]).
Proof.
  intros Hord (Hnd & Hsum & Hcnt).
  unfold count_step, set, get.
  pose proof (Hcnt (type f)) as Hk.
  pose proof (count_type_nonneg (type f) seen) as Hpos.
  destruct (count_type (type f) seen =? 0) eqn:Ez.
  - (* first finding of this type *)
    rewrite Hk, Hord, (ordinary_not_proto _ Hord). cbn [or_zero_plus_one].
    rewrite (own_set_absent _ _ _ Hk).
    apply Z.eqb_eq in Ez.
    split; [| split].
    + rewrite map_app. cbn. apply NoDup_app; [exact Hnd | | ].
      * apply NoDup_cons; [intros [] | apply NoDup_nil].
      * intros x Hx [<- | []]. exact (own_get_none_not_key _ _ Hk Hx).
    + rewrite (sum_counts_app acc [(type f, VNum (0 + 1))] _ 1 Hsum eq_refl). f_equal.
      rewrite length_app. cbn. lia.
    + intros t. rewrite count_type_snoc.
      rewrite <- (own_set_absent _ (VNum (0 + 1)) _ Hk).
      destruct (String.eqb_spec (type f) t) as [<- | Hne].
      * rewrite own_get_own_set_same, Ez. reflexivity.
      * rewrite (own_get_own_set_other _ _ _ _ Hne), Z.add_0_r. apply Hcnt.
  - (* a type already counted *)
    rewrite Hk. cbn [or_zero_plus_one]. apply Z.eqb_neq in Ez.
    split; [| split].
    + rewrite (keys_own_set_present _ _ _ _ Hk). exact Hnd.
    + rewrite (sum_counts_increment _ _ _ _ Hk Hsum). f_equal.
      rewrite length_app. cbn. lia.
    + intros t. rewrite count_type_snoc.
      destruct (String.eqb_spec (type f) t) as [<- | Hne].
      * rewrite own_get_own_set_same.
        destruct (count_type (type f) seen + 1 =? 0) eqn:E1; [apply Z.eqb_eq in E1; lia |].
        reflexivity.
      * rewrite (own_get_own_set_other _ _ _ _ Hne), Z.add_0_r. apply Hcnt.
Qed.

Lemma fold_count_agrees (rest seen : list Finding) (acc : Obj) :
  ordinary_types rest -> counts_agree acc seen ->
  counts_agree (fold_left count_step rest acc) (seen ++ rest).
Proof.
  revert seen acc. induction rest as [| f rest IH]; intros seen acc Hord Hagree; cbn.
  - rewrite app_nil_r. exact Hagree.
  - inversion Hord as [| ? ? Hf Hrest]; subst.
    replace (seen ++ f :: rest)%list with ((seen ++ [f]) ++ rest)%list
      by (rewrite <- app_assoc; reflexivity).
    apply IH; [exact Hrest |]. apply count_step_agrees; assumption.
Qed.

(** On ordinary types the finished count map agrees with the whole list. *)
Lemma count_by_type_agrees (findings : list Finding) :
  ordinary_types findings -> counts_agree (count_by_type findings) findings.
Proof.
  intros Hord. unfold count_by_type.
  apply (fold_count_agrees findings [] [] Hord).
  split; [apply NoDup_nil | split; [reflexivity | intros t; reflexivity]].
Qed.

(** X26: for findings whose types are ordinary keys, the counts shown in
    the summary add up to the number of findings. *)
Theorem summary_counts_sum (findings : list Finding) :
  ordinary_types findings ->
  sum_counts (summary_groups findings) = Some (Z.of_nat (List.length findings)).
Proof.
  intros Hord. unfold summary_groups.
  rewrite (sum_counts_permutation _ _ (Object_entries_permutation _)).
  exact (proj1 (proj2 (count_by_type_agrees findings Hord))).
Qed.

(** C7 fails on the code: a finding whose type is [__proto__] is read from
    and written to the accumulator's prototype slot, so it never becomes a
    group; one finding is reported and the summary counts add up to 0. *)
Theorem summary_counts_miss_proto_type :
  FindingsList [Examples.finding_of_type "__proto__"] = Summary 1 "" /\
  summary_groups [Examples.finding_of_type "__proto__"] = [] /\
  sum_counts (summary_groups [Examples.finding_of_type "__proto__"]) = Some 0 /\
  Z.of_nat (List.length [Examples.finding_of_type "__proto__"]) = 1.
Proof. repeat split. Qed.






End FindingsProperties.
(* ===================================================================== *)
(** ** Properties of the upload widget *)
(* ===================================================================== *)

Section UploadProperties.
Import Client Upload.

(** Uploading never changes which file is retained. *)
Lemma handleUpload_keeps_file (uuid now : string) (s : State) (script : Script Json) :
  file (final (fst (handleUpload uuid now s script))) = file s.
Proof.
  unfold handleUpload. destruct (file s) as [g |] eqn:Eg; [| exact Eg].
  destruct script as [| [message | r] rest]; [reflexivity | reflexivity |].
  destruct (json r) as [message | data]; [reflexivity |].
  destruct (make_fileInfo uuid now g data); reflexivity.
Qed.

(** The widget only ever retains PDF-typed files. *)
Lemma retained_file_is_pdf (s : State) :
  reachable s -> forall f, file s = Some f -> file_type f = "application/pdf".
Proof.
  induction 1 as [| s e Hs IH]; intros f Hf.
  - discriminate Hf.
  - destruct e as [[g |] | uuid now script]; cbn [step] in Hf.
    + unfold handleFileChange in Hf.
      destruct (String.eqb_spec (file_type g) "application/pdf") as [Hg | Hg];
        cbn in Hf; [| discriminate Hf].
      injection Hf as <-. exact Hg.
    + discriminate Hf.
    + rewrite handleUpload_keeps_file in Hf. exact (IH f Hf).
Qed.

(** [handleUpload] sends something only when a file is retained. *)
Lemma upload_needs_file (uuid now : string) (s : State) (script : Script Json) :
  calls (fst (handleUpload uuid now s script)) <> [] ->
  exists f, file s = Some f /\
            calls (fst (handleUpload uuid now s script))
              = [PostForm "/api/proxy" [("file", EntryFile f)]].
Proof.
  unfold handleUpload. destruct (file s) as [f |]; [| intros H; exfalso; apply H; reflexivity].
  intros _. exists f. split; [reflexivity |].
  destruct script as [| [message | r] rest]; [reflexivity | reflexivity |].
  destruct (json r) as [message | data]; [reflexivity |].
  destruct (make_fileInfo uuid now f data); reflexivity.
Qed.

(** C6: selecting a file whose type is not application/pdf puts the widget
    in the validation-error state, with no file retained and the response
    [{status: "error", error: "Please select a valid PDF file"}], and an
    upload click in that state sends nothing; in every state the widget can reach,
    an upload request is only sent for a retained file, and that file is
    PDF-typed. *)
Theorem non_pdf_selection_rejected (s : State) (f : File) :
  file_type f <> "application/pdf" ->
  handleFileChange (Some f) s
    = {| file := None; uploading := uploading s;
         response := Some (JObj [("status", JStr "error");
                                 ("error", JStr "Please select a valid PDF file")]) |} /\
  (forall uuid now script,
     handleUpload uuid now (handleFileChange (Some f) s) script
       = (mkRun (handleFileChange (Some f) s) [] true, None)) /\
  (forall s0 uuid now script,
     reachable s0 ->
     calls (fst (handleUpload uuid now s0 script)) <> [] ->
     exists pdf, file s0 = Some pdf /\ file_type pdf = "application/pdf" /\
                 calls (fst (handleUpload uuid now s0 script))
                   = [PostForm "/api/proxy" [("file", EntryFile pdf)]]).
Proof.
  intros Hty.
  assert (Hchange : handleFileChange (Some f) s
                    = {| file := None; uploading := uploading s;
                         response := Some (JObj [("status", JStr "error");
                                                 ("error",
                                                  JStr "Please select a valid PDF file")]) |}).
  { unfold handleFileChange.
    destruct (String.eqb_spec (file_type f) "application/pdf"); [contradiction | reflexivity]. }
  split; [exact Hchange | split].
  - intros uuid now script. rewrite Hchange. reflexivity.
  - intros s0 uuid now script Hreach Hcalls.
    destruct (upload_needs_file uuid now s0 script Hcalls) as [pdf [Hfile Hsent]].
    exists pdf. split; [exact Hfile | split; [| exact Hsent]].
    exact (retained_file_is_pdf s0 Hreach pdf Hfile).
Qed.

Lemma non_pdf_selection_rejected_witness :
  handleFileChange (Some Examples.notes_txt) initial
    = {| file := None; uploading := false;
         response := Some (JObj [("status", JStr "error");
                                 ("error", JStr "Please select a valid PDF file")]) |} /\
  calls (fst (handleUpload "id-1" "2024-01-01T00:00:00.000Z"
                (handleFileChange (Some Examples.notes_txt) initial) [])) = [].
Proof.
  assert (Hty : file_type Examples.notes_txt <> "application/pdf") by discriminate.
  destruct (non_pdf_selection_rejected initial Examples.notes_txt Hty) as (Hc & Hu & _).
  split; [exact Hc |].
  rewrite (Hu "id-1" "2024-01-01T00:00:00.000Z" []). reflexivity.
Defined.

End UploadProperties.
(* ===================================================================== *)
(** ** Properties of the document tables *)
(* ===================================================================== *)

Section TableProperties.
Import Client.

(** Every request of the probe loop carries the page size as its limit. *)
Lemma probe_calls_limit (script : Script DocumentsResponse) (pageSize offset : Z) :
  Forall (fun c => call_limit c = Some pageSize)
         (snd (fst (WindowTable.probe pageSize offset script))).
Proof.
  revert offset. induction script as [| answer rest IH]; intros offset; cbn.
  - destruct (offset >=? 0); cbn; repeat constructor.
  - destruct (offset >=? 0); cbn; [| constructor].
    destruct (checked_json answer) as [d | data]; cbn; [repeat constructor |].
    destruct (Z.of_nat (List.length (documents_or_empty data)) =? 0); cbn;
      [repeat constructor |].
    destruct (Z.of_nat (List.length (documents_or_empty data)) <? pageSize); cbn;
      [repeat constructor |].
    specialize (IH (offset + 100)).
    destruct (WindowTable.probe pageSize (offset + 100) rest) as [[p more] unread].
    cbn in *. constructor; [reflexivity | exact IH].
Qed.

(** As long as the answers are full pages the loop keeps asking, 100
    further each time. *)
Lemma probe_full_pages (full : Script DocumentsResponse) (pageSize offset : Z)
    (script : Script DocumentsResponse) :
  0 < pageSize -> 0 <= offset ->
  Forall (WindowTable.full_page pageSize) full ->
  WindowTable.probe pageSize offset (full ++ script)%list =
  let '(p, more, unread) :=
    WindowTable.probe pageSize (offset + 100 * Z.of_nat (List.length full)) script in
  (p,
   (map (fun o => GetDocuments o pageSize)
        (WindowTable.offsets_from offset (List.length full)) ++ more)%list,
   unread).
Proof.
  intros Hps. revert offset.
  induction full as [| answer full IH]; intros offset Hoff Hfull.
  - cbn [List.length app Z.of_nat WindowTable.offsets_from map].
    rewrite Z.mul_0_r, Z.add_0_r.
    destruct (WindowTable.probe pageSize offset script) as [[p more] unread]. reflexivity.
  - inversion Hfull as [| ? ? [docs [Hdel Hlen]] Hrest]; subst.
    cbn [app WindowTable.probe].
    assert (Hge : (offset >=? 0) = true) by (apply Z.geb_le; lia).
    rewrite Hge.
    unfold WindowTable.delivered in Hdel.
    destruct (checked_json answer) as [d | data]; [discriminate Hdel |].
    injection Hdel as Hdocs. rewrite Hdocs.
    assert (Hz : (Z.of_nat (List.length docs) =? 0) = false) by (apply Z.eqb_neq; lia).
    assert (Hlt : (Z.of_nat (List.length docs) <? Z.of_nat (List.length docs)) = false)
      by (apply Z.ltb_ge; lia).
    rewrite Hz, Hlt.
    rewrite (IH (offset + 100)); [| lia | exact Hrest].
    replace (offset + 100 + 100 * Z.of_nat (List.length full))
      with (offset + 100 * Z.of_nat (List.length (answer :: full)))
      by (cbn [List.length]; lia).
    destruct (WindowTable.probe (Z.of_nat (List.length docs))
                (offset + 100 * Z.of_nat (List.length (answer :: full))) script)
      as [[p more] unread].
    reflexivity.
Qed.

(** How the loop ends on an answer with fewer records than the page size. *)
Lemma probe_short_page (pageSize offset : Z) (answer : Exn (Response DocumentsResponse))
    (rest : Script DocumentsResponse) (docs : list Document) :
  0 <= offset ->
  WindowTable.delivered answer = Ret docs ->
  Z.of_nat (List.length docs) < pageSize ->
  WindowTable.probe pageSize offset (answer :: rest)
    = (WindowTable.Stopped offset docs, [GetDocuments offset pageSize], rest).
Proof.
  intros Hoff Hdel Hshort. cbn [WindowTable.probe].
  assert (Hge : (offset >=? 0) = true) by (apply Z.geb_le; lia).
  rewrite Hge. unfold WindowTable.delivered in Hdel.
  destruct (checked_json answer) as [d | data]; [discriminate Hdel |].
  injection Hdel as Hdocs. rewrite Hdocs.
  destruct (Z.of_nat (List.length docs) =? 0) eqn:Ez.
  - apply Z.eqb_eq in Ez. destruct docs; [reflexivity | cbn in Ez; lia].
  - apply Z.ltb_lt in Hshort. rewrite Hshort. reflexivity.
Qed.

(** The loop always starts by asking for offset 1000. *)
Lemma probe_first_call (pageSize : Z) (script : Script DocumentsResponse) :
  exists more,
    snd (fst (WindowTable.probe pageSize 1000 script)) = GetDocuments 1000 pageSize :: more.
Proof.
  destruct script as [| answer rest]; cbn [WindowTable.probe].
  - change (1000 >=? 0) with true. cbn. eexists; reflexivity.
  - change (1000 >=? 0) with true. cbn iota.
    destruct (checked_json answer) as [d | data]; [eexists; reflexivity |].
    destruct (Z.of_nat (List.length (documents_or_empty data)) =? 0);
      [eexists; reflexivity |].
    destruct (Z.of_nat (List.length (documents_or_empty data)) <? pageSize);
      [eexists; reflexivity |].
    destruct (WindowTable.probe pageSize (1000 + 100) rest) as [[p more] unread].
    eexists; reflexivity.
Qed.

(** The requests of [handleLastPage]: nothing while another load is in
    flight, else the probes, followed at most by the fallback request. *)
Lemma handleLastPage_calls (s : WindowTable.State) (script : Script DocumentsResponse) :
  exists extra,
    calls (WindowTable.handleLastPage s script)
      = (if WindowTable.loadingMore s then []
         else snd (fst (WindowTable.probe (WindowTable.pageSize s) 1000 script)) ++ extra)%list /\
    (extra = [] \/
     extra = [GetDocuments (WindowTable.lastPageOffset s) (WindowTable.pageSize s)]).
Proof.
  unfold WindowTable.handleLastPage.
  destruct (WindowTable.loadingMore s); [exists []; split; [reflexivity | left; reflexivity] |].
  destruct (WindowTable.probe (WindowTable.pageSize s) 1000 script) as [[p probes] unread].
  cbn [fst snd].
  destruct p as [| d | o l].
  - exists []. rewrite app_nil_r. split; [reflexivity | left; reflexivity].
  - exists []. rewrite app_nil_r. split; [reflexivity | left; reflexivity].
  - destruct (Z.of_nat (List.length l) =? 0).
    + exists [GetDocuments (WindowTable.lastPageOffset s) (WindowTable.pageSize s)].
      split; [| right; reflexivity].
      destruct unread as [| b unread]; [reflexivity |].
      destruct (checked_json b); reflexivity.
    + exists []. rewrite app_nil_r. split; [reflexivity | left; reflexivity].
Qed.

Lemma offsets_from_snoc (n : nat) (offset : Z) :
  (WindowTable.offsets_from offset n ++ [offset + 100 * Z.of_nat n])%list
  = WindowTable.offsets_from offset (S n).
Proof.
  revert offset. induction n as [| n IH]; intros offset.
  - cbn. rewrite Z.add_0_r. reflexivity.
  - change (WindowTable.offsets_from offset (S (S n)))
      with (offset :: WindowTable.offsets_from (offset + 100) (S n)).
    rewrite <- (IH (offset + 100)).
    change (WindowTable.offsets_from offset (S n))
      with (offset :: WindowTable.offsets_from (offset + 100) n).
    cbn [app]. f_equal. f_equal. f_equal. lia.
Qed.

(** C1: when it is not already loading, "go to last page" first asks for
    offset 1000 with the current page size as limit; every answer with
    exactly [pageSize] records makes it ask again 100 further; an answer
    with fewer records, but some, ends the probe and its records become the
    cached documents, shown from page 1 under the chunk index of the probed
    offset; an answer with no records ends the probe without a page, and
    the handler then asks for the last [pageSize] records of the cached
    chunk, at offset [max 0 ((currentChunk + 1) * 100 - pageSize)], and
    caches what that request returns.  Every field of the state the handler
    leaves is spelled out. *)
Theorem last_page_probe (s : WindowTable.State)
    (full : Script DocumentsResponse) (answer : Exn (Response DocumentsResponse))
    (rest : Script DocumentsResponse) (docs : list Document) :
  WindowTable.loadingMore s = false ->
  0 < WindowTable.pageSize s ->
  Forall (WindowTable.full_page (WindowTable.pageSize s)) full ->
  WindowTable.delivered answer = Ret docs ->
  Z.of_nat (List.length docs) < WindowTable.pageSize s ->
  let pageSize := WindowTable.pageSize s in
  let run := WindowTable.handleLastPage s (full ++ answer :: rest)%list in
  let probes :=
    map (fun o => GetDocuments o pageSize)
        (WindowTable.offsets_from 1000 (S (List.length full))) in
  (forall script,
     hd_error (calls (WindowTable.handleLastPage s script))
       = Some (GetDocuments 1000 pageSize)) /\
  (docs <> [] ->
     run = mkRun {| WindowTable.documents := WindowTable.documents s;
                    WindowTable.loading := WindowTable.loading s;
                    WindowTable.error := WindowTable.error s;
                    WindowTable.currentPage := 1;
                    WindowTable.pageSize := pageSize;
                    WindowTable.localDocuments := docs;
                    WindowTable.currentChunk := 10 + Z.of_nat (List.length full);
                    WindowTable.hasMoreDocuments := WindowTable.hasMoreDocuments s;
                    WindowTable.loadingMore := false |}
                 probes true) /\
  (docs = [] ->
     let fallback :=
       GetDocuments (Z.max 0 ((WindowTable.currentChunk s + 1) * 100 - pageSize)) pageSize in
     calls run = (probes ++ [fallback])%list /\
     forall answer' rest' docs',
       rest = answer' :: rest' ->
       WindowTable.delivered answer' = Ret docs' ->
       run = mkRun {| WindowTable.documents := WindowTable.documents s;
                      WindowTable.loading := WindowTable.loading s;
                      WindowTable.error := WindowTable.error s;
                      WindowTable.currentPage := 1;
                      WindowTable.pageSize := pageSize;
                      WindowTable.localDocuments := docs';
                      WindowTable.currentChunk :=
                        Z.max 0 ((WindowTable.currentChunk s + 1) * 100 - pageSize) / 100;
                      WindowTable.hasMoreDocuments := WindowTable.hasMoreDocuments s;
                      WindowTable.loadingMore := false |}
                   (probes ++ [fallback])%list true).
Proof.
  intros Hidle Hps Hfull Hdel Hshort pageSize run probes.
  assert (Hprobe :
    WindowTable.probe pageSize 1000 (full ++ answer :: rest)%list
    = (WindowTable.Stopped (1000 + 100 * Z.of_nat (List.length full)) docs, probes, rest)).
  { assert (H0 : 0 <= 1000) by lia.
    assert (H1 : 0 <= 1000 + 100 * Z.of_nat (List.length full)) by lia.
    unfold pageSize. rewrite (probe_full_pages full _ 1000 _ Hps H0 Hfull).
    rewrite (probe_short_page _ _ answer rest docs H1 Hdel Hshort).
    unfold probes, pageSize. f_equal. f_equal.
    rewrite <- offsets_from_snoc, map_app. reflexivity. }
  split; [| split].
  - intros script.
    destruct (handleLastPage_calls s script) as [extra [Hcalls _]].
    rewrite Hcalls, Hidle.
    destruct (probe_first_call (WindowTable.pageSize s) script) as [more ->].
    reflexivity.
  - intros Hne.
    assert (Hrun : run = mkRun (WindowTable.last_page_found
                                  (1000 + 100 * Z.of_nat (List.length full)) docs s)
                               probes true).
    { unfold run, WindowTable.handleLastPage. rewrite Hidle.
      fold pageSize. rewrite Hprobe.
      destruct docs as [| d0 docs0]; [contradiction |].
      reflexivity. }
    rewrite Hrun. unfold WindowTable.last_page_found. fold pageSize.
    replace ((1000 + 100 * Z.of_nat (List.length full)) / 100)
      with (10 + Z.of_nat (List.length full)); [reflexivity |].
    replace (1000 + 100 * Z.of_nat (List.length full))
      with ((10 + Z.of_nat (List.length full)) * 100) by lia.
    symmetry. apply Z.div_mul. lia.
  - intros -> fallback.
    assert (Hrun : forall unread_tail,
              rest = unread_tail ->
              run = match unread_tail with
                    | [] => mkRun (WindowTable.with_loadingMore true s)
                                  (probes ++ [fallback])%list false
                    | a :: _ =>
                        match checked_json a with
                        | Throw _ => mkRun (WindowTable.last_page_failed s)
                                           (probes ++ [fallback])%list true
                        | Ret data =>
                            mkRun (WindowTable.last_page_found (WindowTable.lastPageOffset s)
                                     (documents_or_empty data) s)
                                  (probes ++ [fallback])%list true
                        end
                    end).
    { intros unread_tail <-. unfold run, WindowTable.handleLastPage. rewrite Hidle.
      fold pageSize. rewrite Hprobe. reflexivity. }
    specialize (Hrun rest eq_refl).
    split.
    + rewrite Hrun. destruct rest as [| a rest0]; [reflexivity |].
      destruct (checked_json a); reflexivity.
    + intros answer' rest' docs' -> Hdel'. rewrite Hrun.
      unfold WindowTable.delivered in Hdel'.
      destruct (checked_json answer') as [d | data]; [discriminate Hdel' |].
      injection Hdel' as ->. reflexivity.
Qed.

Lemma last_page_probe_witness :
  (let run :=
     WindowTable.handleLastPage Examples.window_loaded
       [Examples.answer_with Examples.five_docs; Examples.answer_with Examples.five_docs;
        Examples.answer_with [Examples.doc 11; Examples.doc 12]] in
   calls run = [GetDocuments 1000 5; GetDocuments 1100 5; GetDocuments 1200 5] /\
   WindowTable.localDocuments (final run) = [Examples.doc 11; Examples.doc 12] /\
   WindowTable.currentPage (final run) = 1 /\
   WindowTable.currentChunk (final run) = 12 /\
   WindowTable.loadingMore (final run) = false) /\
  (let run :=
     WindowTable.handleLastPage Examples.window_loaded
       [Examples.answer_with Examples.five_docs; Examples.answer_with [];
        Examples.answer_with [Examples.doc 96; Examples.doc 97]] in
   calls run = [GetDocuments 1000 5; GetDocuments 1100 5; GetDocuments 95 5] /\
   WindowTable.localDocuments (final run) = [Examples.doc 96; Examples.doc 97] /\
   WindowTable.currentPage (final run) = 1 /\
   WindowTable.currentChunk (final run) = 0).
Proof.
  assert (Hone : WindowTable.full_page 5 (Examples.answer_with Examples.five_docs))
    by (exists Examples.five_docs; split; reflexivity).
  assert (Hne : [Examples.doc 11; Examples.doc 12] <> []) by discriminate.
  split.
  - pose proof (proj1 (proj2 (last_page_probe Examples.window_loaded
                             [Examples.answer_with Examples.five_docs;
                              Examples.answer_with Examples.five_docs]
                             (Examples.answer_with [Examples.doc 11; Examples.doc 12]) []
                             [Examples.doc 11; Examples.doc 12]
                             eq_refl eq_refl
                             (Forall_cons _ Hone (Forall_cons _ Hone (Forall_nil _)))
                             eq_refl eq_refl)) Hne) as Hrun.
    cbn [app] in Hrun. cbn zeta. rewrite Hrun. repeat split.
  - pose proof (proj2 (proj2 (proj2 (last_page_probe Examples.window_loaded
                             [Examples.answer_with Examples.five_docs]
                             (Examples.answer_with [])
                             [Examples.answer_with [Examples.doc 96; Examples.doc 97]] []
                             eq_refl eq_refl (Forall_cons _ Hone (Forall_nil _))
                             eq_refl eq_refl)) eq_refl)
                  _ _ [Examples.doc 96; Examples.doc 97] eq_refl eq_refl) as Hrun.
    cbn [app] in Hrun. cbn zeta. rewrite Hrun. repeat split.
Defined.

Lemma fetchDocuments_pageSize (chunkOffset : Z) (s : WindowTable.State)
    (script : Script DocumentsResponse) :
  WindowTable.pageSize (final (WindowTable.fetchDocuments chunkOffset s script))
  = WindowTable.pageSize s.
Proof.
  unfold WindowTable.fetchDocuments.
  destruct script as [| answer rest]; [reflexivity |].
  destruct (checked_json answer); reflexivity.
Qed.

Lemma handleLastPage_pageSize (s : WindowTable.State) (script : Script DocumentsResponse) :
  WindowTable.pageSize (final (WindowTable.handleLastPage s script))
  = WindowTable.pageSize s.
Proof.
  unfold WindowTable.handleLastPage.
  destruct (WindowTable.loadingMore s); [reflexivity |].
  destruct (WindowTable.probe (WindowTable.pageSize s) 1000 script) as [[p probes] unread].
  destruct p as [| d | o l]; try reflexivity.
  destruct (Z.of_nat (List.length l) =? 0); [| reflexivity].
  destruct unread as [| b unread]; [reflexivity |].
  destruct (checked_json b); reflexivity.
Qed.

(** In every state the table can reach, the page size is one of the
    options of the [<select>]. *)
Lemma reachable_page_size (s : WindowTable.State) :
  WindowTable.reachable s -> In (WindowTable.pageSize s) WindowTable.page_size_options.
Proof.
  induction 1 as [| s o script _ IH | s page script _ IH | s script _ IH | s n _ _ Hn].
  - left; reflexivity.
  - rewrite fetchDocuments_pageSize. exact IH.
  - unfold WindowTable.handlePageChange.
    destruct ((1 <=? page) && (page <=? WindowTable.totalPages s)); [| exact IH].
    destruct ((page =? WindowTable.totalPages s) && WindowTable.hasMoreDocuments s
              && negb (WindowTable.loadingMore s)); [| exact IH].
    rewrite fetchDocuments_pageSize. exact IH.
  - rewrite handleLastPage_pageSize. exact IH.
  - exact Hn.
Qed.

(** C9: with the page size one of 5, 10, 25 and 50, every request that "go
    to last page" issues, probe or fallback, carries a limit above 0 (the
    page size itself), whatever the network answers and however far the
    handler gets. *)
Theorem last_page_limits_positive (s : WindowTable.State) (script : Script DocumentsResponse) :
  In (WindowTable.pageSize s) WindowTable.page_size_options ->
  Forall (fun c => call_limit c = Some (WindowTable.pageSize s) /\ 0 < WindowTable.pageSize s)
         (calls (WindowTable.handleLastPage s script)).
Proof.
  intros Hopt.
  assert (Hpos : 0 < WindowTable.pageSize s).
  { unfold WindowTable.page_size_options in Hopt. cbn in Hopt.
    destruct Hopt as [<- | [<- | [<- | [<- | []]]]]; lia. }
  destruct (handleLastPage_calls s script) as [extra [Hcalls Hextra]].
  rewrite Hcalls.
  destruct (WindowTable.loadingMore s); [constructor |].
  apply Forall_app. split.
  - eapply Forall_impl; [| apply probe_calls_limit].
    intros c Hc. split; [exact Hc | exact Hpos].
  - destruct Hextra as [-> | ->]; [constructor |].
    constructor; [split; [reflexivity | exact Hpos] | constructor].
Qed.

Lemma last_page_limits_positive_witness :
  Forall (fun c => call_limit c = Some 5 /\ 0 < 5)
         (calls (WindowTable.handleLastPage Examples.window_loaded
                   [Examples.answer_with Examples.five_docs; Examples.answer_with []])).
Proof.
  exact (last_page_limits_positive Examples.window_loaded
           [Examples.answer_with Examples.five_docs; Examples.answer_with []]
           (or_introl eq_refl)).
Defined.

(** C2: a chunk fetch of the windowing table always asks for limit 100,
    whatever the page size on display (also when it is started by a page
    change or by the effect); when the fetch succeeds the cached documents
    are exactly the documents of the answer, and [hasMoreDocuments] is true
    if and only if there are 100 of them. *)
Theorem chunk_fetch_replaces_cache (chunkOffset : Z) (s : WindowTable.State)
    (script : Script DocumentsResponse) :
  calls (WindowTable.fetchDocuments chunkOffset s script) = [GetDocuments chunkOffset 100] /\
  (forall answer rest data,
     script = answer :: rest ->
     checked_json answer = Ret data ->
     let after := final (WindowTable.fetchDocuments chunkOffset s script) in
     WindowTable.localDocuments after = documents_or_empty data /\
     (WindowTable.hasMoreDocuments after = true <->
      List.length (documents_or_empty data) = 100%nat)) /\
  (forall page,
     Forall (fun c => call_limit c = Some 100)
            (calls (WindowTable.handlePageChange page s script))) /\
  (forall before,
     Forall (fun c => call_limit c = Some 100)
            (calls (WindowTable.after_render before s script))).
Proof.
  assert (Hcalls : forall o s0,
            calls (WindowTable.fetchDocuments o s0 script) = [GetDocuments o 100]).
  { intros o s0. unfold WindowTable.fetchDocuments.
    destruct script as [| answer rest]; [reflexivity |].
    destruct (checked_json answer); reflexivity. }
  split; [apply Hcalls | split; [| split]].
  - intros answer rest data -> Hjson after. unfold after, WindowTable.fetchDocuments.
    rewrite Hjson. cbn [final WindowTable.localDocuments WindowTable.hasMoreDocuments].
    split; [reflexivity |].
    rewrite Z.eqb_eq. lia.
  - intros page. unfold WindowTable.handlePageChange.
    destruct ((1 <=? page) && (page <=? WindowTable.totalPages s)); [| constructor].
    destruct ((page =? WindowTable.totalPages s) && WindowTable.hasMoreDocuments s
              && negb (WindowTable.loadingMore s)); [| constructor].
    rewrite Hcalls. repeat constructor.
  - intros before. unfold WindowTable.after_render.
    destruct (WindowTable.effect_due before s); [| constructor].
    rewrite Hcalls. repeat constructor.
Qed.

Lemma chunk_fetch_replaces_cache_witness :
  WindowTable.localDocuments
    (final (WindowTable.fetchDocuments 100 Examples.window_loaded
              [Examples.answer_with Examples.five_docs])) = Examples.five_docs /\
  (WindowTable.hasMoreDocuments
     (final (WindowTable.fetchDocuments 100 Examples.window_loaded
               [Examples.answer_with Examples.five_docs])) = true <->
   List.length Examples.five_docs = 100%nat).
Proof.
  exact (proj1 (proj2 (chunk_fetch_replaces_cache 100 Examples.window_loaded
                         [Examples.answer_with Examples.five_docs]))
           _ _ _ eq_refl eq_refl).
Defined.

Lemma slice_first_page {A} (l : list A) (n : Z) :
  0 < n -> slice l ((1 - 1) * n) (1 * n) = firstn (Z.to_nat n) l.
Proof.
  intros Hn. unfold slice.
  replace ((1 - 1) * n) with 0 by lia. replace (1 * n) with n by lia.
  assert (H0 : (0 <? 0) = false) by reflexivity.
  assert (H1 : (n <? 0) = false) by (apply Z.ltb_ge; lia).
  rewrite H0, H1.
  replace (Z.min 0 (Z.of_nat (List.length l))) with 0 by lia.
  cbn [Z.to_nat skipn]. rewrite Z.sub_0_r.
  destruct (Z.le_gt_cases n (Z.of_nat (List.length l))) as [Hle | Hgt].
  - f_equal. lia.
  - replace (Z.max (Z.min n (Z.of_nat (List.length l))) 0)
      with (Z.of_nat (List.length l)) by lia.
    rewrite Nat2Z.id, firstn_all, firstn_all2; [reflexivity | lia].
Qed.

(** C3, as stated, fails: in the server-paginated table the page size is a
    dependency of the fetch effect, so choosing another size sends a
    request.  The table here has loaded the first 10 of 30 documents, so it
    has three pages and renders the select. *)
Lemma paged_table_refetches_on_page_size_change :
  Pager.paged_pager_rendered MoreExamples.paged_three_pages = true /\
  Pager.paged_totalPages MoreExamples.paged_three_pages = 3 /\
  PagedTable.pageSize MoreExamples.paged_three_pages = 10 /\
  calls (PagedTable.select_page_size 25 MoreExamples.paged_three_pages [])
    = [GetDocuments 0 25].
Proof. repeat split; reflexivity. Qed.

(** C3 (amended): choosing a page size of 5, 10, 25 or 50 resets the
    current page to 1 in both tables.  In the windowing table it sends no
    request and the cached documents are kept and shown from their start in
    pages of the new size.  In the server-paginated table it sends the
    request for offset 0 with the new size as limit, unless neither the page
    size nor the page changed. *)
Theorem page_size_change_resets_page (newPageSize : Z)
    (w : WindowTable.State) (p : PagedTable.State) (script : Script DocumentsResponse) :
  In newPageSize WindowTable.page_size_options ->
  (WindowTable.select_page_size newPageSize w script
     = mkRun (WindowTable.handlePageSizeChange newPageSize w) [] true /\
   WindowTable.currentPage (WindowTable.handlePageSizeChange newPageSize w) = 1 /\
   WindowTable.pageSize (WindowTable.handlePageSizeChange newPageSize w) = newPageSize /\
   WindowTable.localDocuments (WindowTable.handlePageSizeChange newPageSize w)
     = WindowTable.localDocuments w /\
   WindowTable.currentPageDocuments (WindowTable.handlePageSizeChange newPageSize w)
     = firstn (Z.to_nat newPageSize) (WindowTable.localDocuments w)) /\
  (PagedTable.currentPage (final (PagedTable.select_page_size newPageSize p script)) = 1 /\
   PagedTable.pageSize (final (PagedTable.select_page_size newPageSize p script))
     = newPageSize /\
   calls (PagedTable.select_page_size newPageSize p script)
     = if (PagedTable.currentPage p =? 1) && (PagedTable.pageSize p =? newPageSize)
       then [] else [GetDocuments 0 newPageSize]).
Proof.
  intros Hopt.
  assert (Hpos : 0 < newPageSize).
  { unfold WindowTable.page_size_options in Hopt. cbn in Hopt.
    destruct Hopt as [<- | [<- | [<- | [<- | []]]]]; lia. }
  split.
  - split; [| split; [| split; [| split]]]; try reflexivity.
    + unfold WindowTable.select_page_size, WindowTable.after_render, WindowTable.effect_due.
      cbn [WindowTable.handlePageSizeChange WindowTable.currentChunk].
      rewrite Z.eqb_refl. reflexivity.
    + unfold WindowTable.currentPageDocuments.
      cbn [WindowTable.handlePageSizeChange WindowTable.currentPage WindowTable.pageSize
           WindowTable.localDocuments].
      apply slice_first_page. exact Hpos.
  - unfold PagedTable.select_page_size, PagedTable.after_render, PagedTable.effect_due.
    cbn [PagedTable.handlePageSizeChange PagedTable.currentPage PagedTable.pageSize].
    destruct ((PagedTable.currentPage p =? 1) && (PagedTable.pageSize p =? newPageSize));
      cbn [negb].
    + repeat split.
    + unfold PagedTable.fetchDocuments.
      cbn [PagedTable.handlePageSizeChange PagedTable.currentPage PagedTable.pageSize].
      replace ((1 - 1) * newPageSize) with 0 by lia.
      destruct script as [| answer rest]; [repeat split |].
      destruct (checked_json answer); repeat split.
Qed.

Lemma page_size_change_resets_page_witness :
  WindowTable.select_page_size 25 Examples.window_loaded []
    = mkRun (WindowTable.handlePageSizeChange 25 Examples.window_loaded) [] true /\
  calls (PagedTable.select_page_size 25 MoreExamples.paged_three_pages [])
    = [GetDocuments 0 25].
Proof.
  assert (Hopt : In 25 WindowTable.page_size_options) by (cbn; tauto).
  destruct (page_size_change_resets_page 25 Examples.window_loaded
              MoreExamples.paged_three_pages [] Hopt) as [[Hw _] [_ [_ Hp]]].
  split; [exact Hw | exact Hp].
Defined.

End TableProperties.
(* ===================================================================== *)
(** ** Further properties of the route handlers *)
(* ===================================================================== *)

Section RelayMore.
Import Server.

(** X1: with [BACKEND_URL] configured, the listing relay issues exactly one
    request when the address resolves, the GET of
    [documentsUrl?offset=..&limit=..] with the caller's parameters, where a
    missing or empty [offset] becomes "0" and a missing or empty [limit]
    becomes "100"; it answers with the backend's parsed JSON and status 200
    whatever status the backend sent.  When the address does not resolve it
    issues no request and answers with its failure envelope. *)
Theorem documents_get_relays_once (env : Env) (request : NextRequest) :
  not_configured (BACKEND_URL env) = false ->
  let offset := or_default (searchParams_get "offset" (req_searchParams request)) "0" in
  let limit := or_default (searchParams_get "limit" (req_searchParams request)) "100" in
  (searchParams_get "offset" (req_searchParams request) = None \/
   searchParams_get "offset" (req_searchParams request) = Some "" -> offset = "0") /\
  (searchParams_get "limit" (req_searchParams request) = None \/
   searchParams_get "limit" (req_searchParams request) = Some "" -> limit = "100") /\
  match URL_new env "/api/v1/documents" (env_string (BACKEND_URL env)) with
  | Ret documentsUrl =>
      fetches (snd (DocumentsRoute.GET env request))
        = [DocumentsRoute.listing_call documentsUrl offset limit] /\
      forall response data,
        fetch env (DocumentsRoute.listing_call documentsUrl offset limit) = Ret response ->
        resp_json response = Ret data ->
        fst (DocumentsRoute.GET env request) = {| body := data; status := 200 |}
  | Throw _ =>
      fetches (snd (DocumentsRoute.GET env request)) = [] /\
      fst (DocumentsRoute.GET env request) = DocumentsRoute.documents_failure
  end.
Proof.
  intros Hcfg offset limit.
  split; [| split].
  - unfold offset. intros [-> | ->]; reflexivity.
  - unfold limit. intros [-> | ->]; reflexivity.
  - unfold DocumentsRoute.GET. cbn. rewrite Hcfg. fold offset limit.
    destruct (URL_new env "/api/v1/documents" (env_string (BACKEND_URL env)))
      as [d | documentsUrl]; cbn.
    + split; reflexivity.
    + split.
      * destruct (fetch env (DocumentsRoute.listing_call documentsUrl offset limit))
          as [d | response]; cbn; [reflexivity |].
        destruct (resp_json response); reflexivity.
      * intros response data Hf Hj. rewrite Hf; cbn. rewrite Hj; reflexivity.
Qed.

Lemma documents_get_relays_once_witness :
  fetches (snd (DocumentsRoute.GET Examples.env_422 MoreExamples.bare_listing_request))
    = [DocumentsRoute.listing_call "https://api.example.com/api/v1/documents" "0" "100"] /\
  fst (DocumentsRoute.GET Examples.env_422 MoreExamples.bare_listing_request)
    = {| body := Examples.backend_json; status := 200 |}.
Proof.
  pose proof (documents_get_relays_once Examples.env_422 MoreExamples.bare_listing_request
                eq_refl) as (_ & _ & Hsend & Hanswer).
  split; [exact Hsend | exact (Hanswer _ _ eq_refl eq_refl)].
Defined.

(** X2: neither relay ever issues more than one request, and each answers
    with status 200 or 500 only; a 200 is only given after one request was
    forwarded.  POST /api/pdf never issues a request and answers with 200,
    400 or 500. *)
Theorem relays_fanout_and_status (env : Env) (request : NextRequest)
    (G : Type) (uuidv4 : G -> string * G) (g : G) :
  ((List.length (fetches (snd (Proxy.POST env request))) <= 1)%nat /\
   (status (fst (Proxy.POST env request)) = 200 \/
    status (fst (Proxy.POST env request)) = 500) /\
   (status (fst (Proxy.POST env request)) = 200 ->
    List.length (fetches (snd (Proxy.POST env request))) = 1%nat)) /\
  ((List.length (fetches (snd (DocumentsRoute.GET env request))) <= 1)%nat /\
   (status (fst (DocumentsRoute.GET env request)) = 200 \/
    status (fst (DocumentsRoute.GET env request)) = 500) /\
   (status (fst (DocumentsRoute.GET env request)) = 200 ->
    List.length (fetches (snd (DocumentsRoute.GET env request))) = 1%nat)) /\
  (fetches (snd (fst (Pdf.POST G uuidv4 g request))) = [] /\
   In (status (fst (fst (Pdf.POST G uuidv4 g request)))) [200; 400; 500]).
Proof.
  split; [| split].
  - unfold Proxy.POST.
    destruct (req_formData request) as [d | formData]; cbn;
      [repeat split; [lia | right; reflexivity | discriminate] |].
    destruct (not_configured (BACKEND_URL env)); cbn;
      [repeat split; [lia | right; reflexivity | discriminate] |].
    destruct (URL_new env "/api/v1/upload" (env_string (BACKEND_URL env)))
      as [d | uploadUrl]; cbn;
      [repeat split; [lia | right; reflexivity | discriminate] |].
    destruct (fetch env (Proxy.upload_call uploadUrl formData)) as [d | response]; cbn;
      [repeat split; [lia | right; reflexivity] |].
    destruct (resp_json response) as [d | data]; cbn;
      repeat split; try lia; try (right; reflexivity); left; reflexivity.
  - unfold DocumentsRoute.GET. cbn.
    destruct (not_configured (BACKEND_URL env)); cbn;
      [repeat split; [lia | right; reflexivity | discriminate] |].
    destruct (URL_new env "/api/v1/documents" (env_string (BACKEND_URL env)))
      as [d | documentsUrl]; cbn;
      [repeat split; [lia | right; reflexivity | discriminate] |].
    match goal with
    | |- context [fetch env ?c] => destruct (fetch env c) as [d | response]
    end; cbn; [repeat split; [lia | right; reflexivity] |].
    destruct (resp_json response) as [d | data]; cbn;
      repeat split; try lia; try (right; reflexivity); left; reflexivity.
  - unfold Pdf.POST.
    destruct (req_formData request) as [d | formData]; cbn; [split; [reflexivity | tauto] |].
    destruct (Pdf.entry_missing (FormData_get "file" formData)); cbn;
      [split; [reflexivity | tauto] |].
    destruct (Pdf.not_pdf (FormData_get "file" formData)); cbn;
      [split; [reflexivity | tauto] |].
    destruct (uuidv4 g) as [documentId g']. cbn. split; [reflexivity | tauto].
Qed.

Lemma Number_toString_not_empty (n : Z) :
  String.eqb (Client.Number_toString n) "" = false.
Proof.
  unfold Client.Number_toString.
  destruct (Z.to_int n) as [[| | | | | | | | | |] | d]; reflexivity.
Qed.

(** X3: a chunk request of the windowing table, sent through the listing
    relay, reaches the backend with the same offset and with limit 100: the
    relay's defaults never replace what the table asked for. *)
Theorem chunk_request_through_relay (env : Env) (documentsUrl : string)
    (chunkOffset : Z) (s : WindowTable.State)
    (script : Client.Script Client.DocumentsResponse) :
  not_configured (BACKEND_URL env) = false ->
  URL_new env "/api/v1/documents" (env_string (BACKEND_URL env)) = Ret documentsUrl ->
  map (fun c => fetches (snd (DocumentsRoute.GET env (Wire.request_of_call c))))
      (Client.calls (WindowTable.fetchDocuments chunkOffset s script))
  = [[DocumentsRoute.listing_call documentsUrl (Client.Number_toString chunkOffset) "100"]].
Proof.
  intros Hcfg Hurl.
  assert (Hcalls : Client.calls (WindowTable.fetchDocuments chunkOffset s script)
                   = [Client.GetDocuments chunkOffset 100]).
  { unfold WindowTable.fetchDocuments.
    destruct script as [| answer rest]; [reflexivity |].
    destruct (Client.checked_json answer); reflexivity. }
  rewrite Hcalls. cbn [map]. f_equal.
  unfold DocumentsRoute.GET, Wire.request_of_call.
  cbn [req_searchParams searchParams_get String.eqb Ascii.eqb Bool.eqb].
  cbn. rewrite Hcfg, Hurl. cbn.
  unfold or_default. rewrite Number_toString_not_empty.
  match goal with
  | |- context [fetch env ?c] => destruct (fetch env c) as [d | response]
  end; cbn; [reflexivity |].
  destruct (resp_json response); reflexivity.
Qed.

Lemma chunk_request_through_relay_witness :
  map (fun c => fetches (snd (DocumentsRoute.GET Examples.env_422 (Wire.request_of_call c))))
      (Client.calls (WindowTable.fetchDocuments 200 Examples.window_loaded []))
  = [[DocumentsRoute.listing_call "https://api.example.com/api/v1/documents" "200" "100"]].
Proof.
  exact (chunk_request_through_relay Examples.env_422 _ 200 Examples.window_loaded []
           eq_refl eq_refl).
Defined.

End RelayMore.
(* ===================================================================== *)
(** ** Further properties of the findings summary and cards *)
(* ===================================================================== *)

Section FindingsMore.
Import Findings.

Lemma own_set_length (k : string) (v : JsVal) (o : Obj) :
  (List.length (own_set k v o) <= S (List.length o))%nat.
Proof.
  induction o as [| [k' v'] rest IH]; cbn.
  - lia.
  - destruct (String.eqb k' k); cbn; lia.
Qed.

Lemma own_set_keys (k k0 : string) (v : JsVal) (o : Obj) :
  In k0 (map fst (own_set k v o)) -> k0 = k \/ In k0 (map fst o).
Proof.
  induction o as [| [k' v'] rest IH]; cbn.
  - intros [<- | []]. left; reflexivity.
  - destruct (String.eqb_spec k' k) as [-> | Hne]; cbn.
    + intros [<- | H]; [left; reflexivity | right; right; exact H].
    + intros [<- | H]; [right; left; reflexivity |].
      destruct (IH H) as [-> | Hin]; [left; reflexivity | right; right; exact Hin].
Qed.

Lemma set_length (k : string) (v : JsVal) (o : Obj) :
  (List.length (set o k v) <= S (List.length o))%nat.
Proof.
  unfold set. destruct (own_get k o); [apply own_set_length |].
  destruct (String.eqb k "__proto__"); [lia | apply own_set_length].
Qed.

Lemma set_keys (k k0 : string) (v : JsVal) (o : Obj) :
  In k0 (map fst (set o k v)) -> k0 = k \/ In k0 (map fst o).
Proof.
  unfold set. destruct (own_get k o); [apply own_set_keys |].
  destruct (String.eqb k "__proto__"); [intros H; right; exact H | apply own_set_keys].
Qed.

Lemma fold_count_bounded (rest seen : list Finding) (acc : Obj) :
  (List.length acc <= List.length seen)%nat ->
  (forall t, In t (map fst acc) -> In t (map type seen)) ->
  (List.length (fold_left count_step rest acc) <= List.length (seen ++ rest))%nat /\
  (forall t, In t (map fst (fold_left count_step rest acc)) -> In t (map type (seen ++ rest))).
Proof.
  revert seen acc. induction rest as [| f rest IH]; intros seen acc Hlen Hkeys; cbn.
  - rewrite app_nil_r. split; assumption.
  - replace (seen ++ f :: rest)%list with ((seen ++ [f]) ++ rest)%list
      by (rewrite <- app_assoc; reflexivity).
    apply IH.
    + unfold count_step. rewrite length_app. cbn.
      pose proof (set_length (type f) (or_zero_plus_one (get acc (type f))) acc). lia.
    + intros t Ht. unfold count_step in Ht. apply set_keys in Ht.
      rewrite map_app. apply in_or_app. cbn.
      destruct Ht as [-> | Ht]; [right; left; reflexivity | left; exact (Hkeys t Ht)].
Qed.

(** X4: whatever the type strings are, the summary never lists more groups
    than there are findings, and every group it lists is named after the
    type of some finding. *)
Theorem summary_groups_bounded (findings : list Finding) :
  (List.length (summary_groups findings) <= List.length findings)%nat /\
  (forall t c, In (t, c) (summary_groups findings) ->
     exists f, In f findings /\ type f = t).
Proof.
  destruct (fold_count_bounded findings [] [] (le_n 0) (fun t H => H)) as [Hlen Hkeys].
  pose proof (Object_entries_permutation (count_by_type findings)) as Hperm.
  fold (summary_groups findings) in Hperm.
  split.
  - rewrite (Permutation_length Hperm). exact Hlen.
  - intros t c Hin. apply (Permutation_in _ Hperm) in Hin.
    apply (in_map fst) in Hin. apply Hkeys in Hin. cbn in Hin.
    apply in_map_iff in Hin. destruct Hin as [f [Hty Hf]]. exists f. split; assumption.
Qed.

Lemma count_type_permutation (t : string) (l1 l2 : list Finding) :
  Permutation l1 l2 -> count_type t l1 = count_type t l2.
Proof.
  intros Hperm. unfold count_type. f_equal. apply Permutation_length.
  induction Hperm as [| x l l' _ IH | x y l | l l' l'' _ IH1 _ IH2]; cbn.
  - apply perm_nil.
  - destruct (String.eqb (type x) t); [apply perm_skip |]; exact IH.
  - destruct (String.eqb (type x) t), (String.eqb (type y) t);
      try apply perm_swap; apply Permutation_refl.
  - exact (perm_trans IH1 IH2).
Qed.

(** On ordinary types, a pair is a group exactly when it is the type of
    some finding with the number of findings of that type. *)
Lemma summary_group_iff (findings : list Finding) (t : string) (c : JsVal) :
  ordinary_types findings ->
  In (t, c) (summary_groups findings) <->
  (c = VNum (count_type t findings) /\ (count_type t findings =? 0) = false).
Proof.
  intros Hord.
  destruct (count_by_type_agrees findings Hord) as (Hnd & _ & Hcnt).
  pose proof (Object_entries_permutation (count_by_type findings)) as Hperm.
  fold (summary_groups findings) in Hperm.
  pose proof (Hcnt t) as Ht.
  split.
  - intros Hin. apply (Permutation_in _ Hperm) in Hin.
    destruct (count_type t findings =? 0) eqn:Ez.
    + exfalso. apply (own_get_none_not_key _ _ Ht). apply (in_map fst) in Hin. exact Hin.
    + split; [| reflexivity]. apply own_get_some_key in Ht.
      exact (NoDup_map_fst_unique _ _ _ _ Hnd Hin Ht).
  - intros [-> Hz]. rewrite Hz in Ht.
    apply (Permutation_in _ (Permutation_sym Hperm)). apply own_get_some_key. exact Ht.
Qed.

(** X5: on ordinary types the groups and their counts do not depend on the
    order of the findings: reordering the findings only reorders the
    groups. *)
Theorem summary_groups_order_insensitive (l1 l2 : list Finding) :
  Permutation l1 l2 -> ordinary_types l1 ->
  Permutation (summary_groups l1) (summary_groups l2).
Proof.
  intros Hperm Hord1.
  assert (Hord2 : ordinary_types l2) by (exact (Permutation_Forall Hperm Hord1)).
  assert (Hnd : forall l, ordinary_types l -> NoDup (summary_groups l)).
  { intros l Hl. apply (NoDup_map_inv fst).
    apply (Permutation_NoDup (l := map fst (count_by_type l))).
    - apply Permutation_map, Permutation_sym, Object_entries_permutation.
    - exact (proj1 (count_by_type_agrees l Hl)). }
  apply NoDup_Permutation; [apply Hnd; exact Hord1 | apply Hnd; exact Hord2 |].
  intros [t c]. rewrite (summary_group_iff l1 t c Hord1), (summary_group_iff l2 t c Hord2).
  rewrite (count_type_permutation t l1 l2 Hperm). reflexivity.
Qed.

Lemma summary_groups_order_insensitive_witness :
  Permutation
    (summary_groups [Examples.finding_of_type "EMAIL"; Examples.finding_of_type "SSN";
                     Examples.finding_of_type "EMAIL"])
    (summary_groups [Examples.finding_of_type "SSN"; Examples.finding_of_type "EMAIL";
                     Examples.finding_of_type "EMAIL"]).
Proof.
  apply summary_groups_order_insensitive.
  - apply perm_swap.
  - repeat constructor.
Defined.

Lemma lower_ascii_not_capital (c : ascii) :
  let n := N_of_ascii (lower_ascii c) in ((65 <=? n) && (n <=? 90))%N = false.
Proof.
  destruct c as [[] [] [] [] [] [] [] []]; reflexivity.
Qed.

(** X6: for a finding whose type consists of ASCII characters, the heading
    of its card has as many characters as the type, none of them an
    underscore or a capital letter. *)
Theorem card_label_normalised (finding : Finding) :
  Display.is_ascii (type finding) = true ->
  String.length (Display.card_label finding) = String.length (type finding) /\
  Display.is_ascii (Display.card_label finding) = true /\
  forall i c, String.get i (Display.card_label finding) = Some c ->
    c <> "_"%char /\
    ((65 <=? N_of_ascii c) && (N_of_ascii c <=? 90))%N = false.
Proof.
  unfold Display.card_label. generalize (type finding) as s.
  induction s as [| a s IH]; cbn.
  - intros _. split; [reflexivity |]. split; [reflexivity |].
    intros i c H; discriminate H.
  - intros Hascii. apply andb_true_iff in Hascii. destruct Hascii as [Ha Hs].
    destruct (IH Hs) as (IHlen & IHascii & IHget).
    split; [f_equal; exact IHlen |]. split.
    + rewrite IHascii, andb_true_r.
      destruct (Ascii.eqb (lower_ascii a) "_"); [reflexivity |].
      revert Ha. clear. destruct a as [[] [] [] [] [] [] [] []]; intros H; try reflexivity;
        discriminate H.
    + intros [| i] c H; cbn in H; [| exact (IHget i c H)].
      injection H as <-.
      pose proof (lower_ascii_not_capital a) as Hcap. cbn zeta in Hcap.
      destruct (Ascii.eqb_spec (lower_ascii a) "_") as [E | E].
      * split; [discriminate | reflexivity].
      * split; [exact E | exact Hcap].
Qed.

End FindingsMore.
(* ===================================================================== *)
(** ** Further properties of the upload pages *)
(* ===================================================================== *)

Section UploadMore.
Import Client.

(** X7: the outcomes of an upload of a retained file.  A rejected fetch or
    an unreadable body ends with the error panel carrying the failure's
    message and hands nothing to the history.  Any readable, non-null JSON
    body is taken as the response whatever the HTTP status was, and one
    history entry is handed over, named after the file. *)
Theorem upload_outcomes (uuid now : string) (s : Upload.State) (f : File)
    (answer : Exn (Response Json)) (rest : Script Json) :
  Upload.file s = Some f ->
  let call := PostForm "/api/proxy" [("file", EntryFile f)] in
  (forall message,
     answer = Throw message \/ (exists r, answer = Ret r /\ json r = Throw message) ->
     Upload.handleUpload uuid now s (answer :: rest)
       = (mkRun {| Upload.file := Some f; Upload.uploading := false;
                   Upload.response := Some (Upload.error_response message) |} [call] true,
          None)) /\
  (forall r data,
     answer = Ret r -> json r = Ret data -> data <> JNull ->
     exists fileInfo,
       Upload.handleUpload uuid now s (answer :: rest)
         = (mkRun {| Upload.file := Some f; Upload.uploading := false;
                     Upload.response := Some data |} [call] true,
            Some fileInfo) /\
       Upload.pf_name fileInfo = file_name f /\
       Upload.pf_id fileInfo = uuid /\
       Upload.pf_timestamp fileInfo = now /\
       Upload.pf_status fileInfo = Upload.prop data "status" /\
       Upload.pf_documentId fileInfo = Upload.prop data "document_id").
Proof.
  intros Hfile call. split.
  - intros message [-> | [r [-> Hj]]]; unfold Upload.handleUpload; rewrite Hfile.
    + reflexivity.
    + rewrite Hj. reflexivity.
  - intros r data -> Hj Hnn. unfold Upload.handleUpload. rewrite Hfile, Hj.
    destruct data; try contradiction; eexists; repeat split.
Qed.

Lemma upload_outcomes_witness :
  Upload.handleUpload "id-1" "2024-01-01T00:00:00.000Z" MoreExamples.widget_with_pdf
    [Throw "Failed to fetch"]
  = (mkRun {| Upload.file := Some Examples.report_pdf; Upload.uploading := false;
              Upload.response := Some (Upload.error_response "Failed to fetch") |}
           [PostForm "/api/proxy" [("file", EntryFile Examples.report_pdf)]] true,
     None).
Proof.
  exact (proj1 (upload_outcomes "id-1" "2024-01-01T00:00:00.000Z" MoreExamples.widget_with_pdf
                  Examples.report_pdf (Throw "Failed to fetch") [] eq_refl)
           _ (or_introl eq_refl)).
Defined.

(** Every answer of the upload relay with status 500 is one of its two
    error objects. *)
Lemma proxy_500_body (env : Server.Env) (request : Server.NextRequest) :
  Server.status (fst (Proxy.POST env request)) = 500 ->
  Server.body (fst (Proxy.POST env request))
    = Server.error_object "Backend URL is not configured" \/
  Server.body (fst (Proxy.POST env request))
    = Server.error_object "Error processing request".
Proof.
  unfold Proxy.POST.
  destruct (Server.req_formData request) as [d | formData]; cbn;
    [intros _; right; reflexivity |].
  destruct (Server.not_configured (Server.BACKEND_URL env)); cbn;
    [intros _; left; reflexivity |].
  destruct (Server.URL_new env "/api/v1/upload" (Server.env_string (Server.BACKEND_URL env)))
    as [d | uploadUrl]; cbn; [intros _; right; reflexivity |].
  destruct (Server.fetch env (Proxy.upload_call uploadUrl formData)) as [d | response]; cbn;
    [intros _; right; reflexivity |].
  destruct (Server.resp_json response) as [d | data]; cbn;
    [intros _; right; reflexivity | discriminate].
Qed.

(** X8: when the upload relay answers with status 500, the widget accepts
    the body as its response, hands a history entry without status to the
    page, and [ResponseDisplay] renders the success panel with empty
    fields: the relay's error objects have no [status] field, and only
    [status: "error"] selects the error panel. *)
Theorem relay_failure_shown_as_success (env : Server.Env) (request : Server.NextRequest)
    (uuid now : string) (s : Upload.State) (f : File) :
  Upload.file s = Some f ->
  Server.status (fst (Proxy.POST env request)) = 500 ->
  let answer := Ret (Wire.response_of (fst (Proxy.POST env request))) in
  let run := Upload.handleUpload uuid now s [answer] in
  Upload.response (final (fst run)) = Some (Server.body (fst (Proxy.POST env request))) /\
  (exists fileInfo, snd run = Some fileInfo /\
                    Upload.pf_status fileInfo = None /\
                    Upload.pf_findings fileInfo = JNum 0) /\
  Display.ResponseDisplay (Server.body (fst (Proxy.POST env request)))
    = Display.SuccessPanel None None None false.
Proof.
  intros Hfile H500 answer run.
  assert (Hbody : exists msg,
            Server.body (fst (Proxy.POST env request)) = Server.error_object msg /\
            (msg = "Backend URL is not configured" \/ msg = "Error processing request")).
  { destruct (proxy_500_body env request H500) as [H | H];
      eexists; split; try exact H; tauto. }
  destruct Hbody as [msg [Hb Hmsg]].
  unfold run, answer, Upload.handleUpload, Wire.response_of. rewrite Hfile. cbn [json].
  rewrite Hb. cbn.
  split; [reflexivity | split; [eexists; repeat split | reflexivity]].
Qed.

Lemma relay_failure_shown_as_success_witness :
  Display.ResponseDisplay
    (Server.body (fst (Proxy.POST Examples.env_down Examples.upload_request)))
  = Display.SuccessPanel None None None false.
Proof.
  exact (proj2 (proj2 (relay_failure_shown_as_success Examples.env_down
                         Examples.upload_request "id-1" "2024-01-01T00:00:00.000Z"
                         MoreExamples.widget_with_pdf Examples.report_pdf
                         eq_refl eq_refl))).
Defined.

(** X9: from any state the widget can reach, what an upload click sends,
    passed through the upload relay, is forwarded to the backend as one POST
    whose single [file] field is the retained file, and that file is
    PDF-typed. *)
Theorem upload_reaches_backend (env : Server.Env) (uploadUrl uuid now : string)
    (s : Upload.State) (script : Script Json) (c : Call) :
  Upload.reachable s ->
  Server.not_configured (Server.BACKEND_URL env) = false ->
  Server.URL_new env "/api/v1/upload" (Server.env_string (Server.BACKEND_URL env))
    = Ret uploadUrl ->
  In c (calls (fst (Upload.handleUpload uuid now s script))) ->
  exists pdf,
    Upload.file s = Some pdf /\ file_type pdf = "application/pdf" /\
    fetches (snd (Proxy.POST env (Wire.request_of_call c)))
      = [Proxy.upload_call uploadUrl [("file", EntryFile pdf)]].
Proof.
  intros Hreach Hcfg Hurl Hin.
  assert (Hne : calls (fst (Upload.handleUpload uuid now s script)) <> [])
    by (intros E; rewrite E in Hin; destruct Hin).
  destruct (upload_needs_file uuid now s script Hne) as [pdf [Hfile Hsent]].
  exists pdf. split; [exact Hfile | split; [exact (retained_file_is_pdf s Hreach pdf Hfile) |]].
  rewrite Hsent in Hin. destruct Hin as [<- | []].
  unfold Proxy.POST, Wire.request_of_call. cbn. rewrite Hcfg, Hurl. cbn.
  destruct (Server.fetch env (Proxy.upload_call uploadUrl [("file", EntryFile pdf)]))
    as [d | response]; cbn; [reflexivity |].
  destruct (Server.resp_json response); reflexivity.
Qed.

Lemma upload_reaches_backend_witness :
  exists pdf,
    Upload.file MoreExamples.widget_with_pdf = Some pdf /\
    file_type pdf = "application/pdf" /\
    fetches (snd (Proxy.POST Examples.env_422
                    (Wire.request_of_call
                       (PostForm "/api/proxy" [("file", EntryFile Examples.report_pdf)]))))
      = [Proxy.upload_call "https://api.example.com/api/v1/upload"
           [("file", EntryFile pdf)]].
Proof.
  apply (upload_reaches_backend Examples.env_422 _ "id-1" "2024-01-01T00:00:00.000Z"
           MoreExamples.widget_with_pdf []).
  - apply (Upload.reach_step Upload.initial (Upload.FileChange (Some Examples.report_pdf))).
    apply Upload.reach_initial.
  - reflexivity.
  - reflexivity.
  - left. reflexivity.
Defined.

Lemma simple_handleUpload_keeps_file (s : SimpleUpload.State) (script : Script Json) :
  SimpleUpload.file (final (SimpleUpload.handleUpload s script)) = SimpleUpload.file s.
Proof.
  unfold SimpleUpload.handleUpload.
  destruct (SimpleUpload.file s) as [g |] eqn:Eg; [| exact Eg].
  destruct script as [| [message | r] rest]; [reflexivity | reflexivity |].
  destruct (json r) as [message | data]; reflexivity.
Qed.

(** The single-page upload form only ever retains PDF-typed files. *)
Lemma simple_retained_file_is_pdf (s : SimpleUpload.State) :
  SimpleUpload.reachable s ->
  forall f, SimpleUpload.file s = Some f -> file_type f = "application/pdf".
Proof.
  induction 1 as [| s e Hs IH]; intros f Hf.
  - discriminate Hf.
  - destruct e as [[g |] | script]; cbn [SimpleUpload.step] in Hf.
    + unfold SimpleUpload.handleFileChange in Hf.
      destruct (String.eqb_spec (file_type g) "application/pdf") as [Hg | Hg];
        cbn in Hf; [| discriminate Hf].
      injection Hf as <-. exact Hg.
    + discriminate Hf.
    + rewrite simple_handleUpload_keeps_file in Hf. exact (IH f Hf).
Qed.

(** X10: the single-page form and POST /api/pdf fit together.  From any
    state the form can reach with a file retained, the upload it sends
    passes both checks of the endpoint, which answers 200 with a fresh
    document id; the form then holds that answer and shows the id, and no
    error line. *)
Theorem simple_upload_accepted (G : Type) (uuidv4 : G -> string * G) (g : G)
    (s : SimpleUpload.State) (f : File) :
  SimpleUpload.reachable s ->
  SimpleUpload.file s = Some f ->
  fst (uuidv4 g) <> "" ->
  let call := PostForm "/api/pdf" [("file", EntryFile f)] in
  let answer := fst (fst (Pdf.POST G uuidv4 g (Wire.request_of_call call))) in
  let run := SimpleUpload.handleUpload s [Ret (Wire.response_of answer)] in
  calls run = [call] /\
  answer = {| Server.body := JObj [("document_id", JStr (fst (uuidv4 g)));
                                   ("status", JStr "success")];
              Server.status := 200 |} /\
  SimpleUpload.response (final run) = Some (Server.body answer) /\
  SimpleUpload.shows_document_id (final run) = Some (JStr (fst (uuidv4 g))) /\
  SimpleUpload.shows_error (final run) = false.
Proof.
  intros Hreach Hfile Hid call answer run.
  pose proof (simple_retained_file_is_pdf s Hreach f Hfile) as Hpdf.
  assert (Hanswer : answer = {| Server.body := JObj [("document_id", JStr (fst (uuidv4 g)));
                                                      ("status", JStr "success")];
                                Server.status := 200 |}).
  { unfold answer, call, Pdf.POST, Wire.request_of_call. cbn.
    unfold Pdf.not_pdf. cbn. rewrite Hpdf. cbn.
    destruct (uuidv4 g) as [documentId g']. reflexivity. }
  unfold run, SimpleUpload.handleUpload. rewrite Hfile, Hanswer. cbn.
  apply String.eqb_neq in Hid.
  unfold SimpleUpload.shows_document_id, SimpleUpload.shows_error. cbn. rewrite Hid. cbn.
  repeat split.
Qed.

Lemma simple_upload_accepted_witness :
  SimpleUpload.shows_document_id
    (final (SimpleUpload.handleUpload MoreExamples.simple_with_pdf
              [Ret (Wire.response_of
                      (fst (fst (Pdf.POST nat Examples.counter_uuid 7%nat
                                   (Wire.request_of_call
                                      (PostForm "/api/pdf"
                                         [("file", EntryFile Examples.report_pdf)]))))))]))
  = Some (JStr "doc-7").
Proof.
  refine (proj1 (proj2 (proj2 (proj2
            (simple_upload_accepted nat Examples.counter_uuid 7%nat
               MoreExamples.simple_with_pdf Examples.report_pdf _ eq_refl _))))).
  - apply (SimpleUpload.reach_step SimpleUpload.initial
             (SimpleUpload.FileChange (Some Examples.report_pdf))).
    apply SimpleUpload.reach_initial.
  - discriminate.
Defined.

(** X11: in the variant that calls the backend directly, an upload of a
    retained file without [NEXT_PUBLIC_API_URL] sends nothing and ends in
    the error panel "API URL is not configured"; with the address set, the
    one request goes to [<address>/upload], whatever the network answers. *)
Theorem direct_upload_needs_address (api : option string) (uuid now : string)
    (s : Upload.State) (f : File) (script : Script Json) :
  Upload.file s = Some f ->
  (Server.not_configured api = true ->
     DirectUpload.handleUpload api uuid now s script
       = (mkRun {| Upload.file := Some f; Upload.uploading := false;
                   Upload.response :=
                     Some (Upload.error_response "API URL is not configured") |} [] true,
          None)) /\
  (forall address, api = Some address -> address <> "" ->
     calls (fst (DirectUpload.handleUpload api uuid now s script))
       = [PostForm (address ++ "/upload") [("file", EntryFile f)]]).
Proof.
  intros Hfile. unfold DirectUpload.handleUpload. rewrite Hfile. split.
  - intros ->. reflexivity.
  - intros address -> Hne. cbn. apply String.eqb_neq in Hne. rewrite Hne.
    destruct script as [| [message | r] rest]; [reflexivity | reflexivity |].
    destruct (json r) as [message | data]; [reflexivity |].
    destruct (Upload.make_fileInfo uuid now f data); reflexivity.
Qed.

Lemma direct_upload_needs_address_witness :
  DirectUpload.handleUpload None "id-1" "2024-01-01T00:00:00.000Z"
    MoreExamples.widget_with_pdf []
  = (mkRun {| Upload.file := Some Examples.report_pdf; Upload.uploading := false;
              Upload.response :=
                Some (Upload.error_response "API URL is not configured") |} [] true,
     None).
Proof.
  exact (proj1 (direct_upload_needs_address None "id-1" "2024-01-01T00:00:00.000Z"
                  MoreExamples.widget_with_pdf Examples.report_pdf [] eq_refl) eq_refl).
Defined.

(** X12: the session history is newest first.  After the entries of any
    number of completed uploads, the list holds them in reverse order of
    arrival in front of what it held before, and the selected entry is the
    last one that arrived. *)
Theorem history_newest_first (entries : list Upload.ProcessedFile) (s : Home.State) :
  let s' := fold_left (fun page e => Home.handleFileProcessed e page) entries s in
  Home.processedFiles s' = (rev entries ++ Home.processedFiles s)%list /\
  Home.selectedFile s' = match rev entries with
                         | newest :: _ => Some newest
                         | [] => Home.selectedFile s
                         end.
Proof.
  revert s. induction entries as [| e entries IH]; intros s; cbn.
  - split; reflexivity.
  - destruct (IH (Home.handleFileProcessed e s)) as [Hfiles Hsel].
    cbn zeta in Hfiles, Hsel. rewrite Hfiles, Hsel. cbn.
    split.
    + rewrite <- app_assoc. reflexivity.
    + destruct (rev entries) as [| newest older]; reflexivity.
Qed.

End UploadMore.
(* ===================================================================== *)
(** ** Properties of the pager controls and of client-side paging *)
(* ===================================================================== *)

Section PagerProperties.
Import Client Pager.

(** A page known to lie between 1 and 5 is found in a literal row. *)
Ltac pick_page p :=
  let H := fresh "Hpage" in
  assert (H : p = 1 \/ p = 2 \/ p = 3 \/ p = 4 \/ p = 5) by lia;
  destruct H as [-> | [-> | [-> | [-> | ->]]]]; simpl; solve [tauto | lia].

Lemma range_incl_four (a b : Z) :
  b = a + 3 -> range_incl a b = [a; a + 1; a + 2; a + 3].
Proof.
  intros ->. unfold range_incl. replace (a + 3 - a + 1) with 4 by lia.
  simpl. rewrite Z.add_0_r. reflexivity.
Qed.

Lemma range_incl_three (a b : Z) :
  b = a + 2 -> range_incl a b = [a; a + 1; a + 2].
Proof.
  intros ->. unfold range_incl. replace (a + 2 - a + 1) with 3 by lia.
  simpl. rewrite Z.add_0_r. reflexivity.
Qed.

(** X13: for a current page between 1 and the page count, the row of page
    numbers of the windowing table starts with page 1, ends with the last
    page, contains the current page, shows only pages that exist, in
    strictly increasing order, and has at most seven entries. *)
Theorem page_numbers_row (currentPage totalPages : Z) :
  1 <= currentPage <= totalPages ->
  let row := getPageNumbers currentPage totalPages in
  hd_error row = Some (PageNum 1) /\
  last row Ellipsis = PageNum totalPages /\
  In (PageNum currentPage) row /\
  (forall n, In n (page_numbers row) -> 1 <= n <= totalPages) /\
  StronglySorted Z.lt (page_numbers row) /\
  (List.length row <= 7)%nat.
Proof.
  intros Hcp row. unfold row, getPageNumbers.
  destruct (totalPages <=? 5) eqn:Esmall.
  - apply Z.leb_le in Esmall.
    assert (Htp : totalPages = 1 \/ totalPages = 2 \/ totalPages = 3 \/
                  totalPages = 4 \/ totalPages = 5) by lia.
    destruct Htp as [-> | [-> | [-> | [-> | ->]]]]; simpl;
      (split; [reflexivity |]; split; [reflexivity |]; split; [pick_page currentPage |];
       split; [intros n Hn; lia |]; split; [| lia]);
      repeat (constructor; try lia).
  - apply Z.leb_gt in Esmall.
    destruct (currentPage <=? 3) eqn:Estart.
    + apply Z.leb_le in Estart. simpl.
      split; [reflexivity |]. split; [reflexivity |]. split; [pick_page currentPage |].
      split; [intros n Hn; lia |]. split; [| lia].
      repeat (constructor; try lia).
    + apply Z.leb_gt in Estart.
      destruct (currentPage >=? totalPages - 2) eqn:Eend.
      * apply Z.geb_le in Eend.
        rewrite (range_incl_four (totalPages - 3) totalPages) by lia. simpl.
        split; [reflexivity |]. split; [f_equal; lia |]. split; [|split; [|split]].
        -- assert (H : currentPage = totalPages - 3 + 1 \/ currentPage = totalPages - 3 + 2 \/
                       currentPage = totalPages - 3 + 3) by lia.
           destruct H as [-> | [-> | ->]]; tauto.
        -- intros n Hn. lia.
        -- repeat (constructor; try lia).
        -- lia.
      * rewrite Z.geb_leb in Eend. apply Z.leb_gt in Eend.
        rewrite (range_incl_three (currentPage - 1) (currentPage + 1)) by lia. simpl.
        split; [reflexivity |]. split; [reflexivity |]. split; [|split; [|split]].
        -- replace (currentPage - 1 + 1) with currentPage by lia. tauto.
        -- intros n Hn. lia.
        -- repeat (constructor; try lia).
        -- lia.
Qed.

Lemma page_numbers_row_witness :
  getPageNumbers 7 20
  = [PageNum 1; Ellipsis; PageNum 6; PageNum 7; PageNum 8; Ellipsis; PageNum 20] /\
  In (PageNum 7) (getPageNumbers 7 20).
Proof.
  split; [reflexivity |].
  assert (H : 1 <= 7 <= 20) by lia.
  exact (proj1 (proj2 (proj2 (page_numbers_row 7 20 H)))).
Defined.

(** X14: for a current page between 1 and the page count, the
    server-paginated table shows min(5, page count) page buttons, for
    consecutive pages that all exist, the current page among them. *)
Theorem page_buttons_window (currentPage totalPages : Z) :
  1 <= currentPage <= totalPages ->
  let buttons := page_buttons currentPage totalPages in
  let first := page_button currentPage totalPages 0 in
  Z.of_nat (List.length buttons) = Z.min 5 totalPages /\
  buttons = range_incl first (first + Z.min 5 totalPages - 1) /\
  In currentPage buttons /\
  (forall n, In n buttons -> 1 <= n <= totalPages).
Proof.
  intros Hcp buttons first. unfold buttons, first, page_buttons, page_button, range_incl.
  destruct (totalPages <=? 5) eqn:Esmall.
  - apply Z.leb_le in Esmall.
    assert (Htp : totalPages = 1 \/ totalPages = 2 \/ totalPages = 3 \/
                  totalPages = 4 \/ totalPages = 5) by lia.
    destruct Htp as [-> | [-> | [-> | [-> | ->]]]]; simpl;
      (split; [reflexivity |]; split; [reflexivity |]; split; [pick_page currentPage |];
       intros n Hn; lia).
  - apply Z.leb_gt in Esmall.
    replace (Z.min 5 totalPages) with 5 by lia.
    destruct (currentPage <=? 3) eqn:Estart.
    + apply Z.leb_le in Estart. simpl.
      split; [reflexivity |]. split; [reflexivity |].
      split; [pick_page currentPage | intros n Hn; lia].
    + apply Z.leb_gt in Estart.
      destruct (currentPage >=? totalPages - 2) eqn:Eend.
      * apply Z.geb_le in Eend.
        replace (totalPages - 4 + 0 + 5 - 1 - (totalPages - 4 + 0) + 1) with 5 by lia.
        simpl. split; [reflexivity |]. split; [rewrite !Z.add_0_r; reflexivity |].
        split; [| intros n Hn; lia].
        assert (H : currentPage = totalPages - 4 + 2 \/ currentPage = totalPages - 4 + 3 \/
                    currentPage = totalPages - 4 + 4) by lia.
        destruct H as [-> | [-> | ->]]; tauto.
      * rewrite Z.geb_leb in Eend. apply Z.leb_gt in Eend.
        replace (currentPage - 2 + 0 + 5 - 1 - (currentPage - 2 + 0) + 1) with 5 by lia.
        simpl. split; [reflexivity |]. split; [rewrite !Z.add_0_r; reflexivity |].
        split; [| intros n Hn; lia].
        replace (currentPage - 2 + 2) with currentPage by lia. tauto.
Qed.

Lemma page_buttons_window_witness :
  page_buttons 9 10 = [6; 7; 8; 9; 10] /\ In 9 (page_buttons 9 10).
Proof.
  split; [reflexivity |].
  assert (H : 1 <= 9 <= 10) by lia.
  exact (proj1 (proj2 (proj2 (page_buttons_window 9 10 H)))).
Defined.

Lemma slice_nonneg {A} (l : list A) (a b : Z) :
  0 <= a -> a <= b ->
  slice l a b = firstn (Z.to_nat (b - a)) (skipn (Z.to_nat a) l).
Proof.
  intros Ha Hab. unfold slice.
  assert (E1 : (a <? 0) = false) by (apply Z.ltb_ge; lia).
  assert (E2 : (b <? 0) = false) by (apply Z.ltb_ge; lia).
  rewrite E1, E2.
  set (len := Z.of_nat (List.length l)).
  destruct (Z.le_gt_cases len a) as [Hbig | Hsmall].
  - (* the page starts beyond the end *)
    rewrite !skipn_all2 by lia. rewrite !firstn_nil. reflexivity.
  - replace (Z.min a len) with a by lia.
    destruct (Z.le_gt_cases b len) as [Hb | Hb].
    + replace (Z.max (Z.min b len - a) 0) with (b - a) by lia. reflexivity.
    + replace (Z.max (Z.min b len - a) 0) with (len - a) by lia.
      rewrite !firstn_all2; [reflexivity | |]; rewrite length_skipn; lia.
Qed.

Lemma firstn_plus {A} (a b : nat) (l : list A) :
  firstn (a + b) l = (firstn a l ++ firstn b (skipn a l))%list.
Proof.
  revert l. induction a as [| a IH]; intros l; cbn.
  - reflexivity.
  - destruct l as [| x l]; cbn.
    + rewrite firstn_nil. reflexivity.
    + f_equal. apply IH.
Qed.

Lemma concat_chunks {A} (p m : nat) (l : list A) :
  List.concat (map (fun k => firstn p (skipn (k * p) l)) (seq 0 m)) = firstn (m * p) l.
Proof.
  induction m as [| m IH].
  - reflexivity.
  - rewrite seq_S, map_app, concat_app, IH. cbn [map List.concat plus].
    rewrite app_nil_r, <- firstn_plus. f_equal. lia.
Qed.

(** The page count covers the cached documents. *)
Lemma ceil_div_covers (a b : Z) : 0 < b -> a <= b * WindowTable.ceil_div a b.
Proof.
  intros Hb. unfold WindowTable.ceil_div.
  pose proof (Z.mul_div_le (- a) b Hb). lia.
Qed.

(** A page within the page count starts before the end of the documents. *)
Lemma ceil_div_reaches (a b c : Z) :
  0 < b -> c <= WindowTable.ceil_div a b -> (c - 1) * b < a.
Proof.
  intros Hb Hc. unfold WindowTable.ceil_div in Hc.
  pose proof (Z.mul_succ_div_gt (- a) b Hb). nia.
Qed.

(** X15: client-side paging loses nothing and repeats nothing: with a
    positive page size, the pages 1 to [totalPages] of the windowing table,
    put end to end, are exactly the cached documents, and no page has more
    rows than the page size. *)
Theorem pages_partition_cache (s : WindowTable.State) :
  0 < WindowTable.pageSize s ->
  List.concat (map (page_rows s) (range_incl 1 (WindowTable.totalPages s)))
    = WindowTable.localDocuments s /\
  (forall page, 1 <= page ->
     Z.of_nat (List.length (page_rows s page)) <= WindowTable.pageSize s).
Proof.
  intros Hps.
  set (l := WindowTable.localDocuments s).
  set (ps := WindowTable.pageSize s) in *.
  assert (Hrows : forall k : nat,
            page_rows s (1 + Z.of_nat k)
            = firstn (Z.to_nat ps) (skipn (k * Z.to_nat ps) l)).
  { intros k. unfold page_rows. fold l ps.
    rewrite slice_nonneg by nia. f_equal; [f_equal; nia | f_equal; nia]. }
  split.
  - unfold range_incl. rewrite map_map.
    rewrite (map_ext _ _ Hrows), concat_chunks.
    apply firstn_all2.
    pose proof (ceil_div_covers (Z.of_nat (List.length l)) ps Hps) as Hcov.
    unfold WindowTable.totalPages, WindowTable.totalDocuments. fold l ps.
    replace (WindowTable.ceil_div (Z.of_nat (List.length l)) ps - 1 + 1)
      with (WindowTable.ceil_div (Z.of_nat (List.length l)) ps) by lia.
    nia.
  - intros page Hpage.
    replace page with (1 + Z.of_nat (Z.to_nat (page - 1))) by lia.
    rewrite Hrows, length_firstn. lia.
Qed.

Lemma pages_partition_cache_witness :
  List.concat (map (page_rows Examples.window_loaded)
              (range_incl 1 (WindowTable.totalPages Examples.window_loaded)))
  = WindowTable.localDocuments Examples.window_loaded.
Proof.
  assert (H : 0 < WindowTable.pageSize Examples.window_loaded) by reflexivity.
  exact (proj1 (pages_partition_cache Examples.window_loaded H)).
Defined.

(** X16: on a page that exists, the "Showing a-b" counters agree with the
    rows on display: with a positive page size and the current page between
    1 and [totalPages], the number of rows is [endItem - startItem + 1], at
    least 1 and at most the page size, and the counters stay within 1 and
    the number of cached documents. *)
Theorem counters_match_rows (s : WindowTable.State) :
  0 < WindowTable.pageSize s ->
  1 <= WindowTable.currentPage s <= WindowTable.totalPages s ->
  let rows := Z.of_nat (List.length (WindowTable.currentPageDocuments s)) in
  rows = endItem s - startItem s + 1 /\
  1 <= rows <= WindowTable.pageSize s /\
  1 <= startItem s /\ endItem s <= WindowTable.totalDocuments s.
Proof.
  intros Hps [Hlo Hhi] rows.
  pose proof (ceil_div_reaches _ _ _ Hps Hhi) as Hreach.
  unfold rows, WindowTable.currentPageDocuments, startItem, endItem.
  unfold WindowTable.totalDocuments in *.
  set (l := WindowTable.localDocuments s) in *.
  set (ps := WindowTable.pageSize s) in *.
  set (cp := WindowTable.currentPage s) in *.
  assert (Hpos : (Z.of_nat (List.length l) >? 0) = true) by (apply Z.gtb_lt; nia).
  rewrite Hpos, slice_nonneg by nia.
  rewrite length_firstn, length_skipn.
  nia.
Qed.

Lemma counters_match_rows_witness :
  Z.of_nat (List.length (WindowTable.currentPageDocuments Examples.window_loaded))
  = endItem Examples.window_loaded - startItem Examples.window_loaded + 1.
Proof.
  assert (H1 : 0 < WindowTable.pageSize Examples.window_loaded) by reflexivity.
  assert (H2 : 1 <= WindowTable.currentPage Examples.window_loaded
               <= WindowTable.totalPages Examples.window_loaded)
    by (split; discriminate).
  exact (proj1 (counters_match_rows Examples.window_loaded H1 H2)).
Defined.

End PagerProperties.
(* ===================================================================== *)
(** ** Further properties of the document tables *)
(* ===================================================================== *)

Section TablesMore.
Import Client.

(** The probe only moves forward: every request it sends is at or after
    its starting offset, with the page size as limit, and it stops at or
    after that offset. *)
Lemma probe_stops_later (script : Script DocumentsResponse) (pageSize offset : Z) :
  forall o docs, fst (fst (WindowTable.probe pageSize offset script))
                 = WindowTable.Stopped o docs -> offset <= o.
Proof.
  revert offset. induction script as [| answer rest IH]; intros offset o docs; cbn.
  - destruct (offset >=? 0); cbn; [discriminate | intros H; injection H as <- _; lia].
  - destruct (offset >=? 0); cbn; [| intros H; injection H as <- _; lia].
    destruct (checked_json answer) as [d | data]; cbn; [discriminate |].
    destruct (Z.of_nat (List.length (documents_or_empty data)) =? 0); cbn;
      [intros H; injection H as <- _; lia |].
    destruct (Z.of_nat (List.length (documents_or_empty data)) <? pageSize); cbn;
      [intros H; injection H as <- _; lia |].
    specialize (IH (offset + 100) o docs).
    destruct (WindowTable.probe pageSize (offset + 100) rest) as [[p more] unread].
    cbn in *. intros H. specialize (IH H). lia.
Qed.

Lemma probe_calls_later (script : Script DocumentsResponse) (pageSize offset : Z) :
  Forall (fun c => exists o, c = GetDocuments o pageSize /\ offset <= o)
         (snd (fst (WindowTable.probe pageSize offset script))).
Proof.
  revert offset. induction script as [| answer rest IH]; intros offset; cbn.
  - destruct (offset >=? 0); cbn; [| constructor].
    constructor; [exists offset; split; [reflexivity | lia] | constructor].
  - destruct (offset >=? 0); cbn; [| constructor].
    assert (Hhere : exists o, GetDocuments offset pageSize = GetDocuments o pageSize
                              /\ offset <= o)
      by (exists offset; split; [reflexivity | lia]).
    destruct (checked_json answer) as [d | data]; cbn; [repeat constructor; exact Hhere |].
    destruct (Z.of_nat (List.length (documents_or_empty data)) =? 0); cbn;
      [repeat constructor; exact Hhere |].
    destruct (Z.of_nat (List.length (documents_or_empty data)) <? pageSize); cbn;
      [repeat constructor; exact Hhere |].
    specialize (IH (offset + 100)).
    destruct (WindowTable.probe pageSize (offset + 100) rest) as [[p more] unread].
    cbn in *. constructor; [exact Hhere |].
    eapply Forall_impl; [| exact IH].
    intros c [o [-> Ho]]. exists o. split; [reflexivity | lia].
Qed.

(** X17: [handlePageChange] of the windowing table.  A page outside 1 to
    [totalPages] changes nothing and sends nothing.  A page inside only
    becomes the current page, without a request, unless it is the last page
    of a chunk that may have a successor and no load is in flight; then the
    next chunk is requested, at offset [(currentChunk + 1) * 100] with limit
    100, and the current page becomes 1. *)
Theorem page_change_cases (page : Z) (s : WindowTable.State)
    (script : Script DocumentsResponse) :
  (page < 1 \/ WindowTable.totalPages s < page ->
     WindowTable.handlePageChange page s script = mkRun s [] true) /\
  (1 <= page <= WindowTable.totalPages s ->
   page <> WindowTable.totalPages s \/ WindowTable.hasMoreDocuments s = false \/
   WindowTable.loadingMore s = true ->
     WindowTable.handlePageChange page s script
       = mkRun (WindowTable.with_page page (WindowTable.loadingMore s) s) [] true) /\
  (1 <= page -> page = WindowTable.totalPages s ->
   WindowTable.hasMoreDocuments s = true -> WindowTable.loadingMore s = false ->
     calls (WindowTable.handlePageChange page s script)
       = [GetDocuments ((WindowTable.currentChunk s + 1) * 100) 100] /\
     WindowTable.currentPage (final (WindowTable.handlePageChange page s script)) = 1).
Proof.
  unfold WindowTable.handlePageChange. split; [| split].
  - intros Hout.
    assert (E : (1 <=? page) && (page <=? WindowTable.totalPages s) = false).
    { apply andb_false_iff. destruct Hout; [left; apply Z.leb_gt | right; apply Z.leb_gt]; lia. }
    rewrite E. reflexivity.
  - intros [Hlo Hhi] Hstay.
    assert (E : (1 <=? page) && (page <=? WindowTable.totalPages s) = true)
      by (apply andb_true_iff; split; apply Z.leb_le; lia).
    rewrite E.
    assert (E2 : (page =? WindowTable.totalPages s) && WindowTable.hasMoreDocuments s
                 && negb (WindowTable.loadingMore s) = false).
    { destruct Hstay as [Hne | [Hm | Hl]].
      - apply Z.eqb_neq in Hne. rewrite Hne. reflexivity.
      - rewrite Hm, andb_false_r. reflexivity.
      - rewrite Hl, andb_false_r. reflexivity. }
    rewrite E2. reflexivity.
  - intros Hlo -> Hmore Hidle.
    assert (E : (1 <=? WindowTable.totalPages s)
                && (WindowTable.totalPages s <=? WindowTable.totalPages s) = true)
      by (apply andb_true_iff; split; apply Z.leb_le; lia).
    rewrite E, Z.eqb_refl, Hmore, Hidle. cbn [andb negb].
    unfold WindowTable.fetchDocuments.
    destruct script as [| answer rest]; [split; reflexivity |].
    destruct (checked_json answer); split; reflexivity.
Qed.

Lemma page_change_cases_witness :
  WindowTable.handlePageChange 7 Examples.window_loaded [] = mkRun Examples.window_loaded [] true /\
  WindowTable.handlePageChange 2 Examples.window_loaded []
    = mkRun (WindowTable.with_page 2 false Examples.window_loaded) [] true.
Proof.
  pose proof (page_change_cases 7 Examples.window_loaded []) as [Hout _].
  pose proof (page_change_cases 2 Examples.window_loaded []) as [_ [Hin _]].
  split.
  - apply Hout. right. reflexivity.
  - apply Hin; [split; discriminate | right; left; reflexivity].
Defined.

(** X18: moving on to the next chunk does not last.  When "next" on the
    last page loads chunk [currentChunk + 1], the chunk index changes, the
    effect that depends on it runs [fetchDocuments()] with its default
    offset, and after that answer the table holds chunk 0 again. *)
Theorem chunk_advance_is_undone (s : WindowTable.State)
    (next first : Exn (Response DocumentsResponse)) (d1 d0 : DocumentsResponse) :
  1 <= WindowTable.totalPages s ->
  WindowTable.hasMoreDocuments s = true ->
  WindowTable.loadingMore s = false ->
  checked_json next = Ret d1 ->
  checked_json first = Ret d0 ->
  let advance := WindowTable.handlePageChange (WindowTable.totalPages s) s [next] in
  let reload := WindowTable.after_render s (final advance) [first] in
  WindowTable.currentChunk (final advance) = WindowTable.currentChunk s + 1 /\
  WindowTable.localDocuments (final advance) = documents_or_empty d1 /\
  calls reload = [GetDocuments 0 100] /\
  WindowTable.currentChunk (final reload) = 0 /\
  WindowTable.localDocuments (final reload) = documents_or_empty d0.
Proof.
  intros Hpages Hmore Hidle Hnext Hfirst advance reload.
  assert (Hadv : advance
                 = WindowTable.fetchDocuments ((WindowTable.currentChunk s + 1) * 100)
                     (WindowTable.with_page 1 true s) [next]).
  { unfold advance, WindowTable.handlePageChange.
    assert (E : (1 <=? WindowTable.totalPages s)
                && (WindowTable.totalPages s <=? WindowTable.totalPages s) = true)
      by (apply andb_true_iff; split; apply Z.leb_le; lia).
    rewrite E, Z.eqb_refl, Hmore, Hidle. reflexivity. }
  assert (Hchunk : WindowTable.currentChunk (final advance) = WindowTable.currentChunk s + 1).
  { rewrite Hadv. unfold WindowTable.fetchDocuments. rewrite Hnext.
    cbn [final WindowTable.currentChunk]. apply Z.div_mul. lia. }
  split; [exact Hchunk |]. split.
  - rewrite Hadv. unfold WindowTable.fetchDocuments. rewrite Hnext. reflexivity.
  - unfold reload, WindowTable.after_render, WindowTable.effect_due. rewrite Hchunk.
    assert (E : (WindowTable.currentChunk s =? WindowTable.currentChunk s + 1) = false)
      by (apply Z.eqb_neq; lia).
    rewrite E. cbn [negb]. unfold WindowTable.fetchDocuments. rewrite Hfirst.
    repeat split.
Qed.

Lemma chunk_advance_is_undone_witness :
  WindowTable.currentChunk
    (final (WindowTable.after_render MoreExamples.window_full_chunk
              (final (WindowTable.handlePageChange 20 MoreExamples.window_full_chunk
                        [Examples.answer_with Examples.five_docs]))
              [Examples.answer_with MoreExamples.hundred_docs])) = 0.
Proof.
  exact (proj1 (proj2 (proj2 (proj2
           (chunk_advance_is_undone MoreExamples.window_full_chunk
              (Examples.answer_with Examples.five_docs)
              (Examples.answer_with MoreExamples.hundred_docs) _ _
              ltac:(discriminate) eq_refl eq_refl eq_refl eq_refl))))).
Defined.

(** X19: a failed fetch leaves both tables' data as it was.  When the fetch
    rejects, the answer's status is not ok (even if its body is valid
    JSON), or the body cannot be parsed, the windowing table keeps its
    cached documents, chunk index, page and [hasMoreDocuments], and the
    server-paginated table keeps its page of documents; both only raise
    their error banner and drop the loading flags. *)
Theorem fetch_failure_keeps_cache (chunkOffset : Z) (w : WindowTable.State)
    (p : PagedTable.State) (answer : Exn (Response DocumentsResponse))
    (rest : Script DocumentsResponse) :
  (exists d, answer = Throw d) \/
  (exists r, answer = Ret r /\ (ok r = false \/ exists d, json r = Throw d)) ->
  WindowTable.fetchDocuments chunkOffset w (answer :: rest)
    = mkRun {| WindowTable.documents := WindowTable.documents w;
               WindowTable.loading := false;
               WindowTable.error := Some "Failed to fetch documents. Please try again.";
               WindowTable.currentPage := WindowTable.currentPage w;
               WindowTable.pageSize := WindowTable.pageSize w;
               WindowTable.localDocuments := WindowTable.localDocuments w;
               WindowTable.currentChunk := WindowTable.currentChunk w;
               WindowTable.hasMoreDocuments := WindowTable.hasMoreDocuments w;
               WindowTable.loadingMore := false |}
            [GetDocuments chunkOffset 100] true /\
  PagedTable.fetchDocuments p (answer :: rest)
    = mkRun {| PagedTable.documents := PagedTable.documents p;
               PagedTable.loading := false;
               PagedTable.error := Some "Failed to fetch documents. Please try again.";
               PagedTable.currentPage := PagedTable.currentPage p;
               PagedTable.pageSize := PagedTable.pageSize p |}
            [GetDocuments ((PagedTable.currentPage p - 1) * PagedTable.pageSize p)
                          (PagedTable.pageSize p)] true.
Proof.
  intros Hfail.
  assert (Hthrow : exists d, checked_json answer = Throw d).
  { destruct Hfail as [[d ->] | [r [-> [Hok | [d Hj]]]]]; cbn.
    - exists d. reflexivity.
    - rewrite Hok. cbn. eexists. reflexivity.
    - destruct (ok r); cbn; [exists d; exact Hj | eexists; reflexivity]. }
  destruct Hthrow as [d Hd].
  unfold WindowTable.fetchDocuments, PagedTable.fetchDocuments. rewrite Hd.
  split; reflexivity.
Qed.

Lemma fetch_failure_keeps_cache_witness :
  WindowTable.localDocuments
    (final (WindowTable.fetchDocuments 100 Examples.window_loaded
              [MoreExamples.answer_500]))
  = WindowTable.localDocuments Examples.window_loaded.
Proof.
  assert (H : (exists d, MoreExamples.answer_500 = Throw d) \/
              (exists r, MoreExamples.answer_500 = Ret r /\
                         (ok r = false \/ exists d, json r = Throw d))).
  { right. eexists. split; [reflexivity | left; reflexivity]. }
  rewrite (proj1 (fetch_failure_keeps_cache 100 Examples.window_loaded
                    Examples.paged_loaded MoreExamples.answer_500 [] H)).
  reflexivity.
Defined.

(** The four ways a run of [handleLastPage] can leave the state. *)
Lemma handleLastPage_final (s : WindowTable.State) (script : Script DocumentsResponse) :
  let run := WindowTable.handleLastPage s script in
  (WindowTable.loadingMore s = true /\ run = mkRun s [] true) \/
  (WindowTable.loadingMore s = false /\
   ((settled run = false /\ final run = WindowTable.with_loadingMore true s) \/
    (settled run = true /\ final run = WindowTable.last_page_failed s) \/
    (settled run = true /\
     exists offset docs, 0 <= offset /\
                         final run = WindowTable.last_page_found offset docs s))).
Proof.
  cbn zeta. unfold WindowTable.handleLastPage.
  destruct (WindowTable.loadingMore s) eqn:Hidle; [left; split; reflexivity | right].
  split; [reflexivity |].
  pose proof (probe_stops_later script (WindowTable.pageSize s) 1000) as Hlater.
  destruct (WindowTable.probe (WindowTable.pageSize s) 1000 script) as [[p probes] unread].
  cbn [fst] in Hlater.
  destruct p as [| d | o l].
  - left. split; reflexivity.
  - right; left. split; reflexivity.
  - specialize (Hlater o l eq_refl).
    destruct (Z.of_nat (List.length l) =? 0).
    + destruct unread as [| b unread]; [left; split; reflexivity |].
      destruct (checked_json b) as [d | data].
      * right; left. split; reflexivity.
      * right; right. split; [reflexivity |].
        exists (WindowTable.lastPageOffset s), (documents_or_empty data).
        split; [unfold WindowTable.lastPageOffset; lia | reflexivity].
    + right; right. split; [reflexivity |]. exists o, l. split; [lia | reflexivity].
Qed.

(** X20: what "go to last page" never touches, and how it fails.  Page
    size, [hasMoreDocuments] and the last listing envelope are never
    changed; while another load is in flight the handler does nothing;
    otherwise a finished run always clears [loadingMore]; and a run that
    ends in its error banner has kept the cached documents, the page and
    the chunk index. *)
Theorem last_page_frame (s : WindowTable.State) (script : Script DocumentsResponse) :
  let run := WindowTable.handleLastPage s script in
  WindowTable.pageSize (final run) = WindowTable.pageSize s /\
  WindowTable.hasMoreDocuments (final run) = WindowTable.hasMoreDocuments s /\
  WindowTable.documents (final run) = WindowTable.documents s /\
  (WindowTable.loadingMore s = true -> run = mkRun s [] true) /\
  (WindowTable.loadingMore s = false -> settled run = true ->
     WindowTable.loadingMore (final run) = false) /\
  (WindowTable.error (final run) <> WindowTable.error s ->
     WindowTable.error (final run) = Some "Failed to fetch last page. Please try again." /\
     WindowTable.localDocuments (final run) = WindowTable.localDocuments s /\
     WindowTable.currentPage (final run) = WindowTable.currentPage s /\
     WindowTable.currentChunk (final run) = WindowTable.currentChunk s).
Proof.
  intros run.
  destruct (handleLastPage_final s script)
    as [[Hbusy Hrun] | [Hidle [[Hset Hfin] | [[Hset Hfin] | [Hset [o [docs [_ Hfin]]]]]]]];
    fold run in Hrun || fold run in Hset, Hfin.
  - rewrite Hrun. cbn. repeat split; solve [reflexivity | congruence].
  - rewrite Hfin, Hset. cbn. repeat split; solve [reflexivity | congruence].
  - rewrite Hfin. cbn. repeat split; solve [reflexivity | congruence].
  - rewrite Hfin. cbn. repeat split; solve [reflexivity | congruence].
Qed.

(** X21: the probe has no upper bound.  As long as every answer is a full
    page the handler keeps asking, 100 further each time: after [n] full
    pages it has sent [n + 1] requests, at offsets 1000 to 1000 + 100 n, and
    is still waiting, with [loadingMore] set. *)
Theorem last_page_probe_keeps_asking (s : WindowTable.State)
    (full : Script DocumentsResponse) :
  WindowTable.loadingMore s = false ->
  0 < WindowTable.pageSize s ->
  Forall (WindowTable.full_page (WindowTable.pageSize s)) full ->
  WindowTable.handleLastPage s full
    = mkRun (WindowTable.with_loadingMore true s)
            (map (fun o => GetDocuments o (WindowTable.pageSize s))
                 (WindowTable.offsets_from 1000 (S (List.length full))))
            false.
Proof.
  intros Hidle Hps Hfull.
  assert (H0 : 0 <= 1000) by lia.
  pose proof (probe_full_pages full (WindowTable.pageSize s) 1000 [] Hps H0 Hfull) as Hprobe.
  rewrite app_nil_r in Hprobe.
  unfold WindowTable.handleLastPage. rewrite Hidle, Hprobe.
  cbn [WindowTable.probe].
  assert (Hge : (1000 + 100 * Z.of_nat (List.length full) >=? 0) = true)
    by (apply Z.geb_le; lia).
  rewrite Hge. rewrite <- offsets_from_snoc, map_app. reflexivity.
Qed.

Lemma last_page_probe_keeps_asking_witness :
  WindowTable.handleLastPage Examples.window_loaded
    [Examples.answer_with Examples.five_docs; Examples.answer_with Examples.five_docs]
  = mkRun (WindowTable.with_loadingMore true Examples.window_loaded)
          [GetDocuments 1000 5; GetDocuments 1100 5; GetDocuments 1200 5] false.
Proof.
  assert (Hone : WindowTable.full_page 5 (Examples.answer_with Examples.five_docs))
    by (exists Examples.five_docs; split; reflexivity).
  exact (last_page_probe_keeps_asking Examples.window_loaded
           [Examples.answer_with Examples.five_docs; Examples.answer_with Examples.five_docs]
           eq_refl eq_refl
           (Forall_cons _ Hone (Forall_cons _ Hone (Forall_nil _)))).
Defined.

Lemma ceil_div_one (n b : Z) : 0 < n -> n <= b -> WindowTable.ceil_div n b = 1.
Proof.
  intros Hn Hb. unfold WindowTable.ceil_div.
  assert (H : - n / b = -1).
  { symmetry. apply (Z.div_unique_pos (- n) b (-1) (b - n)); lia. }
  rewrite H. reflexivity.
Qed.

(** X22: when "go to last page" finds the last page at its first probe,
    the state it leaves shows exactly the records of that answer on a
    single page of chunk 10, so the pager, which is only rendered for more
    than one page, is not shown.  Unless the table was on chunk 10 already,
    the chunk index has changed, the effect reloads offset 0, and its
    answer replaces the last page. *)
Theorem last_page_hides_pager (s : WindowTable.State)
    (answer : Exn (Response DocumentsResponse)) (rest : Script DocumentsResponse)
    (docs : list Document) :
  WindowTable.loadingMore s = false ->
  WindowTable.delivered answer = Ret docs ->
  docs <> [] ->
  Z.of_nat (List.length docs) < WindowTable.pageSize s ->
  let s' := final (WindowTable.handleLastPage s (answer :: rest)) in
  WindowTable.localDocuments s' = docs /\
  WindowTable.currentPageDocuments s' = docs /\
  WindowTable.currentChunk s' = 10 /\
  WindowTable.totalPages s' = 1 /\
  Pager.pagination_shown s' = false /\
  (WindowTable.currentChunk s <> 10 ->
   forall first d0,
     checked_json first = Ret d0 ->
     calls (WindowTable.after_render s s' [first]) = [GetDocuments 0 100] /\
     WindowTable.localDocuments (final (WindowTable.after_render s s' [first]))
       = documents_or_empty d0).
Proof.
  intros Hidle Hdel Hne Hshort s'.
  assert (H0 : 0 <= 1000) by lia.
  assert (Hfound : s' = WindowTable.last_page_found 1000 docs s).
  { unfold s', WindowTable.handleLastPage. rewrite Hidle.
    rewrite (probe_short_page _ _ answer rest docs H0 Hdel Hshort).
    destruct docs as [| d0 docs0]; [contradiction | reflexivity]. }
  assert (Hlen : 0 < Z.of_nat (List.length docs))
    by (destruct docs; [contradiction | cbn [List.length]; lia]).
  assert (Hpages : WindowTable.totalPages s' = 1).
  { rewrite Hfound. unfold WindowTable.totalPages, WindowTable.totalDocuments.
    cbn [WindowTable.last_page_found WindowTable.localDocuments WindowTable.pageSize].
    apply ceil_div_one; lia. }
  split; [rewrite Hfound; reflexivity |]. split; [| split; [| split]].
  - rewrite Hfound. unfold WindowTable.currentPageDocuments.
    cbn [WindowTable.last_page_found WindowTable.localDocuments WindowTable.pageSize
         WindowTable.currentPage].
    rewrite slice_first_page by lia. apply firstn_all2. lia.
  - rewrite Hfound. reflexivity.
  - exact Hpages.
  - split; [unfold Pager.pagination_shown; rewrite Hpages; apply andb_false_r |].
    intros Hchunk first d0 Hfirst.
    unfold WindowTable.after_render, WindowTable.effect_due. rewrite Hfound.
    cbn [WindowTable.last_page_found WindowTable.currentChunk].
    change (1000 / 100) with 10.
    apply Z.eqb_neq in Hchunk. rewrite Hchunk. cbn [negb].
    unfold WindowTable.fetchDocuments. rewrite Hfirst. split; reflexivity.
Qed.

Lemma last_page_hides_pager_witness :
  Pager.pagination_shown
    (final (WindowTable.handleLastPage MoreExamples.window_full_chunk
              [Examples.answer_with [Examples.doc 1001; Examples.doc 1002]])) = false /\
  Pager.pagination_shown MoreExamples.window_full_chunk = true.
Proof.
  split; [| reflexivity].
  refine (proj1 (proj2 (proj2 (proj2 (proj2
            (last_page_hides_pager MoreExamples.window_full_chunk
               (Examples.answer_with [Examples.doc 1001; Examples.doc 1002]) []
               [Examples.doc 1001; Examples.doc 1002] eq_refl eq_refl _ eq_refl)))))).
  discriminate.
Defined.

(** X24: in the server-paginated table a click on another page sends one
    request, for offset [(page - 1) * pageSize] with the page size as
    limit, and a click on the current page sends nothing; when the answer
    arrives it replaces the page of documents, and the first row's counter
    is that offset plus 1. *)
Theorem paged_page_change_fetches (page : Z) (p : PagedTable.State)
    (script : Script DocumentsResponse) :
  let run := Pager.go_to_page page p script in
  PagedTable.currentPage (final run) = page /\
  calls run = (if page =? PagedTable.currentPage p then []
               else [GetDocuments ((page - 1) * PagedTable.pageSize p)
                                  (PagedTable.pageSize p)]) /\
  (page <> PagedTable.currentPage p ->
   forall answer rest data,
     script = answer :: rest -> checked_json answer = Ret data ->
     PagedTable.documents (final run) = Some data /\
     Pager.paged_startItem (final run) = (page - 1) * PagedTable.pageSize p + 1).
Proof.
  cbn zeta. unfold Pager.go_to_page, PagedTable.after_render, PagedTable.effect_due.
  cbn [PagedTable.handlePageChange PagedTable.currentPage PagedTable.pageSize].
  rewrite Z.eqb_refl, andb_true_r, (Z.eqb_sym (PagedTable.currentPage p) page).
  destruct (page =? PagedTable.currentPage p) eqn:Esame; cbn [negb].
  - apply Z.eqb_eq in Esame.
    split; [reflexivity | split; [reflexivity | intros Hne; contradiction]].
  - unfold PagedTable.fetchDocuments.
    cbn [PagedTable.handlePageChange PagedTable.currentPage PagedTable.pageSize].
    split; [| split].
    + destruct script as [| answer rest]; [reflexivity |].
      destruct (checked_json answer); reflexivity.
    + destruct script as [| answer rest]; [reflexivity |].
      destruct (checked_json answer); reflexivity.
    + intros _ answer rest data -> Hj. rewrite Hj. split; reflexivity.
Qed.

(** X25: failures on the browser side do reach the error panel.  A
    selection that is not a PDF is shown as "Please select a valid PDF
    file", and a rejected upload request is shown with the failure's own
    message. *)
Theorem client_errors_shown (uuid now message : string) (s : Upload.State) (f : File)
    (rest : Script Json) :
  (file_type f <> "application/pdf" ->
     option_map Display.ResponseDisplay
                (Upload.response (Upload.handleFileChange (Some f) s))
     = Some (Display.ErrorPanel (Some (JStr "Please select a valid PDF file")))) /\
  (message <> "" -> Upload.file s = Some f ->
     option_map Display.ResponseDisplay
                (Upload.response
                   (final (fst (Upload.handleUpload uuid now s (Throw message :: rest)))))
     = Some (Display.ErrorPanel (Some (JStr message)))).
Proof.
  split.
  - intros Hty. unfold Upload.handleFileChange.
    destruct (String.eqb_spec (file_type f) "application/pdf"); [contradiction |].
    reflexivity.
  - intros Hmsg Hfile. unfold Upload.handleUpload. rewrite Hfile.
    cbn [final fst Upload.response option_map].
    unfold Display.ResponseDisplay, Upload.error_response. cbn.
    unfold Display.or_else. cbn.
    apply String.eqb_neq in Hmsg. rewrite Hmsg. reflexivity.
Qed.

Lemma client_errors_shown_witness :
  option_map Display.ResponseDisplay
             (Upload.response (Upload.handleFileChange (Some Examples.notes_txt) Upload.initial))
  = Some (Display.ErrorPanel (Some (JStr "Please select a valid PDF file"))).
Proof.
  refine (proj1 (client_errors_shown "id-1" "2024-01-01T00:00:00.000Z" "offline"
                   Upload.initial Examples.notes_txt []) _).
  discriminate.
Defined.

End TablesMore.
(* ===================================================================== *)
(** ** The windowing table under any sequence of user actions *)
(* ===================================================================== *)

Section WindowUIProperties.
Import Client.

Lemma fetchDocuments_keeps_shape (chunkOffset : Z) (s : WindowTable.State)
    (script : Script DocumentsResponse) :
  0 <= chunkOffset ->
  0 <= WindowTable.currentChunk s ->
  let s' := final (WindowTable.fetchDocuments chunkOffset s script) in
  WindowTable.pageSize s' = WindowTable.pageSize s /\
  WindowTable.currentPage s' = WindowTable.currentPage s /\
  0 <= WindowTable.currentChunk s'.
Proof.
  intros Hoff Hchunk. cbn zeta. unfold WindowTable.fetchDocuments.
  destruct script as [| answer rest]; [repeat split; assumption |].
  destruct (checked_json answer); cbn; repeat split; try assumption.
  apply Z.div_pos; lia.
Qed.

(** Page size among the options, page at least 1, chunk index not
    negative: kept by every action. *)
Lemma run_action_keeps_shape (a : WindowUI.Action) (s : WindowTable.State)
    (script : Script DocumentsResponse) :
  WindowUI.offered a ->
  In (WindowTable.pageSize s) WindowTable.page_size_options ->
  1 <= WindowTable.currentPage s ->
  0 <= WindowTable.currentChunk s ->
  let s' := final (WindowUI.run_action a s script) in
  In (WindowTable.pageSize s') WindowTable.page_size_options /\
  1 <= WindowTable.currentPage s' /\
  0 <= WindowTable.currentChunk s'.
Proof.
  intros Hoffered Hsize Hpage Hchunk. cbn zeta.
  destruct a as [| page | | newPageSize]; cbn [WindowUI.run_action].
  - destruct (fetchDocuments_keeps_shape 0 s script (Z.le_refl 0) Hchunk) as (E1 & E2 & E3).
    rewrite E1, E2. repeat split; assumption.
  - unfold WindowTable.handlePageChange.
    destruct ((1 <=? page) && (page <=? WindowTable.totalPages s)) eqn:Erange;
      [| repeat split; assumption].
    apply andb_true_iff in Erange. destruct Erange as [Hlo _]. apply Z.leb_le in Hlo.
    destruct ((page =? WindowTable.totalPages s) && WindowTable.hasMoreDocuments s
              && negb (WindowTable.loadingMore s)).
    + assert (Hnext : 0 <= (WindowTable.currentChunk s + 1) * 100) by lia.
      destruct (fetchDocuments_keeps_shape _ (WindowTable.with_page 1 true s) script
                  Hnext Hchunk) as (E1 & E2 & E3).
      rewrite E1, E2. cbn. repeat split; try assumption. lia.
    + cbn. repeat split; assumption.
  - destruct (handleLastPage_final s script)
      as [[_ Hrun] | [_ [[_ Hfin] | [[_ Hfin] | [_ [o [docs [Ho Hfin]]]]]]]].
    + rewrite Hrun. repeat split; assumption.
    + rewrite Hfin. repeat split; assumption.
    + rewrite Hfin. repeat split; assumption.
    + rewrite Hfin. cbn. repeat split; try assumption; try lia.
      apply Z.div_pos; lia.
  - cbn in Hoffered |- *. repeat split; try assumption. lia.
Qed.

Lemma reachable_shape (s : WindowTable.State) :
  WindowUI.reachable s ->
  In (WindowTable.pageSize s) WindowTable.page_size_options /\
  1 <= WindowTable.currentPage s /\
  0 <= WindowTable.currentChunk s.
Proof.
  induction 1 as [| s a script _ IH Hoffered].
  - cbn. repeat split; lia.
  - destruct IH as (H1 & H2 & H3).
    exact (run_action_keeps_shape a s script Hoffered H1 H2 H3).
Qed.

(** X23: in every state the windowing table can reach through its
    controls, the page size is one of 5, 10, 25 and 50, the current page is
    at least 1 and the chunk index is not negative; and whatever the user
    does next, every request sent is a listing request with an offset that
    is not negative and a limit above 0. *)
Theorem ui_requests_well_formed (s : WindowTable.State) (a : WindowUI.Action)
    (script : Script DocumentsResponse) :
  WindowUI.reachable s ->
  WindowUI.offered a ->
  (In (WindowTable.pageSize s) WindowTable.page_size_options /\
   1 <= WindowTable.currentPage s /\
   0 <= WindowTable.currentChunk s) /\
  Forall WindowUI.well_formed (calls (WindowUI.run_action a s script)).
Proof.
  intros Hreach Hoffered.
  pose proof (reachable_shape s Hreach) as (Hsize & Hpage & Hchunk).
  split; [repeat split; assumption |].
  assert (Hpos : 0 < WindowTable.pageSize s).
  { unfold WindowTable.page_size_options in Hsize. cbn in Hsize.
    destruct Hsize as [<- | [<- | [<- | [<- | []]]]]; lia. }
  destruct a as [| page | | newPageSize]; cbn [WindowUI.run_action calls].
  - unfold WindowTable.fetchDocuments.
    destruct script as [| answer rest]; [repeat constructor; lia |].
    destruct (checked_json answer); repeat constructor; lia.
  - unfold WindowTable.handlePageChange.
    destruct ((1 <=? page) && (page <=? WindowTable.totalPages s)); [| constructor].
    destruct ((page =? WindowTable.totalPages s) && WindowTable.hasMoreDocuments s
              && negb (WindowTable.loadingMore s)); [| constructor].
    unfold WindowTable.fetchDocuments.
    destruct script as [| answer rest]; [repeat constructor; lia |].
    destruct (checked_json answer); repeat constructor; lia.
  - destruct (handleLastPage_calls s script) as [extra [Hcalls Hextra]].
    rewrite Hcalls.
    destruct (WindowTable.loadingMore s); [constructor |].
    apply Forall_app. split.
    + eapply Forall_impl; [| apply probe_calls_later].
      intros c [o [-> Ho]]. cbn. lia.
    + destruct Hextra as [-> | ->]; [constructor |].
      constructor; [| constructor]. cbn. unfold WindowTable.lastPageOffset. lia.
  - constructor.
Qed.

Lemma ui_requests_well_formed_witness :
  Forall WindowUI.well_formed
    (calls (WindowUI.run_action WindowUI.GoToLastPage Examples.window_loaded
              [Examples.answer_with Examples.five_docs; Examples.answer_with []])).
Proof.
  refine (proj2 (ui_requests_well_formed Examples.window_loaded WindowUI.GoToLastPage
                   [Examples.answer_with Examples.five_docs; Examples.answer_with []] _ I)).
  exact (WindowUI.reach_action WindowTable.initial WindowUI.Refresh
           [Examples.answer_with (Examples.five_docs ++ Examples.five_docs)]
           WindowUI.reach_initial I).
Defined.

End WindowUIProperties.
(* ===================================================================== *)
(** ** The further properties on concrete inputs *)
(* ===================================================================== *)

Section MoreWitnesses.
Import Client.

Lemma relays_fanout_and_status_witness :
  Server.status (fst (Proxy.POST Examples.env_422 Examples.upload_request)) = 200 /\
  List.length (fetches (snd (Proxy.POST Examples.env_422 Examples.upload_request))) = 1%nat.
Proof.
  pose proof (relays_fanout_and_status Examples.env_422 Examples.upload_request
                nat Examples.counter_uuid 0%nat) as [[_ [_ Hone]] _].
  split; [reflexivity | exact (Hone eq_refl)].
Defined.

Lemma summary_groups_bounded_witness :
  exists f,
    In f [Examples.finding_of_type "constructor"; Examples.finding_of_type "EMAIL"] /\
    Findings.type f = "EMAIL".
Proof.
  refine (proj2 (summary_groups_bounded
                   [Examples.finding_of_type "constructor"; Examples.finding_of_type "EMAIL"])
            "EMAIL" (Findings.VNum 1) _).
  right. left. reflexivity.
Defined.

Lemma card_label_normalised_witness :
  Display.card_label (Examples.finding_of_type "CREDIT_CARD") = "credit card" /\
  String.length (Display.card_label (Examples.finding_of_type "CREDIT_CARD")) = 11%nat.
Proof.
  split; [reflexivity |].
  exact (proj1 (card_label_normalised (Examples.finding_of_type "CREDIT_CARD") eq_refl)).
Defined.

Lemma last_page_frame_witness :
  WindowTable.localDocuments
    (final (WindowTable.handleLastPage Examples.window_loaded [MoreExamples.answer_500]))
  = WindowTable.localDocuments Examples.window_loaded.
Proof.
  refine (proj1 (proj2 (proj2 (proj2 (proj2 (proj2 (proj2
            (last_page_frame Examples.window_loaded [MoreExamples.answer_500]))))) _))).
  discriminate.
Defined.

Lemma paged_page_change_fetches_witness :
  calls (Pager.go_to_page 3 Examples.paged_loaded []) = [GetDocuments 20 10] /\
  Pager.paged_startItem
    (final (Pager.go_to_page 3 Examples.paged_loaded [Examples.answer_with Examples.five_docs]))
  = 21.
Proof.
  split.
  - exact (proj1 (proj2 (paged_page_change_fetches 3 Examples.paged_loaded []))).
  - refine (proj2 (proj2 (proj2 (paged_page_change_fetches 3 Examples.paged_loaded
                                   [Examples.answer_with Examples.five_docs]))
                     _ _ _ _ eq_refl eq_refl)).
    discriminate.
Defined.

Lemma summary_counts_sum_witness :
  Findings.sum_counts
    (Findings.summary_groups
       [Examples.finding_of_type "EMAIL"; Examples.finding_of_type "SSN";
        Examples.finding_of_type "email"; Examples.finding_of_type "EMAIL"])
  = Some 4.
Proof.
  apply (summary_counts_sum
           [Examples.finding_of_type "EMAIL"; Examples.finding_of_type "SSN";
            Examples.finding_of_type "email"; Examples.finding_of_type "EMAIL"]).
  repeat constructor.
Defined.

End MoreWitnesses.
